(** * tutorplanner: clash-aware scheduling and billing core of [app.js]

    A shallow embedding of the scheduling core of the tutor planner
    (time arithmetic, clash detection, slot suggestions, the lifecycle
    classifier of the report, the per-student aggregation and the form
    handlers), followed by the properties proved about it.

    Conventions of the embedding:
    - JavaScript strings are [string]; [<], [<=] on strings are the
      lexicographic comparisons [String.ltb], [String.leb] (code units);
    - a property that may be absent is an [option]; truthiness is written
      out ([truthy]);
    - integer-valued JavaScript numbers are [Z], and [NaN] is [None];
    - the one genuinely fractional computation, [Math.round((m / 60) * r)],
      is evaluated in IEEE-754 binary64 with the operations of [SpecFloat];
    - objects used as dictionaries ([studentRates], [paymentStatus],
      [studentStats]) are [gmap string _] (a key is taken not to collide
      with a member of [Object.prototype]);
    - the module-level variables of [app.js] are the fields of [State],
      and a handler is a function from [State] to an outcome and a [State]. *)

From Stdlib Require Import ZArith Lia Bool List Ascii String Sorting.Sorted.
From Stdlib Require Import Numbers.DecimalString Floats.SpecFloat.
From stdpp Require Import gmap strings list fin_maps sorting.

Local Open Scope string_scope.
Local Open Scope Z_scope.

(** ** JavaScript primitives *)
Module JS.

(** Truthiness of an optional string property: [undefined] and [""] are
    falsy. *)
Definition truthy (o : option string) : bool :=
  match o with
  | Some s => negb (String.eqb s "")
  | None => false
  end.

(** [a === b] on optional strings. *)
Definition strict_eq (a b : option string) : bool :=
  match a, b with
  | Some x, Some y => String.eqb x y
  | None, None => true
  | _, _ => false
  end.

(** [s.split(":")]. *)
Fixpoint split_colon_aux (s : string) (cur : string) : list string :=
  match s with
  | EmptyString => [cur]
  | String c r =>
      if Ascii.eqb c ":"%char then cur :: split_colon_aux r ""
      else split_colon_aux r (cur +:+ String c "")
  end.

Definition split_colon (s : string) : list string := split_colon_aux s "".

Definition digitVal (c : ascii) : option Z :=
  let n := Z.of_N (N_of_ascii c) in
  if (48 <=? n) && (n <=? 57) then Some (n - 48) else None.

Fixpoint parseDigits (s : string) (acc : Z) : option Z :=
  match s with
  | EmptyString => Some acc
  | String c r =>
      match digitVal c with
      | Some d => parseDigits r (10 * acc + d)
      | None => None
      end
  end.

(** [Number(s)] on the strings a time field holds: a run of decimal
    digits is its value, the empty string is [0], and every other string
    is [NaN] (signs, exponents, blanks and hexadecimal literals are
    outside the model and are mapped to [NaN] too). *)
Definition Number (s : string) : option Z := parseDigits s 0.

(** [String(n)] for an integer. *)
Definition String_of (n : Z) : string := NilZero.string_of_int (Z.to_int n).

Fixpoint zeros (n : nat) : string :=
  match n with
  | O => ""
  | S k => String "0" (zeros k)
  end.

(** [s.padStart(2, '0')]. *)
Definition padStart2 (s : string) : string :=
  zeros (2 - String.length s) +:+ s.

(** [a % b] (the sign follows the dividend). *)
Definition rem (a b : Z) : Z := Z.rem a b.

(** [Math.floor(a / b)] for integers [a] and a positive integer [b]. *)
Definition floor_div (a b : Z) : Z := a / b.

(** *** Binary64 *)
Definition prec : Z := 53.
Definition emax : Z := 1024.

Definition of_Z (n : Z) : spec_float := binary_normalize prec emax n 0 false.
Definition fdiv (x y : spec_float) : spec_float := SFdiv prec emax x y.
Definition fmul (x y : spec_float) : spec_float := SFmul prec emax x y.

(** [Math.round(x)]: the integer nearest to [x], ties towards
    [+Infinity]; [None] when [x] is [NaN] or infinite. *)
Definition Math_round (x : spec_float) : option Z :=
  match x with
  | S754_zero _ => Some 0
  | S754_infinity _ | S754_nan => None
  | S754_finite s m e =>
      let n := if s then Z.neg m else Z.pos m in
      match e with
      | Zneg p =>
          let den := Z.pow 2 (Z.pos p) in
          Some ((2 * n + den) / (2 * den))
      | _ => Some (n * Z.pow 2 e)
      end
  end.

End JS.

(** ** Time arithmetic on [HH:MM] strings *)

(** [time.split(":").map(Number)] destructured as [[h, m]]. *)
Definition parseTime (time : string) : option (Z * Z) :=
  match JS.split_colon time with
  | hs :: ms :: _ =>
      match JS.Number hs, JS.Number ms with
      | Some h, Some m => Some (h, m)
      | _, _ => None
      end
  | _ => None
  end.

Definition addMinutesToTime (time : string) (minutes : Z) : string :=
  match parseTime time with
  | Some (h, m) =>
      let totalMinutes := h * 60 + m + minutes in
      let newH := JS.rem (JS.floor_div totalMinutes 60) 24 in
      let newM := JS.rem totalMinutes 60 in
      JS.padStart2 (JS.String_of newH) +:+ ":" +:+ JS.padStart2 (JS.String_of newM)
  | None => "NaN:NaN"
  end.

Definition getMinutesBetween (start end_ : string) : option Z :=
  match parseTime start, parseTime end_ with
  | Some (sh, sm), Some (eh, em) => Some ((eh * 60 + em) - (sh * 60 + sm))
  | _, _ => None
  end.

(** Anything with a [start] and an [end]: sessions, suggested slots and the
    probe objects the form builds. *)
Class TimeRange (A : Type) := {
  startOf : A -> string;
  endOf : A -> string
}.

Definition timesOverlap {A B : Type} `{TimeRange A} `{TimeRange B}
    (a : A) (b : B) : bool :=
  String.ltb (startOf a) (endOf b) && String.ltb (startOf b) (endOf a).

(** ** Sessions *)

Record Session := mkSession {
  student : string;
  day : string;
  date : option string;
  start : string;
  end_ : string;
  cancelled : bool;
  cancelReason : option string;
  cancelledAt : option string;
  customCancelReason : option string;
  pendingConfirmation : bool;
  pendingSince : option string;
  allowedClash : bool;
  completedDate : option string
}.

#[export] Instance Session_range : TimeRange Session :=
  {| startOf := start; endOf := end_ |}.

Record Slot := mkSlot {
  slot_start : string;
  slot_end : string
}.

#[export] Instance Slot_range : TimeRange Slot :=
  {| startOf := slot_start; endOf := slot_end |}.

(** [arr.some((c, i) => f(c, i))]. *)
Fixpoint some_from {A : Type} (f : A -> nat -> bool) (i : nat) (l : list A) : bool :=
  match l with
  | [] => false
  | c :: r => f c i || some_from f (S i) r
  end.

Definition some_i {A : Type} (f : A -> nat -> bool) (l : list A) : bool :=
  some_from f 0 l.

Definition is_index (excludeIndex : option nat) (i : nat) : bool :=
  match excludeIndex with
  | Some e => Nat.eqb i e
  | None => false
  end.

(** ** Clash detection *)

Definition sameDay (newClass c : Session) : bool :=
  if JS.truthy (date newClass)
  then JS.strict_eq (date c) (date newClass)
  else String.eqb (day c) (day newClass).

Definition hasClash (classes : list Session) (newClass : Session)
    (excludeIndex : option nat) : bool :=
  some_i (fun c i =>
            if is_index excludeIndex i then false
            else if cancelled c then false
            else sameDay newClass c && timesOverlap newClass c)
         classes.

(** ** Slot suggestions *)

Definition WORKING_HOURS_start : Z := 8.
Definition WORKING_HOURS_end : Z := 20.

(** A session of the store together with its position:
    [classes.indexOf(c)] of an element of [classes] is the position it was
    taken from (the store holds no object twice). *)
Definition indexed (classes : list Session) : list (nat * Session) :=
  imap pair classes.

(** [arr.sort((a, b) => a.start.localeCompare(b.start))]: the stable sort
    by [start]. On [HH:MM] strings [localeCompare] orders like the
    code-unit comparison. *)
Fixpoint insert_by_start (x : nat * Session) (l : list (nat * Session))
    : list (nat * Session) :=
  match l with
  | [] => [x]
  | y :: r =>
      if String.leb (start (snd x)) (start (snd y)) then x :: y :: r
      else y :: insert_by_start x r
  end.

Definition sort_by_start (l : list (nat * Session)) : list (nat * Session) :=
  foldr insert_by_start [] l.

(** One turn of the [for (const cls of relevantClasses)] loop: the state is
    the [slots] array and the cursor [currentStart]. *)
Definition sweep_step (selectedDuration : Z) (acc : list Slot * string)
    (cls : Session) : list Slot * string :=
  let '(slots, currentStart) := acc in
  let slots' :=
    if String.ltb currentStart (start cls) then
      match getMinutesBetween currentStart (start cls) with
      | Some gapMinutes =>
          if gapMinutes >=? selectedDuration
          then (slots ++ [mkSlot currentStart
                            (addMinutesToTime currentStart selectedDuration)])%list
          else slots
      | None => slots
      end
    else slots in
  let currentStart' :=
    if String.ltb currentStart (end_ cls) then end_ cls else currentStart in
  (slots', currentStart').

Definition findAvailableSlots (classes : list Session)
    (editingIndex : option nat) (selectedDuration : Z) (day_ : string)
    : list Slot :=
  let dayClasses :=
    sort_by_start
      (List.filter (fun ic => String.eqb (day (snd ic)) day_) (indexed classes)) in
  let currentStart0 :=
    JS.padStart2 (JS.String_of WORKING_HOURS_start) +:+ ":00" in
  let dayEnd := JS.padStart2 (JS.String_of WORKING_HOURS_end) +:+ ":00" in
  let relevantClasses :=
    match editingIndex with
    | Some e => List.filter (fun ic => negb (Nat.eqb (fst ic) e)) dayClasses
    | None => dayClasses
    end in
  let '(slots, currentStart) :=
    fold_left (sweep_step selectedDuration) (List.map snd relevantClasses)
              ([], currentStart0) in
  let slots' :=
    if String.ltb currentStart dayEnd then
      match getMinutesBetween currentStart dayEnd with
      | Some gapMinutes =>
          if gapMinutes >=? selectedDuration
          then (slots ++ [mkSlot currentStart
                            (addMinutesToTime currentStart selectedDuration)])%list
          else slots
      | None => slots
      end
    else slots in
  firstn 4 slots'.

(** ** Lifecycle classifier of the report *)

(** The instant [new Date()] of a report: the weekday [getDay()]
    (0 = Sunday), the milliseconds elapsed since local midnight, and the
    local calendar date (which the classifier never reads). *)
Record Clock := mkClock {
  todayDayIndex : Z;
  nowMs : Z;
  todayDate : string
}.

Definition dayIndexMap (d : string) : option Z :=
  if String.eqb d "Sunday" then Some 0
  else if String.eqb d "Monday" then Some 1
  else if String.eqb d "Tuesday" then Some 2
  else if String.eqb d "Wednesday" then Some 3
  else if String.eqb d "Thursday" then Some 4
  else if String.eqb d "Friday" then Some 5
  else if String.eqb d "Saturday" then Some 6
  else None.

(** [classEndTime] is today at [endHour:endMin:00.000]; [now > classEndTime]
    compares the two instants. *)
Definition isClassCompleted (clk : Clock) (cls : Session) : bool :=
  if JS.truthy (completedDate cls) then true
  else
    match dayIndexMap (day cls) with
    | None => false
    | Some classDayIndex =>
        if classDayIndex <? todayDayIndex clk then true
        else if classDayIndex =? todayDayIndex clk then
          match parseTime (end_ cls) with
          | Some (endHour, endMin) =>
              nowMs clk >? (endHour * 60 + endMin) * 60000
          | None => false
          end
        else false
    end.

(** ** Period aggregation *)

(** [startStr] and [endStr] are the two [toISOString().split('T')[0]]. *)
Definition getClassesInRange (classes : list Session) (startStr endStr : string)
    : list Session :=
  List.filter
    (fun cls =>
       match date cls with
       | Some d =>
           if JS.truthy (date cls)
           then String.leb startStr d && String.leb d endStr
           else false
       | None => false
       end)
    classes.

Definition show_date (o : option string) : string :=
  match o with
  | Some d => d
  | None => "undefined"
  end.

Definition getClassPaymentId (cls : Session) : string :=
  student cls +:+ "_" +:+ show_date (date cls) +:+ "_" +:+ start cls
    +:+ "_" +:+ end_ cls.

(** A JavaScript number that is an integer, or [NaN]. *)
Definition jsnum : Type := option Z.

Definition jadd (a b : jsnum) : jsnum :=
  match a, b with
  | Some x, Some y => Some (x + y)
  | _, _ => None
  end.

Definition jsub (a b : jsnum) : jsnum :=
  match a, b with
  | Some x, Some y => Some (x - y)
  | _, _ => None
  end.

(** [Math.round((minutes / 60) * rate)]. *)
Definition round_amount (minutes : jsnum) (rate : Z) : jsnum :=
  match minutes with
  | Some m =>
      JS.Math_round (JS.fmul (JS.fdiv (JS.of_Z m) (JS.of_Z 60)) (JS.of_Z rate))
  | None => None
  end.

(** [studentRates[student] || defaultRate]. *)
Definition rateOf (studentRates : gmap string Z) (defaultRate : Z)
    (s : string) : Z :=
  match studentRates !! s with
  | Some r => if r =? 0 then defaultRate else r
  | None => defaultRate
  end.

(** [paymentStatus[classId]] as a condition. *)
Definition isPaid (paymentStatus : gmap string bool) (classId : string) : bool :=
  match paymentStatus !! classId with
  | Some b => b
  | None => false
  end.

Record Stats := mkStats {
  st_total : Z;
  st_cancelled : Z;
  st_pending : Z;
  st_completed : Z;
  st_upcoming : Z;
  st_completedMinutes : jsnum;
  st_upcomingMinutes : jsnum;
  st_paidClasses : Z;
  st_paidMinutes : jsnum;
  st_completedClassIds : list string
}.

Definition emptyStats : Stats :=
  mkStats 0 0 0 0 0 (Some 0) (Some 0) 0 (Some 0) [].

(** The body of the second [classesInRange.forEach]. *)
Definition stats_step (clk : Clock) (paymentStatus : gmap string bool)
    (studentStats : gmap string Stats) (c : Session) : gmap string Stats :=
  let s0 := match studentStats !! student c with
            | Some s => s
            | None => emptyStats
            end in
  let s1 := mkStats (st_total s0 + 1) (st_cancelled s0) (st_pending s0)
              (st_completed s0) (st_upcoming s0) (st_completedMinutes s0)
              (st_upcomingMinutes s0) (st_paidClasses s0) (st_paidMinutes s0)
              (st_completedClassIds s0) in
  let s2 :=
    if cancelled c then
      mkStats (st_total s1) (st_cancelled s1 + 1) (st_pending s1)
        (st_completed s1) (st_upcoming s1) (st_completedMinutes s1)
        (st_upcomingMinutes s1) (st_paidClasses s1) (st_paidMinutes s1)
        (st_completedClassIds s1)
    else if pendingConfirmation c then
      mkStats (st_total s1) (st_cancelled s1) (st_pending s1 + 1)
        (st_completed s1) (st_upcoming s1) (st_completedMinutes s1)
        (st_upcomingMinutes s1) (st_paidClasses s1) (st_paidMinutes s1)
        (st_completedClassIds s1)
    else
      let minutes := getMinutesBetween (start c) (end_ c) in
      if isClassCompleted clk c then
        let classId := getClassPaymentId c in
        let paid := isPaid paymentStatus classId in
        mkStats (st_total s1) (st_cancelled s1) (st_pending s1)
          (st_completed s1 + 1) (st_upcoming s1)
          (jadd (st_completedMinutes s1) minutes)
          (st_upcomingMinutes s1)
          (if paid then st_paidClasses s1 + 1 else st_paidClasses s1)
          (if paid then jadd (st_paidMinutes s1) minutes else st_paidMinutes s1)
          (st_completedClassIds s1 ++ [classId])%list
      else
        mkStats (st_total s1) (st_cancelled s1) (st_pending s1)
          (st_completed s1) (st_upcoming s1 + 1) (st_completedMinutes s1)
          (jadd (st_upcomingMinutes s1) minutes)
          (st_paidClasses s1) (st_paidMinutes s1) (st_completedClassIds s1) in
  <[student c := s2]> studentStats.

Definition studentStatsOf (clk : Clock) (paymentStatus : gmap string bool)
    (classesInRange : list Session) : gmap string Stats :=
  fold_left (stats_step clk paymentStatus) classesInRange ∅.

(** The period-level counters of the first [classesInRange.forEach]:
    [(completedCount, upcomingCount, completedMinutes)]. *)
Definition totals_step (clk : Clock) (acc : Z * Z * jsnum) (c : Session)
    : Z * Z * jsnum :=
  let '(completedCount, upcomingCount, completedMinutes) := acc in
  if negb (cancelled c) && negb (pendingConfirmation c) then
    if isClassCompleted clk c
    then (completedCount + 1, upcomingCount,
          jadd completedMinutes (getMinutesBetween (start c) (end_ c)))
    else (completedCount, upcomingCount + 1, completedMinutes)
  else acc.

Definition periodTotals (clk : Clock) (classesInRange : list Session)
    : Z * Z * jsnum :=
  fold_left (totals_step clk) classesInRange (0, 0, Some 0).

(** One row of the student table. *)
Record Row := mkRow {
  row_completedClasses : Z;
  row_paidClasses : Z;
  row_unpaidClasses : Z;
  row_rate : Z;
  row_amount : jsnum;
  row_paidAmount : jsnum;
  row_unpaidAmount : jsnum
}.

Definition rowOf (studentRates : gmap string Z) (defaultRate : Z)
    (student_ : string) (stats : Stats) : Row :=
  let rate := rateOf studentRates defaultRate student_ in
  let amount := round_amount (st_completedMinutes stats) rate in
  let paidAmountForStudent := round_amount (st_paidMinutes stats) rate in
  mkRow (st_completed stats) (st_paidClasses stats)
        (st_completed stats - st_paidClasses stats) rate amount
        paidAmountForStudent (jsub amount paidAmountForStudent).

(** What [renderReport] computes before it prints. *)
Record Report := mkReport {
  totalClasses : Z;
  cancelledCount : Z;
  pendingCount : Z;
  completedCount : Z;
  upcomingCount : Z;
  completedMinutes : jsnum;
  studentStats : gmap string Stats;
  rows : gmap string Row;
  totalAmount : jsnum;
  paidAmount : jsnum;
  pendingAmount : jsnum
}.

Definition sum_rows (f : Row -> jsnum) (rs : gmap string Row) : jsnum :=
  map_fold (fun _ r acc => jadd acc (f r)) (Some 0) rs.

Definition renderReport (clk : Clock) (classes : list Session)
    (studentRates : gmap string Z) (paymentStatus : gmap string bool)
    (defaultRate : Z) (startStr endStr : string) : Report :=
  let classesInRange := getClassesInRange classes startStr endStr in
  let '(completedCount, upcomingCount, completedMinutes) :=
    periodTotals clk classesInRange in
  let studentStats := studentStatsOf clk paymentStatus classesInRange in
  let rows := map_imap (fun s st => Some (rowOf studentRates defaultRate s st))
                       studentStats in
  let totalAmount := sum_rows row_amount rows in
  let paidAmount := sum_rows row_paidAmount rows in
  mkReport (Z.of_nat (length classesInRange))
           (Z.of_nat (length (List.filter cancelled classesInRange)))
           (Z.of_nat (length (List.filter pendingConfirmation classesInRange)))
           completedCount upcomingCount completedMinutes studentStats rows
           totalAmount paidAmount (jsub totalAmount paidAmount).

(** ** The mutable state and the handlers *)

(** The module-level variables the core reads and writes. *)
Record State := mkState {
  classes : list Session;
  editingIndex : option nat;
  currentWeekOffset : Z;
  selectedDuration : Z;
  allowClashOverride : bool;
  defaultRate : Z;
  studentRates : gmap string Z;
  paymentStatus : gmap string bool
}.

(** The values of the form fields when a handler runs. *)
Record Form := mkForm {
  existingStudentSelect : string;
  studentNameInput : string;
  daySelect : string;
  startTimeInput : string;
  endTimeInput : string
}.

(** What the user sees of a handler's run. [OutOfModel] marks the two
    situations the list model of the store does not cover: an assignment
    past the end of the array (which would leave holes) and a property
    access on a missing element (a [TypeError]). *)
Inductive Outcome :=
  | Saved
  | Copied (addedCount skippedCount : nat)
  | Alert (msg : string)
  | ClashWarning
  | Ignored
  | OutOfModel.

Definition DAYS : list string :=
  ["Monday"; "Tuesday"; "Wednesday"; "Thursday"; "Friday"; "Saturday"; "Sunday"].

Fixpoint indexOf_from (x : string) (l : list string) (i : Z) : Z :=
  match l with
  | [] => -1
  | y :: r => if String.eqb y x then i else indexOf_from x r (i + 1)
  end.

(** [DAYS.indexOf(d)]. *)
Definition DAYS_indexOf (d : string) : Z := indexOf_from d DAYS 0.

Definition is_space (c : ascii) : bool :=
  let n := N_of_ascii c in
  ((9 <=? n) && (n <=? 13))%N || (n =? 32)%N.

Fixpoint drop_spaces (l : list ascii) : list ascii :=
  match l with
  | [] => []
  | c :: r => if is_space c then drop_spaces r else c :: r
  end.

(** [s.trim()], for the white space of ASCII. *)
Definition trim (s : string) : string :=
  string_of_list_ascii
    (rev (drop_spaces (rev (drop_spaces (list_ascii_of_string s))))).

(** [classes[i] = x]: in place when [i] is a position of the array, a push
    when [i] is its length. *)
Definition array_set (l : list Session) (i : nat) (x : Session)
    : option (list Session) :=
  if (i <? length l)%nat then Some (<[i := x]> l)
  else if (i =? length l)%nat then Some (l ++ [x])%list
  else None.

(** [closeModal()], with the [resetFormUI()] it calls. *)
Definition closeModal (st : State) : State :=
  mkState (classes st) None (currentWeekOffset st) 60 false (defaultRate st)
          (studentRates st) (paymentStatus st).

Definition set_classes (st : State) (l : list Session) : State :=
  mkState l (editingIndex st) (currentWeekOffset st) (selectedDuration st)
          (allowClashOverride st) (defaultRate st) (studentRates st)
          (paymentStatus st).

Definition with_allowedClash (c : Session) : Session :=
  mkSession (student c) (day c) (date c) (start c) (end_ c) (cancelled c)
            (cancelReason c) (cancelledAt c) (customCancelReason c)
            (pendingConfirmation c) (pendingSince c) true (completedDate c).

(** [{ ...old, ...cls }] for the object [cls] that [handleCheckWithStudent]
    builds: [cls] carries [student], [day], [start], [end],
    [pendingConfirmation], [pendingSince] and, after an override,
    [allowedClash]; every other property is the old one. *)
Definition merge_pending (old cls : Session) : Session :=
  mkSession (student cls) (day cls) (date old) (start cls) (end_ cls)
            (cancelled old) (cancelReason old) (cancelledAt old)
            (customCancelReason old) (pendingConfirmation cls)
            (pendingSince cls)
            (if allowedClash cls then true else allowedClash old)
            (completedDate old).

Section Handlers.

(** The calendar: [weekDayDate offset i] is
    [toISOString().split('T')[0]] of the day [i] days after the Monday
    [getWeekStartDate(offset)], and [nowISO] is
    [new Date().toISOString()]. *)
Variable weekDayDate : Z -> Z -> string.
Variable nowISO : string.

Definition studentNameOf (f : Form) : string :=
  if negb (String.eqb (existingStudentSelect f) "")
  then existingStudentSelect f
  else trim (studentNameInput f).

(** The tail both submit handlers share: the clash gate, the override
    tag, and the write. [write] says how an edit replaces the old
    element. *)
Definition gate_and_store (st : State) (cls : Session)
    (write : option Session -> Session -> Session) : Outcome * State :=
  if hasClash (classes st) cls (editingIndex st)
     && negb (allowClashOverride st)
  then (ClashWarning, st)
  else
    let cls' := if allowClashOverride st then with_allowedClash cls else cls in
    match editingIndex st with
    | Some i =>
        match array_set (classes st) i (write (classes st !! i) cls') with
        | Some l => (Saved, closeModal (set_classes st l))
        | None => (OutOfModel, st)
        end
    | None => (Saved, closeModal (set_classes st (classes st ++ [cls'])%list))
    end.

Definition handleFormSubmit (st : State) (f : Form) : Outcome * State :=
  let studentName := studentNameOf f in
  if String.eqb studentName ""
  then (Alert "Please select or enter a student name", st)
  else
    let dayIndex := DAYS_indexOf (daySelect f) in
    let cls :=
      mkSession studentName (daySelect f)
                (Some (weekDayDate (currentWeekOffset st) dayIndex))
                (startTimeInput f) (endTimeInput f)
                false None None None false None false None in
    if String.leb (end_ cls) (start cls)
    then (Alert "End time must be after start time", st)
    else gate_and_store st cls (fun _ new => new).

Definition handleCheckWithStudent (st : State) (f : Form) : Outcome * State :=
  let studentName := studentNameOf f in
  if String.eqb studentName ""
  then (Alert "Please select or enter a student name", st)
  else
    let day_ := daySelect f in
    let start_ := startTimeInput f in
    let end__ := endTimeInput f in
    if String.eqb day_ "" || String.eqb start_ "" || String.eqb end__ ""
    then (Alert "Please fill in all fields", st)
    else if String.leb end__ start_
    then (Alert "End time must be after start time", st)
    else
      let cls :=
        mkSession studentName day_ None start_ end__
                  false None None None true (Some nowISO) false None in
      gate_and_store st cls
        (fun old new => match old with
                        | Some o => merge_pending o new
                        | None => new
                        end).

(** One turn of [selectedDays.forEach] in [handleCopyToDays]: the state is
    [classes] with the two counters. *)
Definition copy_step (st : State) (studentName start_ end__ : string)
    (acc : list Session * nat * nat) (day_ : string)
    : list Session * nat * nat :=
  let '(classes_, addedCount, skippedCount) := acc in
  let dayIndex := DAYS_indexOf day_ in
  let newClass :=
    mkSession studentName day_
              (Some (weekDayDate (currentWeekOffset st) dayIndex))
              start_ end__ false None None None false None false None in
  if negb (hasClash classes_ newClass None)
  then ((classes_ ++ [newClass])%list, S addedCount, skippedCount)
  else (classes_, addedCount, S skippedCount).

(** [handleCopyToDays()]; [selectedDays] are the values of the ticked day
    boxes. *)
Definition handleCopyToDays (st : State) (f : Form) (selectedDays : list string)
    : Outcome * State :=
  let start_ := startTimeInput f in
  let end__ := endTimeInput f in
  let studentName := studentNameOf f in
  if String.eqb studentName "" || String.eqb start_ "" || String.eqb end__ ""
  then (Alert "Please fill in student and time first", st)
  else
    match selectedDays with
    | [] => (Alert "Please select at least one day to copy to", st)
    | _ =>
        let '(classes_, addedCount, skippedCount) :=
          fold_left (copy_step st studentName start_ end__) selectedDays
                    (classes st, 0%nat, 0%nat) in
        (Copied addedCount skippedCount, set_classes st classes_)
    end.

(** [{ ...cls, cancelled: false }] without the three reason properties;
    it is also what the four [delete]s leave of [cls]. *)
Definition restored (cls : Session) : Session :=
  mkSession (student cls) (day cls) (date cls) (start cls) (end_ cls)
            false None None None (pendingConfirmation cls)
            (pendingSince cls) (allowedClash cls) (completedDate cls).

Definition wouldClash (classes : list Session) (editingIndex : nat)
    (testClass : Session) : bool :=
  some_i (fun c i =>
            if Nat.eqb i editingIndex then false
            else if cancelled c then false
            else String.eqb (day c) (day testClass)
                 && timesOverlap testClass c)
         classes.

Definition handleRestoreClass (st : State) : Outcome * State :=
  match editingIndex st with
  | None => (Ignored, st)
  | Some i =>
      match classes st !! i with
      | None => (OutOfModel, st)
      | Some cls =>
          let testClass := restored cls in
          if wouldClash (classes st) i testClass
          then (Alert "Cannot restore: This slot now has a time clash with another class.", st)
          else (Saved,
                closeModal (set_classes st (<[i := restored cls]> (classes st))))
      end
  end.

(** [migrateClassesToDateFormat()], run by [init()] on every load. *)
Definition migrate_one (cls : Session) : Session :=
  if negb (JS.truthy (date cls)) then
    let dayIndex := DAYS_indexOf (day cls) in
    if negb (dayIndex =? -1) then
      mkSession (student cls) (day cls) (Some (weekDayDate 0 dayIndex))
                (start cls) (end_ cls) (cancelled cls) (cancelReason cls)
                (cancelledAt cls) (customCancelReason cls)
                (pendingConfirmation cls) (pendingSince cls)
                (allowedClash cls) (completedDate cls)
    else cls
  else cls.

Definition migrateClassesToDateFormat (st : State) : State :=
  set_classes st (List.map migrate_one (classes st)).

End Handlers.

(** ** Vocabulary of the properties *)

(** Well-formed [HH:MM]: what an [<input type="time">] holds. *)
Definition isDigit (c : ascii) : bool :=
  match JS.digitVal c with
  | Some _ => true
  | None => false
  end.

Definition digitOf (c : ascii) : Z := Z.of_N (N_of_ascii c) - 48.

Definition wfTime (s : string) : bool :=
  match s with
  | String a (String b (String c (String d (String e EmptyString)))) =>
      isDigit a && isDigit b && Ascii.eqb c ":" && isDigit d && isDigit e
      && (10 * digitOf a + digitOf b <? 24) && (10 * digitOf d + digitOf e <? 60)
  | _ => false
  end.

(** Minutes since midnight of a time string ([0] when it does not parse). *)
Definition minutesOf (s : string) : Z :=
  match parseTime s with
  | Some (h, m) => h * 60 + m
  | None => 0
  end.

(** What [addMinutesToTime] prints for a total of minutes. *)
Definition formatMinutes (totalMinutes : Z) : string :=
  JS.padStart2 (JS.String_of (JS.rem (JS.floor_div totalMinutes 60) 24))
    +:+ ":" +:+ JS.padStart2 (JS.String_of (JS.rem totalMinutes 60)).

(** The block of [findAvailableSlots] that suggests a slot at the cursor
    when the gap up to [target] is long enough; it occurs in the loop and
    once more after it. *)
Definition emit_slot (selectedDuration : Z) (slots : list Slot)
    (currentStart target : string) : list Slot :=
  if String.ltb currentStart target then
    match getMinutesBetween currentStart target with
    | Some gapMinutes =>
        if gapMinutes >=? selectedDuration
        then (slots ++ [mkSlot currentStart
                          (addMinutesToTime currentStart selectedDuration)])%list
        else slots
    | None => slots
    end
  else slots.

Definition wfSession (c : Session) : Prop :=
  wfTime (start c) = true /\ wfTime (end_ c) = true.

Definition startsBefore (a b : Session) : Prop :=
  minutesOf (start a) <= minutesOf (start b).

(** A suggested slot is [d] minutes long and free of the sessions [L]. *)
Definition slot_ok (d : Z) (L : list Session) (s : Slot) : Prop :=
  wfTime (slot_start s) = true /\ wfTime (slot_end s) = true /\
  minutesOf (slot_end s) = minutesOf (slot_start s) + d /\
  forall c, In c L ->
    minutesOf (end_ c) <= minutesOf (slot_start s)
    \/ minutesOf (slot_end s) <= minutesOf (start c).

Definition slot_le (a b : Slot) : Prop :=
  minutesOf (slot_start a) <= minutesOf (slot_start b).

(** The invariant of the sweep on the slots found so far. *)
Definition slots_inv (d : Z) (L : list Session) (cur : string)
    (slots : list Slot) : Prop :=
  Forall (slot_ok d L) slots /\
  Forall (fun s => minutesOf (slot_start s) <= minutesOf cur) slots /\
  StronglySorted slot_le slots.

(** The sessions [hasClash] looks at: neither excluded nor cancelled. *)
Definition visible (excludeIndex : option nat) (classes : list Session)
    : list Session :=
  List.map snd
    (List.filter (fun ic => negb (is_index excludeIndex (fst ic))
                            && negb (cancelled (snd ic)))
                 (indexed classes)).

(** The day test as the specification words it, symmetric in the two
    sessions: the same calendar date, or, when one of them carries no
    date, the same weekday name. *)
Definition spec_sameDay (a b : Session) : bool :=
  if JS.truthy (date a) && JS.truthy (date b)
  then JS.strict_eq (date a) (date b)
  else String.eqb (day a) (day b).

Definition spec_conflict (a b : Session) : bool :=
  spec_sameDay a b && timesOverlap a b.

(** Completion as the specification words it: the calendar date is before
    today, or it is today and the clock is past the end. *)
Definition spec_completed (clk : Clock) (cls : Session) : bool :=
  match date cls with
  | Some d =>
      String.ltb d (todayDate clk)
      || (String.eqb d (todayDate clk)
          && (nowMs clk >? minutesOf (end_ cls) * 60000))
  | None => false
  end.

(** A confirmed session: neither cancelled nor awaiting confirmation. *)
Definition confirmed (c : Session) : bool :=
  negb (cancelled c) && negb (pendingConfirmation c).

(** The sessions of [s] that the report bills. *)
Definition billable (clk : Clock) (s : string) (c : Session) : bool :=
  String.eqb (student c) s && confirmed c && isClassCompleted clk c.

Definition sum_minutes (l : list Session) : jsnum :=
  fold_left (fun acc c => jadd acc (getMinutesBetween (start c) (end_ c)))
            l (Some 0).

(** The amount of one session, as [renderEarningsChart] and
    [showMarkPaidDialog] compute it: [Math.round((minutes / 60) * rate)]
    with [rate = studentRates[student] || defaultRate]. *)
Definition classAmount (studentRates : gmap string Z) (defaultRate : Z)
    (c : Session) : jsnum :=
  round_amount (getMinutesBetween (start c) (end_ c))
               (rateOf studentRates defaultRate (student c)).

(** The amounts of the sessions added up, as the specification words the
    accumulation. *)
Definition spec_sum_amounts (studentRates : gmap string Z) (defaultRate : Z)
    (l : list Session) : jsnum :=
  fold_left (fun acc c => jadd acc (classAmount studentRates defaultRate c))
            l (Some 0).


(** A plain session, for the examples. *)
Definition session (s d : string) (dt : option string) (a b : string) : Session :=
  mkSession s d dt a b false None None None false None false None.

Definition cancel (reason : string) (c : Session) : Session :=
  mkSession (student c) (day c) (date c) (start c) (end_ c) true
            (Some reason) (Some "2024-06-01T08:00:00.000Z") None
            (pendingConfirmation c) (pendingSince c) (allowedClash c)
            (completedDate c).

(** ** Further operations of [app.js] *)

(** [if (!clashing.includes(i)) clashing.push(i)]. *)
Definition push_new (i : nat) (clashing : list nat) : list nat :=
  if existsb (Nat.eqb i) clashing then clashing else (clashing ++ [i])%list.

(** The inner loop of [findClashingClasses]: [rest] are the elements from
    position [j] on. *)
Fixpoint clashing_inner (ci : Session) (i : nat) (rest : list Session)
    (j : nat) (clashing : list nat) : list nat :=
  match rest with
  | [] => clashing
  | cj :: r =>
      clashing_inner ci i r (S j)
        (if cancelled cj then clashing
         else if timesOverlap ci cj then push_new j (push_new i clashing)
         else clashing)
  end.

Fixpoint clashing_outer (l : list Session) (i : nat) (clashing : list nat)
    : list nat :=
  match l with
  | [] => clashing
  | ci :: r =>
      clashing_outer r (S i)
        (if cancelled ci then clashing
         else clashing_inner ci i r (S i) clashing)
  end.

Definition findClashingClasses (dayClasses : list Session) : list nat :=
  clashing_outer dayClasses 0 [].

(** The two nested loops of [checkForClashes] on the sessions of one day. *)
Fixpoint unexpected_pair (dayClasses : list Session) : bool :=
  match dayClasses with
  | [] => false
  | ci :: r =>
      existsb (fun cj => timesOverlap ci cj
                         && (negb (allowedClash ci) && negb (allowedClash cj))) r
      || unexpected_pair r
  end.

(** [checkForClashes()]: the value of [hasClashFlag], which decides whether
    the warning banner is shown. *)
Definition checkForClashes (classes : list Session) : bool :=
  existsb
    (fun day_ =>
       unexpected_pair
         (List.filter (fun c => String.eqb (day c) day_ && negb (cancelled c))
                      classes))
    DAYS.

(** [Array.from(selectedClasses).sort((a, b) => b - a)]. *)
Fixpoint insert_desc (x : nat) (l : list nat) : list nat :=
  match l with
  | [] => [x]
  | y :: r => if (y <=? x)%nat then x :: y :: r else y :: insert_desc x r
  end.

Definition sort_desc (l : list nat) : list nat := foldr insert_desc [] l.

(** The value [parseInt] gave for a rate field ([None] is [NaN]), after the
    two corrections of the change handlers. *)
Definition clampRate (input : option Z) : Z :=
  let newRate :=
    match input with
    | Some n => if n <? 0 then 0 else n
    | None => 0
    end in
  if newRate >? 100000 then 100000 else newRate.

(** The change handler of a [.student-rate-input]. *)
Definition onStudentRateChange (student_ : string) (input : option Z)
    (st : State) : State :=
  mkState (classes st) (editingIndex st) (currentWeekOffset st)
          (selectedDuration st) (allowClashOverride st) (defaultRate st)
          (<[student_ := clampRate input]> (studentRates st))
          (paymentStatus st).

(** The change handler of the default-rate field. *)
Definition onDefaultRateChange (input : option Z) (st : State) : State :=
  mkState (classes st) (editingIndex st) (currentWeekOffset st)
          (selectedDuration st) (allowClashOverride st) (clampRate input)
          (studentRates st) (paymentStatus st).

(** The save button of the mark-paid dialog: [boxes] are the check boxes,
    each with its [data-class-id] and its state; the result is the ledger
    and [newPaymentsCount]. *)
Definition savePayments (boxes : list (string * bool))
    (paymentStatus : gmap string bool) : gmap string bool * nat :=
  fold_left
    (fun acc box =>
       let wasChecked := isPaid (fst acc) (fst box) in
       (<[fst box := snd box]> (fst acc),
        if snd box && negb wasChecked then S (snd acc) else snd acc))
    boxes (paymentStatus, 0%nat).

(** [s.split(sep)] for a one-character separator. *)
Fixpoint split_on_aux (sep : ascii) (s : string) (cur : string) : list string :=
  match s with
  | EmptyString => [cur]
  | String c r =>
      if Ascii.eqb c sep then cur :: split_on_aux sep r ""
      else split_on_aux sep r (cur +:+ String c "")
  end.

Definition split_on (sep : ascii) (s : string) : list string :=
  split_on_aux sep s "".

(** One entry of [classDetails] in [showMarkPaidDialog]. *)
Record ClassDetail := mkClassDetail {
  cd_classId : string;
  cd_date : string;
  cd_start : string;
  cd_end : string;
  cd_isPaid : bool;
  cd_amount : jsnum
}.

(** The body of [classIds.map(...)] in [showMarkPaidDialog]; [None] when
    the identifier has fewer than four parts (the code then reads a
    property of [undefined]). *)
Definition classDetail (studentRates : gmap string Z) (defaultRate : Z)
    (paymentStatus : gmap string bool) (student_ : string) (classId : string)
    : option ClassDetail :=
  match split_on "_" classId with
  | _ :: date_ :: start_ :: end__ :: _ =>
      let rate := rateOf studentRates defaultRate student_ in
      Some (mkClassDetail classId date_ start_ end__
              (isPaid paymentStatus classId)
              (round_amount (getMinutesBetween start_ end__) rate))
  | _ => None
  end.

(** [dayOfWeek === 0 ? -6 : 1 - dayOfWeek], the step back to Monday of
    [getWeekStartDate] and [getReportDateRange]. *)
Definition mondayDiff (dayOfWeek : Z) : Z :=
  if dayOfWeek =? 0 then -6 else 1 - dayOfWeek.

(** [daysUntil] of [getNextDayDate]. *)
Definition daysUntilNext (todayDay targetDay : Z) : Z :=
  let daysUntil := targetDay - todayDay in
  if daysUntil <=? 0 then daysUntil + 7 else daysUntil.

(** [DAYS[getDay === 0 ? 6 : getDay - 1]]. *)
Definition currentDayOf (getDay : Z) : option string :=
  if getDay <? 0 then None
  else nth_error DAYS (Z.to_nat (if getDay =? 0 then 6 else getDay - 1)).

(** What the reminder poll reads of [new Date()]. *)
Record WallClock := mkWallClock {
  wc_getDay : Z;
  wc_getHours : Z;
  wc_getMinutes : Z
}.

Definition reminderId (currentDay : string) (c : Session) : string :=
  currentDay +:+ "-" +:+ start c +:+ "-" +:+ student c.

(** Today's confirmed sessions, as [checkUpcomingClasses] and
    [showNextClassInfo] select them. *)
Definition todayClassesOf (classes : list Session) (currentDay : option string)
    : list Session :=
  List.filter
    (fun c => JS.strict_eq (Some (day c)) currentDay
              && negb (cancelled c) && negb (pendingConfirmation c))
    classes.

(** One turn of [todayClasses.forEach] in [checkUpcomingClasses]: the
    state is the reminders sent and the set [notifiedClasses]. *)
Definition reminder_step (currentDay : string) (currentMinutes : Z)
    (acc : list Session * gset string) (c : Session)
    : list Session * gset string :=
  match parseTime (start c) with
  | Some (hours, minutes) =>
      let minutesUntilClass := hours * 60 + minutes - currentMinutes in
      let classId := reminderId currentDay c in
      if (minutesUntilClass >=? 14) && (minutesUntilClass <=? 16)
         && negb (bool_decide (classId ∈ snd acc))
      then ((fst acc ++ [c])%list, {[classId]} ∪ snd acc)
      else acc
  | None => acc
  end.

Definition checkUpcomingClasses (notificationsEnabled : bool)
    (now : WallClock) (classes : list Session) (notifiedClasses : gset string)
    : list Session * gset string :=
  if negb notificationsEnabled then ([], notifiedClasses)
  else
    let currentDay := currentDayOf (wc_getDay now) in
    let currentMinutes := wc_getHours now * 60 + wc_getMinutes now in
    let '(sent, notified) :=
      match currentDay with
      | Some d =>
          fold_left (reminder_step d currentMinutes)
                    (todayClassesOf classes currentDay) ([], notifiedClasses)
      | None => ([], notifiedClasses)
      end in
    if (wc_getHours now =? 0) && (wc_getMinutes now =? 0)
    then (sent, ∅)
    else (sent, notified).

(** The search of [showNextClassInfo]: the first of today's sessions, by
    start, that begins after the current minute. *)
Definition nextClassOf (now : WallClock) (classes : list Session)
    : option Session :=
  let currentDay := currentDayOf (wc_getDay now) in
  let currentMinutes := wc_getHours now * 60 + wc_getMinutes now in
  let todayClasses :=
    List.map snd (sort_by_start (indexed (todayClassesOf classes currentDay))) in
  List.find
    (fun c => match parseTime (start c) with
              | Some (hours, minutes) => hours * 60 + minutes >? currentMinutes
              | None => false
              end)
    todayClasses.

(** A snapshot taken by [cleanupOldClasses]. *)
Record CleanupBackup := mkCleanupBackup {
  cb_timestamp : string;
  cb_cutoffDate : string;
  cb_classesRemoved : nat;
  cb_classes : list Session;
  cb_allClasses : list Session;
  cb_studentRates : gmap string Z;
  cb_paymentStatus : gmap string bool;
  cb_defaultRate : Z
}.

(** [cls.date && cls.date < cutoffDate]. *)
Definition is_old (cutoffDate : string) (cls : Session) : bool :=
  match date cls with
  | Some d => JS.truthy (date cls) && String.ltb d cutoffDate
  | None => false
  end.

(** [!cls.date || cls.date >= cutoffDate]. *)
Definition is_kept (cutoffDate : string) (cls : Session) : bool :=
  match date cls with
  | Some d => negb (JS.truthy (date cls)) || String.leb cutoffDate d
  | None => true
  end.

(** [cleanupOldClasses()]: [cutoffDate] is the date three months back and
    [cleanupBackups] the stored list of snapshots. *)
Definition cleanupOldClasses (cutoffDate timestamp : string) (st : State)
    (cleanupBackups : list CleanupBackup) : State * list CleanupBackup :=
  let oldClasses := List.filter (is_old cutoffDate) (classes st) in
  match oldClasses with
  | [] => (st, cleanupBackups)
  | _ =>
      let cleanupBackup :=
        mkCleanupBackup timestamp cutoffDate (length oldClasses) oldClasses
                        (classes st) (studentRates st) (paymentStatus st)
                        (defaultRate st) in
      (set_classes st (List.filter (is_kept cutoffDate) (classes st)),
       firstn 6 (cleanupBackup :: cleanupBackups))
  end.

Section MoreHandlers.

Variable weekDayDate : Z -> Z -> string.
Variable nowISO : string.

(** [handleCancelClass(reason)]; [promptAnswer] is what [prompt] returns
    when the reason is ['other']. *)
Definition handleCancelClass (reason : string) (promptAnswer : option string)
    (st : State) : Outcome * State :=
  match editingIndex st with
  | None => (Ignored, st)
  | Some i =>
      if String.eqb reason "other" && negb (JS.truthy promptAnswer)
      then (Ignored, st)
      else
        match classes st !! i with
        | None => (OutOfModel, st)
        | Some cls =>
            let cls' :=
              mkSession (student cls) (day cls) (date cls) (start cls)
                        (end_ cls) true (Some reason) (Some nowISO)
                        (if String.eqb reason "other" then promptAnswer
                         else customCancelReason cls)
                        (pendingConfirmation cls) (pendingSince cls)
                        (allowedClash cls) (completedDate cls) in
            (Saved, closeModal (set_classes st (<[i := cls']> (classes st))))
        end
  end.

(** [handleConfirmClass()]. *)
Definition handleConfirmClass (st : State) : Outcome * State :=
  match editingIndex st with
  | None => (Ignored, st)
  | Some i =>
      match classes st !! i with
      | None => (OutOfModel, st)
      | Some cls =>
          let cls' :=
            mkSession (student cls) (day cls) (date cls) (start cls)
                      (end_ cls) (cancelled cls) (cancelReason cls)
                      (cancelledAt cls) (customCancelReason cls) false None
                      (allowedClash cls) (completedDate cls) in
          (Saved, closeModal (set_classes st (<[i := cls']> (classes st))))
      end
  end.

(** [handleDelete()]; [confirmed] is the answer to [confirm]. *)
Definition handleDelete (confirmed : bool) (st : State) : Outcome * State :=
  match editingIndex st with
  | Some i =>
      if confirmed
      then (Saved, closeModal (set_classes st (delete i (classes st))))
      else (Ignored, st)
  | None => (Ignored, st)
  end.

(** [deleteSelectedClasses()]; [selected] is [Array.from(selectedClasses)]
    and [confirmed] the answer to [confirm]. A toast is reported as an
    [Alert]. *)
Definition deleteSelectedClasses (selected : list nat) (confirmed : bool)
    (st : State) : Outcome * State :=
  match selected with
  | [] => (Alert "No classes selected", st)
  | _ =>
      if confirmed then
        let indicesToDelete := sort_desc selected in
        (Saved,
         set_classes st
           (fold_left (fun l index => delete index l) indicesToDelete
                      (classes st)))
      else (Ignored, st)
  end.

(** [handleDrop(e)]: [targetDay] is the day of the column under the
    pointer. The toast of a refused drop is reported as an [Alert]. *)
Definition handleDrop (targetDay : string) (draggedClassIndex : option nat)
    (isCopyDrag : bool) (st : State) : Outcome * State :=
  match draggedClassIndex with
  | None => (Ignored, st)
  | Some idx =>
      match classes st !! idx with
      | None => (Ignored, st)
      | Some draggedClass =>
          let targetDateStr :=
            weekDayDate (currentWeekOffset st) (DAYS_indexOf targetDay) in
          let newClass :=
            mkSession (student draggedClass) targetDay (Some targetDateStr)
                      (start draggedClass) (end_ draggedClass)
                      (cancelled draggedClass) (cancelReason draggedClass)
                      (cancelledAt draggedClass)
                      (customCancelReason draggedClass)
                      (pendingConfirmation draggedClass)
                      (pendingSince draggedClass) (allowedClash draggedClass)
                      (completedDate draggedClass) in
          let excludeIndex := if isCopyDrag then None else Some idx in
          if hasClash (classes st) newClass excludeIndex
          then (Alert "Cannot drop here - time clash detected!", st)
          else if isCopyDrag then
            let copied :=
              mkSession (student newClass) (day newClass) (date newClass)
                        (start newClass) (end_ newClass) false None
                        (cancelledAt newClass) (customCancelReason newClass)
                        false (pendingSince newClass) (allowedClash newClass)
                        (completedDate newClass) in
            (Saved, set_classes st (classes st ++ [copied])%list)
          else (Saved, set_classes st (<[idx := newClass]> (classes st)))
      end
  end.

(** The copy [copyAllToNextWeek] makes of a session. *)
Definition next_week_copy (st : State) (cls : Session) : Session :=
  mkSession (student cls) (day cls)
            (Some (weekDayDate (currentWeekOffset st + 1)
                               (DAYS_indexOf (day cls))))
            (start cls) (end_ cls) false None (cancelledAt cls)
            (customCancelReason cls) false (pendingSince cls)
            (allowedClash cls) None.

(** [classes.some(c => c.student === ... && c.end === newClass.end)]. *)
Definition exists_same (classes : list Session) (newClass : Session) : bool :=
  existsb (fun c => String.eqb (student c) (student newClass)
                    && JS.strict_eq (date c) (date newClass)
                    && String.eqb (start c) (start newClass)
                    && String.eqb (end_ c) (end_ newClass))
          classes.

Definition copy_week_step (st : State) (acc : list Session * nat * nat)
    (cls : Session) : list Session * nat * nat :=
  let '(classes_, addedCount, skippedCount) := acc in
  let newClass := next_week_copy st cls in
  if negb (exists_same classes_ newClass)
     && negb (hasClash classes_ newClass None)
  then ((classes_ ++ [newClass])%list, S addedCount, skippedCount)
  else (classes_, addedCount, S skippedCount).

(** [copyAllToNextWeek()]. *)
Definition copyAllToNextWeek (st : State) : Outcome * State :=
  let currentWeekClasses :=
    getClassesInRange (classes st)
                      (weekDayDate (currentWeekOffset st) 0)
                      (weekDayDate (currentWeekOffset st) 6) in
  match currentWeekClasses with
  | [] => (Alert "No classes in this week to copy.", st)
  | _ =>
      let '(classes_, addedCount, skippedCount) :=
        fold_left (copy_week_step st) currentWeekClasses
                  (classes st, 0%nat, 0%nat) in
      (Copied addedCount skippedCount, set_classes st classes_)
  end.

End MoreHandlers.

(** ** Vocabulary of the further properties *)

(** The elements of [l] whose position, counted from [k], is not in
    [selected], in their order. *)
Fixpoint survivors_from (k : nat) (selected : list nat) (l : list Session)
    : list Session :=
  match l with
  | [] => []
  | x :: r =>
      if existsb (Nat.eqb k) selected then survivors_from (S k) selected r
      else x :: survivors_from (S k) selected r
  end.

(** Two sessions that agree on every property but [date]. *)
Definition same_but_date (c c' : Session) : Prop :=
  student c' = student c /\ day c' = day c /\ start c' = start c /\
  end_ c' = end_ c /\ cancelled c' = cancelled c /\
  cancelReason c' = cancelReason c /\ cancelledAt c' = cancelledAt c /\
  customCancelReason c' = customCancelReason c /\
  pendingConfirmation c' = pendingConfirmation c /\
  pendingSince c' = pendingSince c /\ allowedClash c' = allowedClash c /\
  completedDate c' = completedDate c.

(** The rates the rate fields are meant to hold. *)
Definition rates_ok (st : State) : Prop :=
  0 <= defaultRate st <= 100000 /\
  map_Forall (fun _ r => 0 <= r <= 100000) (studentRates st).

(** The number of elements of [l] that satisfy [p], as a JavaScript
    counter. *)
Definition cnt {A : Type} (p : A -> bool) (l : list A) : Z :=
  Z.of_nat (length (List.filter p l)).

(** A string without the separator of [getClassPaymentId]. *)
Fixpoint no_underscore (s : string) : bool :=
  match s with
  | EmptyString => true
  | String c r => negb (Ascii.eqb c "_") && no_underscore r
  end.

(** The test of [checkUpcomingClasses] on the start of a session: it is 14
    to 16 minutes away. *)
Definition reminder_due (currentMinutes : Z) (c : Session) : bool :=
  match parseTime (start c) with
  | Some (hours, minutes) =>
      (hours * 60 + minutes - currentMinutes >=? 14)
      && (hours * 60 + minutes - currentMinutes <=? 16)
  | None => false
  end.

(** * Properties *)

(** ** Strings *)

Lemma ascii_compare_refl (a : ascii) : Ascii.compare a a = Eq.
Proof. unfold Ascii.compare. apply N.compare_refl. Qed.

Lemma string_compare_refl (s : string) : String.compare s s = Eq.
Proof.
  induction s as [|a s IH]; simpl; [reflexivity|].
  now rewrite ascii_compare_refl.
Qed.

Lemma ltb_irrefl (s : string) : String.ltb s s = false.
Proof. unfold String.ltb. now rewrite string_compare_refl. Qed.

Lemma leb_false_ltb (a b : string) : String.leb a b = false -> String.ltb b a = true.
Proof.
  unfold String.leb, String.ltb. rewrite (String.compare_antisym b a).
  destruct (String.compare a b); simpl; congruence.
Qed.

Lemma ltb_leb_false (a b : string) : String.ltb b a = true -> String.leb a b = false.
Proof.
  unfold String.leb, String.ltb. rewrite (String.compare_antisym b a).
  destruct (String.compare a b); simpl; congruence.
Qed.

Lemma strict_eq_true (a b : option string) : JS.strict_eq a b = true <-> a = b.
Proof.
  destruct a as [x|], b as [y|]; simpl; try (split; congruence).
  rewrite String.eqb_eq. split; congruence.
Qed.

(** ** [some] *)

Lemma some_from_true {A : Type} (f : A -> nat -> bool) (l : list A) (k : nat) :
  some_from f k l = true <->
  exists i c, l !! i = Some c /\ f c (k + i)%nat = true.
Proof.
  revert k. induction l as [|x l IH]; intros k; simpl.
  - split; [discriminate|]. intros (i & c & Hl & _). now destruct i.
  - rewrite orb_true_iff, IH. split.
    + intros [H|(i & c & Hl & H)].
      * exists 0%nat, x. rewrite Nat.add_0_r. auto.
      * exists (S i), c. split; [exact Hl|]. now rewrite Nat.add_succ_r.
    + intros (i & c & Hl & H). destruct i as [|i]; simpl in Hl.
      * left. injection Hl as ->. now rewrite Nat.add_0_r in H.
      * right. exists i, c. split; [exact Hl|]. now rewrite Nat.add_succ_r in H.
Qed.

Lemma some_i_true {A : Type} (f : A -> nat -> bool) (l : list A) :
  some_i f l = true <-> exists i c, l !! i = Some c /\ f c i = true.
Proof. unfold some_i. now rewrite some_from_true. Qed.

Lemma is_index_false (ex : option nat) (i : nat) :
  is_index ex i = false <-> ex <> Some i.
Proof.
  destruct ex as [e|]; simpl.
  - rewrite Nat.eqb_neq. split; intros H; congruence.
  - split; [discriminate|reflexivity].
Qed.

(** ** The clash detector *)

Lemma sameDay_true (newClass c : Session) :
  sameDay newClass c = true <->
  if JS.truthy (date newClass) then date c = date newClass
  else day c = day newClass.
Proof.
  unfold sameDay. destruct (JS.truthy (date newClass)).
  - apply strict_eq_true.
  - apply String.eqb_eq.
Qed.

Lemma hasClash_true (classes : list Session) (newClass : Session)
    (excludeIndex : option nat) :
  hasClash classes newClass excludeIndex = true <->
  exists i c,
    classes !! i = Some c /\ excludeIndex <> Some i /\ cancelled c = false /\
    (if JS.truthy (date newClass) then date c = date newClass
     else day c = day newClass) /\
    String.ltb (start newClass) (end_ c) = true /\
    String.ltb (start c) (end_ newClass) = true.
Proof.
  unfold hasClash. rewrite some_i_true. split.
  - intros (i & c & Hl & H). exists i, c.
    destruct (is_index excludeIndex i) eqn:Hex; [discriminate|].
    destruct (cancelled c) eqn:Hc; [discriminate|].
    apply andb_true_iff in H as [Hd Ho].
    apply andb_true_iff in Ho as [Ho1 Ho2].
    repeat split; auto.
    + now apply is_index_false.
    + now apply sameDay_true.
  - intros (i & c & Hl & Hex & Hc & Hd & Ho1 & Ho2). exists i, c.
    split; [exact Hl|].
    apply is_index_false in Hex. rewrite Hex, Hc.
    apply andb_true_iff. split; [now apply sameDay_true|].
    unfold timesOverlap. simpl. now rewrite Ho1, Ho2.
Qed.

(** C1 (as amended). [hasClash] answers [true] exactly when some stored
    session, neither excluded nor cancelled, lies on the candidate's day
    and overlaps it in the half-open sense, where "on the candidate's day"
    is decided by the candidate alone: a candidate that carries a date
    matches the stored sessions with that very date, and a candidate
    without a date matches by weekday name. A stored session that ends
    when the candidate starts, or starts when it ends, does not overlap
    it. *)
Theorem hasClash_characterisation (classes : list Session)
    (newClass : Session) (excludeIndex : option nat) :
  (hasClash classes newClass excludeIndex = true <->
   exists i c,
     classes !! i = Some c /\ excludeIndex <> Some i /\ cancelled c = false /\
     (if JS.truthy (date newClass) then date c = date newClass
      else day c = day newClass) /\
     String.ltb (start newClass) (end_ c) = true /\
     String.ltb (start c) (end_ newClass) = true)
  /\
  (forall c : Session,
     end_ c = start newClass \/ end_ newClass = start c ->
     timesOverlap newClass c = false).
Proof.
  split; [apply hasClash_true|].
  intros c [H|H]; unfold timesOverlap; simpl.
  - rewrite H, ltb_irrefl. reflexivity.
  - rewrite H, ltb_irrefl. apply andb_false_r.
Qed.

Lemma hasClash_characterisation_witness :
  timesOverlap (session "Riya" "Monday" (Some "2024-06-03") "10:00" "11:00")
               (session "Asha" "Monday" (Some "2024-06-03") "09:00" "10:00")
  = false.
Proof.
  apply (proj2 (hasClash_characterisation
                  [session "Asha" "Monday" (Some "2024-06-03") "09:00" "10:00"]
                  (session "Riya" "Monday" (Some "2024-06-03") "10:00" "11:00")
                  None)).
  left. reflexivity.
Defined.

(** C1, the case the wording misses: a stored session without a date (one
    awaiting confirmation, not yet migrated) and a candidate with a date,
    on the same weekday and at the same time. The two conflict in the
    words of the specification, and [hasClash] answers [false]. *)
Lemma hasClash_undated_stored_counterexample :
  let stored :=
    mkSession "Asha" "Monday" None "09:00" "10:00" false None None None
              true (Some "2024-06-01T08:00:00.000Z") false None in
  let candidate := session "Riya" "Monday" (Some "2024-06-03") "09:00" "10:00" in
  cancelled stored = false /\
  spec_conflict candidate stored = true /\
  hasClash [stored] candidate None = false.
Proof. repeat split; reflexivity. Qed.

Lemma indexed_In (classes : list Session) (i : nat) (c : Session) :
  In (i, c) (indexed classes) <-> classes !! i = Some c.
Proof.
  unfold indexed. rewrite <- list_elem_of_In, elem_of_lookup_imap. split.
  - intros (j & y & Heq & Hl). now inversion Heq; subst.
  - intros Hl. now exists i, c.
Qed.

Lemma visible_In (excludeIndex : option nat) (classes : list Session) (c : Session) :
  In c (visible excludeIndex classes) <->
  exists i, classes !! i = Some c /\ excludeIndex <> Some i /\ cancelled c = false.
Proof.
  unfold visible. rewrite in_map_iff. split.
  - intros ([i c'] & Hc & Hin). simpl in Hc. subst c'.
    apply filter_In in Hin as [Hin Hb]. simpl in Hb.
    apply andb_true_iff in Hb as [Hx Hcan].
    apply negb_true_iff in Hx, Hcan.
    exists i. split; [now apply indexed_In|].
    split; [now apply is_index_false|exact Hcan].
  - intros (i & Hl & Hex & Hcan). exists (i, c). split; [reflexivity|].
    apply filter_In. split; [now apply indexed_In|]. simpl.
    apply is_index_false in Hex. now rewrite Hex, Hcan.
Qed.

(** C6. [hasClash] skips the excluded position and every cancelled
    session: its answer is the answer on the store with those sessions
    taken out, and a store in which every session is cancelled blocks no
    candidate, in particular none that repeats the time and date of one of
    its sessions. *)
Theorem hasClash_skips_excluded_and_cancelled (classes : list Session)
    (newClass : Session) (excludeIndex : option nat) :
  hasClash classes newClass excludeIndex
  = hasClash (visible excludeIndex classes) newClass None
  /\
  (forallb cancelled classes = true ->
   hasClash classes newClass excludeIndex = false).
Proof.
  split.
  - apply Bool.eq_true_iff_eq.
    rewrite !hasClash_true. split.
    + intros (i & c & Hl & Hex & Hcan & Hd & Ho1 & Ho2).
      assert (Hin : In c (visible excludeIndex classes))
        by (apply visible_In; eauto).
      apply list_elem_of_In, list_elem_of_lookup in Hin as [j Hj].
      exists j, c. repeat split; auto; discriminate.
    + intros (j & c & Hj & _ & Hcan & Hd & Ho1 & Ho2).
      assert (Hin : In c (visible excludeIndex classes))
        by (apply list_elem_of_In, list_elem_of_lookup; eauto).
      apply visible_In in Hin as (i & Hl & Hex & _).
      exists i, c. repeat split; auto.
  - intros Hall. apply not_true_is_false.
    rewrite hasClash_true.
    intros (i & c & Hl & _ & Hcan & _).
    rewrite forallb_forall in Hall.
    assert (Hin : In c classes)
      by (apply list_elem_of_In, list_elem_of_lookup; eauto).
    apply Hall in Hin. congruence.
Qed.

Lemma hasClash_skips_excluded_and_cancelled_witness :
  hasClash [cancel "holiday"
              (session "Asha" "Monday" (Some "2024-06-03") "09:00" "10:00")]
           (session "Riya" "Monday" (Some "2024-06-03") "09:00" "10:00")
           None
  = false.
Proof.
  apply (proj2 (hasClash_skips_excluded_and_cancelled
                  [cancel "holiday"
                     (session "Asha" "Monday" (Some "2024-06-03") "09:00" "10:00")]
                  (session "Riya" "Monday" (Some "2024-06-03") "09:00" "10:00")
                  None)).
  reflexivity.
Defined.

(** ** The write path *)

Lemma array_set_In (l l' : list Session) (i : nat) (x : Session) :
  array_set l i x = Some l' -> In x l'.
Proof.
  unfold array_set. destruct (i <? length l)%nat eqn:Hlt.
  - intros [= <-]. apply Nat.ltb_lt in Hlt.
    apply list_elem_of_In, list_elem_of_lookup. exists i.
    now apply list_lookup_insert_eq.
  - destruct (i =? length l)%nat; [|discriminate].
    intros [= <-]. apply in_or_app. right. now left.
Qed.

Lemma gate_and_store_saved (st st' : State) (cls : Session)
    (write : option Session -> Session -> Session) :
  (forall o n, student (write o n) = student n /\ start (write o n) = start n
               /\ end_ (write o n) = end_ n) ->
  gate_and_store st cls write = (Saved, st') ->
  exists c, In c (classes st') /\ student c = student cls
            /\ start c = start cls /\ end_ c = end_ cls.
Proof.
  intros Hw. unfold gate_and_store.
  destruct (hasClash _ _ _ && negb _); [discriminate|].
  set (cls' := if allowClashOverride st then with_allowedClash cls else cls).
  assert (Hc' : student cls' = student cls /\ start cls' = start cls
                /\ end_ cls' = end_ cls)
    by (subst cls'; destruct (allowClashOverride st); auto).
  destruct Hc' as (Hs & Ha & He).
  destruct (editingIndex st) as [i|].
  - destruct (array_set _ _ _) as [l|] eqn:Hset; [|discriminate].
    intros [= <-]. apply array_set_In in Hset.
    eexists. split; [exact Hset|].
    destruct (Hw (classes st !! i) cls') as (-> & -> & ->). auto.
  - intros [= <-]. exists cls'. split; [|auto].
    simpl. apply in_or_app. right. now left.
Qed.

Lemma gate_and_store_unchanged (st st' : State) (cls : Session)
    (write : option Session -> Session -> Session) (o : Outcome) :
  gate_and_store st cls write = (o, st') -> o <> Saved -> st' = st.
Proof.
  unfold gate_and_store.
  destruct (hasClash _ _ _ && negb _); [now intros [= <- <-]|].
  destruct (editingIndex st) as [i|].
  - destruct (array_set _ _ _); intros [= <- <-]; congruence.
  - intros [= <- <-]. congruence.
Qed.

(** The two submit handlers validate. A submission whose end time is not
    after its start time, or whose student name is empty, is refused by
    both with an alert and the state (the stored sessions included)
    exactly as it was; and a session that either handler stores has a
    non-empty student name and [start < end]. *)
Lemma submit_handlers_validate (weekDayDate : Z -> Z -> string) (nowISO : string)
    (st : State) (f : Form) :
  (String.leb (endTimeInput f) (startTimeInput f) = true
   \/ studentNameOf f = "" ->
   (exists msg, handleFormSubmit weekDayDate st f = (Alert msg, st)) /\
   (exists msg, handleCheckWithStudent nowISO st f = (Alert msg, st)))
  /\
  (forall st',
     handleFormSubmit weekDayDate st f = (Saved, st')
     \/ handleCheckWithStudent nowISO st f = (Saved, st') ->
     exists c, In c (classes st') /\
               student c = studentNameOf f /\ student c <> "" /\
               start c = startTimeInput f /\ end_ c = endTimeInput f /\
               String.ltb (start c) (end_ c) = true).
Proof.
  split.
  - intros H. unfold handleFormSubmit, handleCheckWithStudent.
    destruct (String.eqb (studentNameOf f) "") eqn:Hn; [eauto|].
    destruct H as [H|H]; [|apply String.eqb_neq in Hn; contradiction].
    simpl. rewrite H. split; [eauto|].
    destruct (_ || _); eauto.
  - intros st' H. unfold handleFormSubmit, handleCheckWithStudent in H.
    destruct (String.eqb (studentNameOf f) "") eqn:Hn;
      [destruct H; discriminate|].
    apply String.eqb_neq in Hn.
    destruct (String.leb (endTimeInput f) (startTimeInput f)) eqn:Hle.
    { simpl in H. rewrite Hle in H.
      destruct H as [H|H]; [discriminate|].
      destruct (_ || _); discriminate. }
    apply leb_false_ltb in Hle.
    destruct H as [H|H].
    + simpl in H. apply ltb_leb_false in Hle as Hle'. rewrite Hle' in H.
      apply gate_and_store_saved in H as (c & Hin & Hs & Ha & He); [|auto].
      simpl in *. exists c. rewrite Hs, Ha, He. repeat split; auto.
    + cbv zeta in H. destruct (_ || _); [discriminate|].
      apply gate_and_store_saved in H as (c & Hin & Hs & Ha & He).
      * simpl in *. exists c. rewrite Hs, Ha, He. repeat split; auto.
      * intros [o|] n; simpl; auto.
Qed.

(** C9, the defect. Asha's Monday session is being duplicated; the form
    holds start 10:00 and end 09:00 and Tuesday is ticked. The submit
    handler refuses these fields ("End time must be after start time"),
    but [handleCopyToDays], which builds its sessions from the same fields
    without that test, stores a session whose end is not after its
    start. *)
Lemma handleCopyToDays_stores_inverted_session :
  let asha := session "Asha" "Monday" (Some "2024-06-03") "09:00" "10:00" in
  let st := mkState [asha] None 0 60 false 500 ∅ ∅ in
  let f := mkForm "Asha" "" "Monday" "10:00" "09:00" in
  let weekDayDate := fun (_ : Z) (i : Z) =>
                       if i =? 1 then "2024-06-04" else "2024-06-03" in
  let stored :=
    session "Asha" "Tuesday" (Some "2024-06-04") "10:00" "09:00" in
  handleFormSubmit weekDayDate st f
  = (Alert "End time must be after start time", st) /\
  handleCopyToDays weekDayDate st f ["Tuesday"]
  = (Copied 1 0, set_classes st [asha; stored]) /\
  String.leb (end_ stored) (start stored) = true.
Proof. repeat split; reflexivity. Qed.

(** ** Sessions awaiting confirmation *)




(** ** Restoring a cancelled session *)

(** C8, the defect. Asha's cancelled Monday session of 3 June and its
    weekly copy of Monday 10 June: the clash detector sees no conflict (the
    dates differ), yet the restore is refused, because [handleRestoreClass]
    compares weekday names where [hasClash] compares dates. The refusal
    leaves the state as it was. *)
Lemma handleRestoreClass_refuses_other_week :
  let asha := cancel "holiday"
                (session "Asha" "Monday" (Some "2024-06-03") "09:00" "10:00") in
  let copy := session "Asha" "Monday" (Some "2024-06-10") "09:00" "10:00" in
  let st := mkState [asha; copy] (Some 0%nat) 0 60 false 500 ∅ ∅ in
  hasClash (classes st) (restored asha) (Some 0%nat) = false /\
  handleRestoreClass st
  = (Alert "Cannot restore: This slot now has a time clash with another class.",
     st).
Proof. split; reflexivity. Qed.

(** ** Slot suggestions and cancelled sessions *)

(** C4, the defect. Asha's cancelled Monday session of 08:00-09:00 still
    occupies its hour for the finder: the suggestion is 09:00-10:00, where
    the store without that session gives 08:00-09:00, the hour [hasClash]
    would accept. A cancelled session that fills the working day leaves no
    suggestion at all. [findAvailableSlots] never reads [cancelled]. *)
Lemma findAvailableSlots_counts_cancelled :
  let asha := cancel "holiday"
                (session "Asha" "Monday" (Some "2024-06-03") "08:00" "09:00") in
  let allDay := cancel "holiday"
                  (session "Asha" "Monday" (Some "2024-06-03") "08:00" "20:00") in
  findAvailableSlots [asha] None 60 "Monday" = [mkSlot "09:00" "10:00"] /\
  findAvailableSlots [] None 60 "Monday" = [mkSlot "08:00" "09:00"] /\
  hasClash [asha] (session "Riya" "Monday" (Some "2024-06-03") "08:00" "09:00")
           None = false /\
  findAvailableSlots [allDay] None 60 "Monday" = [].
Proof. repeat split; reflexivity. Qed.

(** ** The lifecycle classifier *)

Lemma sum_minutes_snoc (l : list Session) (c : Session) :
  sum_minutes (l ++ [c]) = jadd (sum_minutes l) (getMinutesBetween (start c) (end_ c)).
Proof. unfold sum_minutes. now rewrite fold_left_app. Qed.

Lemma periodTotals_closed (clk : Clock) (l : list Session) :
  periodTotals clk l
  = (Z.of_nat (length (List.filter (fun c => confirmed c && isClassCompleted clk c) l)),
     Z.of_nat (length (List.filter
                         (fun c => confirmed c && negb (isClassCompleted clk c)) l)),
     sum_minutes (List.filter (fun c => confirmed c && isClassCompleted clk c) l)).
Proof.
  induction l as [|c l IH] using rev_ind; [reflexivity|].
  unfold periodTotals in *. rewrite fold_left_app, IH. simpl.
  rewrite !List.filter_app. simpl. unfold confirmed.
  destruct (cancelled c), (pendingConfirmation c); simpl;
    rewrite ?app_nil_r; try reflexivity.
  destruct (isClassCompleted clk c); simpl; rewrite ?app_nil_r.
  - rewrite sum_minutes_snoc, length_app. simpl.
    repeat f_equal. lia.
  - rewrite length_app. simpl. repeat f_equal. lia.
Qed.

(** C2 (as amended). [isClassCompleted] never reads the calendar date: a
    session is completed exactly when it carries a [completedDate], or its
    weekday index (Sunday = 0 ... Saturday = 6) is below today's, or equals
    today's while the clock is strictly past its end (at [now = end] it is
    not completed yet). The report counts as completed the sessions of the
    range that are neither cancelled nor awaiting confirmation and that the
    classifier marks, and as upcoming those it does not mark: a cancelled
    or awaiting session enters neither count, whatever its date. *)
Theorem isClassCompleted_characterisation (clk : Clock) (cls : Session) :
  (isClassCompleted clk cls = true <->
   JS.truthy (completedDate cls) = true \/
   exists classDayIndex,
     dayIndexMap (day cls) = Some classDayIndex /\
     (classDayIndex < todayDayIndex clk \/
      (classDayIndex = todayDayIndex clk /\
       exists endHour endMin,
         parseTime (end_ cls) = Some (endHour, endMin) /\
         (endHour * 60 + endMin) * 60000 < nowMs clk)))
  /\
  (forall classes rates ledger rate0 startStr endStr,
     let inRange := getClassesInRange classes startStr endStr in
     let report := renderReport clk classes rates ledger rate0 startStr endStr in
     completedCount report
     = Z.of_nat (length (List.filter
                           (fun c => confirmed c && isClassCompleted clk c) inRange))
     /\
     upcomingCount report
     = Z.of_nat (length (List.filter
                           (fun c => confirmed c && negb (isClassCompleted clk c))
                           inRange))).
Proof.
  split.
  - unfold isClassCompleted.
    destruct (JS.truthy (completedDate cls)); [split; auto|].
    destruct (dayIndexMap (day cls)) as [ci|].
    + destruct (ci <? todayDayIndex clk) eqn:Hlt.
      * apply Z.ltb_lt in Hlt. split; [|reflexivity].
        intros _. right. exists ci. auto.
      * apply Z.ltb_ge in Hlt.
        destruct (ci =? todayDayIndex clk) eqn:Heq.
        -- apply Z.eqb_eq in Heq.
           destruct (parseTime (end_ cls)) as [[h m]|].
           ++ split.
              ** intros H. right. exists ci. split; [reflexivity|]. right.
                 split; [exact Heq|]. exists h, m. split; [reflexivity|].
                 apply Z.gtb_lt in H. lia.
              ** intros [H|(ci' & [= <-] & [H|(_ & h' & m' & [= <- <-] & H)])];
                   [discriminate|lia|]. apply Z.gtb_lt. lia.
           ++ split; [discriminate|].
              intros [H|(ci' & [= <-] & [H|(_ & h' & m' & H & _)])];
                [discriminate|lia|discriminate].
        -- apply Z.eqb_neq in Heq. split; [discriminate|].
           intros [H|(ci' & [= <-] & [H|(H & _)])]; [discriminate|lia|lia].
    + split; [discriminate|].
      intros [H|(ci' & H & _)]; discriminate.
  - intros classes rates ledger rate0 startStr endStr. simpl.
    unfold renderReport. rewrite periodTotals_closed. simpl. auto.
Qed.

(** C2, the case the wording misses. On Wednesday 5 June 2024 at 10:00 a
    confirmed session dated Monday 10 June is in the future, so it is not
    completed in the words of the specification; the classifier marks it
    completed because Monday comes before Wednesday in the week, and the
    report of the week of 10 June counts it. *)
Lemma isClassCompleted_future_counterexample :
  let clk := mkClock 3 36000000 "2024-06-05" in
  let asha := session "Asha" "Monday" (Some "2024-06-10") "09:00" "10:00" in
  confirmed asha = true /\
  spec_completed clk asha = false /\
  isClassCompleted clk asha = true /\
  completedCount (renderReport clk [asha] ∅ ∅ 500 "2024-06-10" "2024-06-16") = 1.
Proof. repeat split; reflexivity. Qed.

(** ** Aggregation *)


Lemma jadd_0_l (a : jsnum) : jadd (Some 0) a = a.
Proof. destruct a; reflexivity. Qed.





Lemma studentStatsOf_snoc (clk : Clock) (ledger : gmap string bool)
    (l : list Session) (c : Session) :
  studentStatsOf clk ledger (l ++ [c])
  = stats_step clk ledger (studentStatsOf clk ledger l) c.
Proof. unfold studentStatsOf. now rewrite fold_left_app. Qed.



Lemma rows_lookup (clk : Clock) (classes : list Session)
    (rates : gmap string Z) (ledger : gmap string bool) (rate0 : Z)
    (startStr endStr : string) (s : string) :
  rows (renderReport clk classes rates ledger rate0 startStr endStr) !! s
  = rowOf rates rate0 s
      <$> (studentStatsOf clk ledger (getClassesInRange classes startStr endStr)
           !! s).
Proof.
  unfold renderReport. destruct (periodTotals _ _) as [[? ?] ?]. simpl.
  rewrite map_lookup_imap. now destruct (_ !! s).
Qed.



(** The minutes a student's row is computed from. *)
Lemma studentStats_minutes (clk : Clock) (ledger : gmap string bool)
    (l : list Session) (s : string) (stats : Stats) :
  studentStatsOf clk ledger l !! s = Some stats ->
  st_completedMinutes stats = sum_minutes (List.filter (billable clk s) l) /\
  st_paidMinutes stats
  = sum_minutes
      (List.filter (fun c => billable clk s c
                             && isPaid ledger (getClassPaymentId c)) l).
Proof.
  revert stats. induction l as [|c l IH] using rev_ind; intros stats.
  - unfold studentStatsOf. simpl. now rewrite lookup_empty.
  - rewrite studentStatsOf_snoc. unfold stats_step at 1.
    rewrite !List.filter_app. simpl.
    destruct (String.eqb_spec (student c) s) as [Heq|Hne].
    + subst s. rewrite lookup_insert_eq. intros [= <-].
      unfold billable at 2 4. rewrite String.eqb_refl. unfold confirmed. simpl.
      destruct (studentStatsOf clk ledger l !! student c) as [s0|] eqn:Hs0.
      * destruct (IH s0 eq_refl) as [IH1 IH2].
        destruct (cancelled c), (pendingConfirmation c); simpl;
          rewrite ?app_nil_r; auto;
          destruct (isClassCompleted clk c); simpl; rewrite ?app_nil_r; auto;
          destruct (isPaid ledger (getClassPaymentId c)); simpl;
          rewrite ?app_nil_r, ?sum_minutes_snoc, ?IH1, ?IH2; auto.
      * assert (Hnone : forall p, List.filter
                   (fun x => billable clk (student c) x && p x) l = []).
        { intros p. clear IH. revert Hs0.
          induction l as [|x l IHl] using rev_ind; [reflexivity|].
          rewrite studentStatsOf_snoc. unfold stats_step at 1.
          destruct (String.eqb_spec (student x) (student c)) as [Hx|Hx].
          - rewrite Hx, lookup_insert_eq. discriminate.
          - rewrite lookup_insert_ne by exact Hx. intros Hl.
            rewrite List.filter_app, (IHl Hl). simpl. unfold billable.
            apply String.eqb_neq in Hx. now rewrite Hx. }
        assert (Hnone1 : List.filter (billable clk (student c)) l = []).
        { rewrite <- (Hnone (fun _ => true)). apply List.filter_ext.
          intros x. now rewrite andb_true_r. }
        rewrite Hnone, Hnone1.
        destruct (cancelled c), (pendingConfirmation c); simpl; auto;
          destruct (isClassCompleted clk c); simpl; auto;
          destruct (isPaid ledger (getClassPaymentId c)); simpl;
          unfold sum_minutes; simpl; rewrite ?jadd_0_l; auto.
    + rewrite lookup_insert_ne by exact Hne. intros Hl.
      unfold billable at 2 4. apply String.eqb_neq in Hne. rewrite Hne. simpl.
      rewrite !app_nil_r. now apply IH.
Qed.

Lemma filter_andb {A : Type} (f g : A -> bool) (l : list A) :
  List.filter (fun x => f x && g x) l = List.filter g (List.filter f l).
Proof.
  induction l as [|x l IH]; simpl; [reflexivity|].
  destruct (f x); simpl; [|exact IH]. destruct (g x); now rewrite IH.
Qed.

Lemma sum_minutes_one (c : Session) :
  sum_minutes [c] = getMinutesBetween (start c) (end_ c).
Proof. unfold sum_minutes. cbn [fold_left]. apply jadd_0_l. Qed.

(** The scenario of the specification: one completed 90-minute session of
    Kabir at 500 an hour. Unpaid, the row reads amount 750, paid 0, unpaid
    750; marking the ledger entry of the session flips the split and
    leaves the total alone. *)
Example kabir_scenario :
  let clk := mkClock 3 36000000 "2024-06-05" in
  let kabir := session "Kabir" "Monday" (Some "2024-06-03") "09:00" "10:30" in
  let unpaid := renderReport clk [kabir] ∅ ∅ 500 "2024-06-03" "2024-06-09" in
  let paid := renderReport clk [kabir] ∅ {[getClassPaymentId kabir := true]}
                           500 "2024-06-03" "2024-06-09" in
  getClassPaymentId kabir = "Kabir_2024-06-03_09:00_10:30" /\
  rows unpaid !! "Kabir"
  = Some (mkRow 1 0 1 500 (Some 750) (Some 0) (Some 750)) /\
  rows paid !! "Kabir"
  = Some (mkRow 1 1 0 500 (Some 750) (Some 750) (Some 0)) /\
  totalAmount unpaid = Some 750 /\ totalAmount paid = Some 750.
Proof. vm_compute. repeat split; reflexivity. Qed.

(** C3 (as amended). The report rounds once per student, not once per
    session. For every row of the student table the rate is the student's
    entry of the rate table, or the default when there is none; the amount
    is [round(minutes / 60 * rate)] of the summed minutes of the student's
    completed, non-cancelled, non-pending sessions of the period; the paid
    amount is the same rounding of the summed minutes of those whose
    composite key [student_date_start_end] is marked in the ledger; the
    unpaid amount is the difference of the two. A student with a single
    such session is billed [round(minutes / 60 * rate)] of that session,
    all of it paid when its ledger entry is marked. For one unpaid
    90-minute session at 500 an hour the row reads amount 750, paid 0,
    unpaid 750, and with the ledger entry marked amount 750, paid 750,
    unpaid 0. *)
Theorem report_amounts (clk : Clock) (classes : list Session)
    (rates : gmap string Z) (ledger : gmap string bool) (rate0 : Z)
    (startStr endStr : string) :
  (forall (s : string) (r : Row),
     rows (renderReport clk classes rates ledger rate0 startStr endStr) !! s
     = Some r ->
     let inRange := getClassesInRange classes startStr endStr in
     let rate := rateOf rates rate0 s in
     let paid c := isPaid ledger (getClassPaymentId c) in
     row_rate r = rate /\
     (rates !! s = None -> rate = rate0) /\
     row_amount r
     = round_amount (sum_minutes (List.filter (billable clk s) inRange)) rate /\
     row_paidAmount r
     = round_amount
         (sum_minutes
            (List.filter (fun c => billable clk s c && paid c) inRange))
         rate /\
     row_unpaidAmount r = jsub (row_amount r) (row_paidAmount r) /\
     (forall c d, date c = Some d ->
        getClassPaymentId c
        = student c +:+ "_" +:+ d +:+ "_" +:+ start c +:+ "_" +:+ end_ c) /\
     (forall c,
        List.filter (billable clk s) inRange = [c] ->
        row_amount r = classAmount rates rate0 c /\
        row_paidAmount r
        = round_amount (if paid c then getMinutesBetween (start c) (end_ c)
                        else Some 0) rate))
  /\
  (let now := mkClock 3 36000000 "2024-06-05" in
   let kabir := session "Kabir" "Monday" (Some "2024-06-03") "09:00" "10:30" in
   rows (renderReport now [kabir] ∅ ∅ 500 "2024-06-03" "2024-06-09") !! "Kabir"
   = Some (mkRow 1 0 1 500 (Some 750) (Some 0) (Some 750)) /\
   rows (renderReport now [kabir] ∅ {[getClassPaymentId kabir := true]} 500
                      "2024-06-03" "2024-06-09") !! "Kabir"
   = Some (mkRow 1 1 0 500 (Some 750) (Some 750) (Some 0))).
Proof.
  split; [|split; apply kabir_scenario].
  intros s r Hr inRange rate paid. rewrite rows_lookup in Hr.
  fold inRange in Hr.
  destruct (studentStatsOf clk ledger inRange !! s) as [stats|] eqn:Hs;
    [|discriminate].
  injection Hr as <-. apply studentStats_minutes in Hs as [Hc Hp].
  simpl. rewrite Hc, Hp.
  split; [reflexivity|]. split.
  { intros Hn. subst rate. unfold rateOf. now rewrite Hn. }
  split; [reflexivity|]. split; [reflexivity|]. split; [reflexivity|].
  split.
  { intros c d Hd. unfold getClassPaymentId. now rewrite Hd. }
  intros c Hone. rewrite filter_andb, Hone. cbn [List.filter].
  assert (Hst : student c = s).
  { assert (Hin : In c (List.filter (billable clk s) inRange))
      by (rewrite Hone; now left).
    apply filter_In in Hin as [_ Hb]. unfold billable in Hb.
    apply andb_true_iff in Hb as [Hb _]. apply andb_true_iff in Hb as [Hb _].
    now apply String.eqb_eq. }
  unfold classAmount. rewrite Hst. fold rate.
  rewrite sum_minutes_one. split; [reflexivity|].
  fold (paid c). destruct (paid c); now rewrite ?sum_minutes_one.
Qed.

Lemma report_amounts_witness :
  row_amount (mkRow 1 0 1 500 (Some 750) (Some 0) (Some 750))
  = classAmount ∅ 500
      (session "Kabir" "Monday" (Some "2024-06-03") "09:00" "10:30").
Proof.
  assert (Hr : rows (renderReport
                       (mkClock 3 36000000 "2024-06-05")
                       [session "Kabir" "Monday" (Some "2024-06-03")
                                "09:00" "10:30"]
                       ∅ ∅ 500 "2024-06-03" "2024-06-09") !! "Kabir"
               = Some (mkRow 1 0 1 500 (Some 750) (Some 0) (Some 750)))
    by (vm_compute; reflexivity).
  destruct (proj1 (report_amounts _ _ _ _ _ _ _) _ _ Hr)
    as (_ & _ & _ & _ & _ & _ & H).
  exact (proj1 (H (session "Kabir" "Monday" (Some "2024-06-03") "09:00" "10:30")
                  eq_refl)).
Defined.

(** C3, the case the wording misses. Two completed 20-minute sessions of
    Kabir at 100 an hour, the first one paid: each session is worth
    [round(33.33) = 33], but the row shows [round(66.67) = 67] as the
    amount and [67 - 33 = 34] as unpaid. *)
Lemma report_rounds_per_student_counterexample :
  let clk := mkClock 3 36000000 "2024-06-05" in
  let a := session "Kabir" "Monday" (Some "2024-06-03") "09:00" "09:20" in
  let b := session "Kabir" "Tuesday" (Some "2024-06-04") "09:00" "09:20" in
  let rates : gmap string Z := {["Kabir" := 100]} in
  let ledger : gmap string bool := {[getClassPaymentId a := true]} in
  let report := renderReport clk [a; b] rates ledger 500
                             "2024-06-03" "2024-06-09" in
  classAmount rates 500 a = Some 33 /\
  classAmount rates 500 b = Some 33 /\
  spec_sum_amounts rates 500 [a; b] = Some 66 /\
  rows report !! "Kabir"
  = Some (mkRow 2 1 1 100 (Some 67) (Some 33) (Some 34)).
Proof. vm_compute. repeat split; reflexivity. Qed.

(** ** Well-formed times *)

Lemma isDigit_digitVal (c : ascii) :
  isDigit c = true ->
  JS.digitVal c = Some (digitOf c) /\ 0 <= digitOf c <= 9.
Proof.
  unfold isDigit, JS.digitVal, digitOf.
  destruct (_ && _) eqn:H; [|discriminate]. intros _.
  apply andb_true_iff in H as [H1 H2].
  apply Z.leb_le in H1, H2. split; [reflexivity|lia].
Qed.

Lemma isDigit_not_colon (c : ascii) :
  isDigit c = true -> Ascii.eqb c ":" = false.
Proof.
  intros H. apply Ascii.eqb_neq. intros ->. discriminate.
Qed.

Lemma wfTime_shape (s : string) :
  wfTime s = true ->
  exists a b d e,
    s = String a (String b (String ":" (String d (String e "")))) /\
    isDigit a = true /\ isDigit b = true /\ isDigit d = true /\
    isDigit e = true /\
    10 * digitOf a + digitOf b < 24 /\ 10 * digitOf d + digitOf e < 60.
Proof.
  destruct s as [|a [|b [|c [|d [|e [|? ?]]]]]]; simpl; try discriminate.
  intros H.
  repeat (apply andb_true_iff in H as [H ?]).
  exists a, b, d, e.
  match goal with Hc : Ascii.eqb c _ = true |- _ => apply Ascii.eqb_eq in Hc; subst c end.
  repeat split; auto; now apply Z.ltb_lt.
Qed.

Lemma parseTime_digits (a b d e : ascii) :
  isDigit a = true -> isDigit b = true -> isDigit d = true -> isDigit e = true ->
  parseTime (String a (String b (String ":" (String d (String e "")))))
  = Some (10 * digitOf a + digitOf b, 10 * digitOf d + digitOf e).
Proof.
  intros Ha Hb Hd He. unfold parseTime, JS.split_colon. simpl.
  rewrite (isDigit_not_colon a Ha), (isDigit_not_colon b Hb),
          (isDigit_not_colon d Hd), (isDigit_not_colon e He). simpl.
  unfold JS.Number. simpl.
  destruct (isDigit_digitVal a Ha) as [-> _].
  destruct (isDigit_digitVal b Hb) as [-> _].
  destruct (isDigit_digitVal d Hd) as [-> _].
  destruct (isDigit_digitVal e He) as [-> _].
  reflexivity.
Qed.

Lemma wfTime_parse (s : string) :
  wfTime s = true ->
  exists h m, parseTime s = Some (h, m) /\ 0 <= h < 24 /\ 0 <= m < 60.
Proof.
  intros H. apply wfTime_shape in H
    as (a & b & d & e & -> & Ha & Hb & Hd & He & Hh & Hm).
  rewrite parseTime_digits by assumption.
  apply isDigit_digitVal in Ha as [_ Ha], Hb as [_ Hb], Hd as [_ Hd], He as [_ He].
  eexists _, _. split; [reflexivity|]. lia.
Qed.

Lemma wfTime_minutes_range (s : string) :
  wfTime s = true -> 0 <= minutesOf s < 1440.
Proof.
  intros H. destruct (wfTime_parse s H) as (h & m & Hp & Hh & Hm).
  unfold minutesOf. rewrite Hp. lia.
Qed.

Lemma getMinutesBetween_wf (a b : string) :
  wfTime a = true -> wfTime b = true ->
  getMinutesBetween a b = Some (minutesOf b - minutesOf a).
Proof.
  intros Ha Hb.
  destruct (wfTime_parse a Ha) as (h1 & m1 & Hp1 & _).
  destruct (wfTime_parse b Hb) as (h2 & m2 & Hp2 & _).
  unfold getMinutesBetween, minutesOf. now rewrite Hp1, Hp2.
Qed.

(** On well-formed times the string comparison is the comparison of the
    minutes. *)
Lemma compare_wf (s t : string) :
  wfTime s = true -> wfTime t = true ->
  String.compare s t = Z.compare (minutesOf s) (minutesOf t).
Proof.
  intros Hs Ht.
  apply wfTime_shape in Hs as (a & b & d & e & -> & Ha & Hb & Hd & He & Hh & Hm).
  apply wfTime_shape in Ht
    as (a' & b' & d' & e' & -> & Ha' & Hb' & Hd' & He' & Hh' & Hm').
  unfold minutesOf. rewrite !parseTime_digits by assumption.
  apply isDigit_digitVal in Ha as [_ Ha], Hb as [_ Hb], Hd as [_ Hd],
    He as [_ He], Ha' as [_ Ha'], Hb' as [_ Hb'], Hd' as [_ Hd'], He' as [_ He'].
  unfold digitOf in *. simpl String.compare. unfold Ascii.compare.
  rewrite <- !N2Z.inj_compare.
  set (x1 := Z.of_N (N_of_ascii a)) in *. set (x2 := Z.of_N (N_of_ascii b)) in *.
  set (x3 := Z.of_N (N_of_ascii d)) in *. set (x4 := Z.of_N (N_of_ascii e)) in *.
  set (y1 := Z.of_N (N_of_ascii a')) in *. set (y2 := Z.of_N (N_of_ascii b')) in *.
  set (y3 := Z.of_N (N_of_ascii d')) in *. set (y4 := Z.of_N (N_of_ascii e')) in *.
  symmetry.
  destruct (Z.compare_spec x1 y1);
    [destruct (Z.compare_spec x2 y2);
       [destruct (Z.compare_spec x3 y3);
          [destruct (Z.compare_spec x4 y4)|..]|..]|..];
    first [apply Z.compare_eq_iff | apply Z.compare_lt_iff | apply Z.compare_gt_iff];
    lia.
Qed.

Lemma ltb_wf (s t : string) :
  wfTime s = true -> wfTime t = true ->
  String.ltb s t = (minutesOf s <? minutesOf t).
Proof.
  intros Hs Ht. unfold String.ltb, Z.ltb. now rewrite compare_wf.
Qed.

Lemma leb_wf (s t : string) :
  wfTime s = true -> wfTime t = true ->
  String.leb s t = (minutesOf s <=? minutesOf t).
Proof.
  intros Hs Ht. unfold String.leb, Z.leb. now rewrite compare_wf.
Qed.

(** The time [addMinutesToTime] prints for a total of minutes within the
    day is well formed and reads back as that total. *)
Lemma formatMinutes_wf_all :
  forallb (fun n => let t := Z.of_nat n in
                    wfTime (formatMinutes t) && (minutesOf (formatMinutes t) =? t))
          (seq 0 1440) = true.
Proof. vm_compute. reflexivity. Qed.

Lemma formatMinutes_wf (t : Z) :
  0 <= t < 1440 ->
  wfTime (formatMinutes t) = true /\ minutesOf (formatMinutes t) = t.
Proof.
  intros Ht. pose proof formatMinutes_wf_all as H.
  rewrite forallb_forall in H.
  specialize (H (Z.to_nat t)). cbv zeta in H.
  rewrite Z2Nat.id in H by lia.
  assert (Hin : In (Z.to_nat t) (seq 0 1440)) by (apply in_seq; lia).
  apply H in Hin. apply andb_true_iff in Hin as [H1 H2].
  split; [exact H1|now apply Z.eqb_eq].
Qed.

Lemma addMinutesToTime_wf (s : string) (d : Z) :
  wfTime s = true -> 0 <= d -> minutesOf s + d < 1440 ->
  wfTime (addMinutesToTime s d) = true /\
  minutesOf (addMinutesToTime s d) = minutesOf s + d.
Proof.
  intros Hs Hd Hlt. pose proof (wfTime_minutes_range s Hs) as Hr.
  destruct (wfTime_parse s Hs) as (h & m & Hp & _).
  unfold minutesOf in Hr, Hlt |- * at 2. unfold addMinutesToTime.
  rewrite Hp in *. apply formatMinutes_wf. lia.
Qed.

(** ** Sorting by start *)

Lemma insert_by_start_In (x y : nat * Session) (l : list (nat * Session)) :
  In y (insert_by_start x l) <-> y = x \/ In y l.
Proof.
  induction l as [|z l IH]; simpl.
  - intuition.
  - destruct (String.leb _ _); simpl; [intuition|]. rewrite IH. intuition.
Qed.

Lemma sort_by_start_In (y : nat * Session) (l : list (nat * Session)) :
  In y (sort_by_start l) <-> In y l.
Proof.
  induction l as [|x l IH]; simpl; [reflexivity|].
  rewrite insert_by_start_In, IH. intuition.
Qed.

Lemma insert_by_start_sorted (x : nat * Session) (l : list (nat * Session)) :
  wfSession (snd x) ->
  Forall (fun y => wfSession (snd y)) l ->
  StronglySorted (fun a b => startsBefore (snd a) (snd b)) l ->
  StronglySorted (fun a b => startsBefore (snd a) (snd b)) (insert_by_start x l).
Proof.
  intros [Hx _] Hwf Hs. induction l as [|y l IH]; simpl.
  - repeat constructor.
  - apply Forall_cons in Hwf as [[Hy _] Hwf].
    apply StronglySorted_inv in Hs as [Hs Hall].
    rewrite leb_wf by assumption.
    destruct (Z.leb_spec (minutesOf (start (snd x))) (minutesOf (start (snd y))))
      as [Hle|Hgt].
    + constructor; [constructor; assumption|].
      constructor; [exact Hle|].
      eapply Forall_impl; [exact Hall|]. unfold startsBefore. simpl. intros. lia.
    + constructor; [now apply IH|].
      apply List.Forall_forall. intros z Hz.
      apply (proj1 (insert_by_start_In _ _ _)) in Hz as [->|Hz].
      * unfold startsBefore. lia.
      * rewrite List.Forall_forall in Hall. now apply Hall.
Qed.

Lemma sort_by_start_sorted (l : list (nat * Session)) :
  Forall (fun y => wfSession (snd y)) l ->
  StronglySorted (fun a b => startsBefore (snd a) (snd b)) (sort_by_start l).
Proof.
  induction l as [|x l IH]; simpl; intros Hwf; [constructor|].
  apply Forall_cons in Hwf as [Hx Hwf].
  apply insert_by_start_sorted; [exact Hx| |now apply IH].
  apply List.Forall_forall. intros y Hy. apply (proj1 (sort_by_start_In _ _)) in Hy.
  rewrite List.Forall_forall in Hwf. now apply Hwf.
Qed.

Lemma StronglySorted_filter {A : Type} (R : A -> A -> Prop) (p : A -> bool)
    (l : list A) :
  StronglySorted R l -> StronglySorted R (List.filter p l).
Proof.
  induction 1 as [|x l Hs IH Hall]; simpl; [constructor|].
  destruct (p x); [|exact IH]. constructor; [exact IH|].
  rewrite List.Forall_forall in *. intros y Hy.
  apply filter_In in Hy as [Hy _]. now apply Hall.
Qed.

Lemma StronglySorted_map_snd (l : list (nat * Session)) :
  StronglySorted (fun a b => startsBefore (snd a) (snd b)) l ->
  StronglySorted startsBefore (List.map snd l).
Proof.
  induction 1 as [|x l Hs IH Hall]; simpl; constructor; [exact IH|].
  rewrite List.Forall_forall in *. intros y Hy.
  apply in_map_iff in Hy as (z & <- & Hz). now apply Hall.
Qed.

(** ** The sweep of the slot finder *)

Lemma sweep_step_eq (d : Z) (slots : list Slot) (cur : string) (c : Session) :
  sweep_step d (slots, cur) c
  = (emit_slot d slots cur (start c),
     if String.ltb cur (end_ c) then end_ c else cur).
Proof. reflexivity. Qed.

Lemma emit_slot_cases (d : Z) (slots : list Slot) (cur tgt : string) :
  0 <= d -> wfTime cur = true -> wfTime tgt = true ->
  emit_slot d slots cur tgt = slots \/
  (emit_slot d slots cur tgt
   = (slots ++ [mkSlot cur (addMinutesToTime cur d)])%list /\
   minutesOf cur + d <= minutesOf tgt /\
   wfTime (addMinutesToTime cur d) = true /\
   minutesOf (addMinutesToTime cur d) = minutesOf cur + d).
Proof.
  intros Hd Hc Ht. unfold emit_slot.
  rewrite ltb_wf, getMinutesBetween_wf by assumption.
  destruct (Z.ltb_spec (minutesOf cur) (minutesOf tgt)); [|now left].
  destruct (Z.geb_spec (minutesOf tgt - minutesOf cur) d); [|now left].
  right. pose proof (wfTime_minutes_range tgt Ht).
  destruct (addMinutesToTime_wf cur d Hc Hd) as [Hw Hm]; [lia|].
  repeat split; auto. lia.
Qed.

Lemma emit_slot_inv (d : Z) (L : list Session) (slots : list Slot)
    (cur cur' tgt : string) :
  0 <= d -> wfTime cur = true -> wfTime tgt = true ->
  minutesOf cur <= minutesOf cur' ->
  (forall c, In c L ->
     minutesOf (end_ c) <= minutesOf cur \/ minutesOf tgt <= minutesOf (start c)) ->
  slots_inv d L cur slots ->
  slots_inv d L cur' (emit_slot d slots cur tgt).
Proof.
  intros Hd Hc Ht Hle HL (Hok & Hbef & Hsort).
  destruct (emit_slot_cases d slots cur tgt Hd Hc Ht)
    as [->|(-> & Hgap & Hw & Hm)].
  - split; [exact Hok|]. split; [|exact Hsort].
    eapply Forall_impl; [exact Hbef|]. simpl. intros. lia.
  - split; [|split].
    + apply Forall_app. split; [exact Hok|]. constructor; [|constructor].
      unfold slot_ok. simpl. repeat split; auto.
      intros c Hin. destruct (HL c Hin); [left|right]; lia.
    + apply Forall_app. split.
      * eapply Forall_impl; [exact Hbef|]. simpl. intros. lia.
      * constructor; [exact Hle|constructor].
    + apply StronglySorted_app. split; [|split; [exact Hsort|]].
      * intros s1 s2 H1 H2. apply list_elem_of_In in H1, H2.
        destruct H2 as [<-|[]]. rewrite List.Forall_forall in Hbef.
        unfold slot_le. simpl. now apply Hbef.
      * repeat constructor.
Qed.

Lemma sweep_invariant (d : Z) (L : list Session) :
  0 <= d -> Forall wfSession L ->
  forall (R P : list Session) (slots : list Slot) (cur : string),
    L = (P ++ R)%list ->
    StronglySorted startsBefore R ->
    wfTime cur = true ->
    (forall c, In c P -> minutesOf (end_ c) <= minutesOf cur) ->
    slots_inv d L cur slots ->
    forall slots' cur',
      fold_left (sweep_step d) R (slots, cur) = (slots', cur') ->
      wfTime cur' = true /\
      (forall c, In c L -> minutesOf (end_ c) <= minutesOf cur') /\
      slots_inv d L cur' slots'.
Proof.
  intros Hd Hwf R. induction R as [|c R IH];
    intros P slots cur HL Hsort Hcur HP Hinv slots' cur' Hfold.
  - simpl in Hfold. injection Hfold as <- <-.
    rewrite app_nil_r in HL. subst P. auto.
  - cbn [fold_left] in Hfold. rewrite sweep_step_eq in Hfold.
    assert (Hc : wfSession c).
    { rewrite List.Forall_forall in Hwf. apply Hwf. subst L.
      apply in_or_app. right. now left. }
    destruct Hc as [Hcs Hce].
    apply StronglySorted_inv in Hsort as [Hsort Hall].
    set (cur1 := if String.ltb cur (end_ c) then end_ c else cur) in *.
    assert (Hcur1 : wfTime cur1 = true /\ minutesOf cur <= minutesOf cur1
                    /\ minutesOf (end_ c) <= minutesOf cur1).
    { subst cur1. rewrite ltb_wf by assumption.
      destruct (Z.ltb_spec (minutesOf cur) (minutesOf (end_ c)));
        repeat split; auto; lia. }
    destruct Hcur1 as (Hw1 & Hle1 & He1).
    apply (IH (P ++ [c])%list (emit_slot d slots cur (start c)) cur1); auto.
    + now rewrite <- app_assoc.
    + intros x Hx. apply in_app_or in Hx as [Hx|[<-|[]]]; [|exact He1].
      specialize (HP x Hx). lia.
    + apply emit_slot_inv; auto.
      intros x Hx. subst L. apply in_app_or in Hx as [Hx|[<-|Hx]].
      * left. now apply HP.
      * right. lia.
      * right. rewrite List.Forall_forall in Hall. now apply Hall.
Qed.

Lemma StronglySorted_weaken {A : Type} (R R' : A -> A -> Prop) (l : list A) :
  (forall a b, In a l -> In b l -> R a b -> R' a b) ->
  StronglySorted R l -> StronglySorted R' l.
Proof.
  intros HR Hs. induction Hs as [|x l Hs IH Hall]; constructor.
  - apply IH. intros a b Ha Hb. apply HR; now right.
  - rewrite List.Forall_forall in *. intros y Hy.
    apply HR; [now left|now right|now apply Hall].
Qed.

(** The sessions the sweep walks through: those of the day, but for the one
    being edited, by increasing start. *)
Lemma relevantClasses_facts (classes : list Session) (editingIndex : option nat)
    (day_ : string) :
  (forall c, In c classes -> day c = day_ -> wfSession c) ->
  let dayClasses :=
    sort_by_start
      (List.filter (fun ic => String.eqb (day (snd ic)) day_) (indexed classes)) in
  let relevantClasses :=
    match editingIndex with
    | Some e => List.filter (fun ic => negb (Nat.eqb (fst ic) e)) dayClasses
    | None => dayClasses
    end in
  Forall wfSession (List.map snd relevantClasses) /\
  StronglySorted startsBefore (List.map snd relevantClasses) /\
  (forall i c, classes !! i = Some c -> day c = day_ -> editingIndex <> Some i ->
     In c (List.map snd relevantClasses)).
Proof.
  intros Hwf dayClasses relevantClasses.
  assert (Hday : forall ic, In ic dayClasses <->
                   classes !! fst ic = Some (snd ic) /\ day (snd ic) = day_).
  { intros [i c]. subst dayClasses. rewrite sort_by_start_In, filter_In.
    simpl. now rewrite indexed_In, String.eqb_eq. }
  assert (Hdwf : Forall (fun ic => wfSession (snd ic)) dayClasses).
  { apply List.Forall_forall. intros [i c] Hin.
    apply Hday in Hin as [Hl Hd]. simpl in *. apply Hwf; [|exact Hd].
    apply list_elem_of_In, list_elem_of_lookup. eauto. }
  assert (Hdsort : StronglySorted (fun a b => startsBefore (snd a) (snd b))
                                  dayClasses).
  { subst dayClasses. apply sort_by_start_sorted.
    apply List.Forall_forall. intros [i c] Hin.
    apply filter_In in Hin as [Hin Hd]. simpl in *.
    apply indexed_In in Hin. apply String.eqb_eq in Hd. apply Hwf; [|exact Hd].
    apply list_elem_of_In, list_elem_of_lookup. eauto. }
  assert (Hsub : forall ic, In ic relevantClasses -> In ic dayClasses).
  { intros ic. subst relevantClasses. destruct editingIndex; [|auto].
    rewrite filter_In. tauto. }
  split; [|split].
  - apply List.Forall_forall. intros c Hc.
    apply in_map_iff in Hc as (ic & <- & Hin).
    rewrite List.Forall_forall in Hdwf. auto.
  - apply StronglySorted_map_snd. subst relevantClasses.
    destruct editingIndex; [now apply StronglySorted_filter|exact Hdsort].
  - intros i c Hl Hd Hne. apply in_map_iff. exists (i, c). split; [reflexivity|].
    assert (Hin : In (i, c) dayClasses) by (apply Hday; auto).
    subst relevantClasses. destruct editingIndex as [e|]; [|exact Hin].
    apply filter_In. split; [exact Hin|]. simpl.
    apply negb_true_iff, Nat.eqb_neq. congruence.
Qed.

(** C5, as the code has it. The finder is asked for a weekday name and
    reads no date. With times of the form [HH:MM] on the sessions stored
    under the requested weekday name and a duration [d >= 0], it returns
    at most four slots, in chronological order; each slot is exactly [d]
    minutes long from its start, and overlaps no session stored under
    that weekday name, whatever its date, other than the one being edited
    (cancelled or not, so in particular no non-cancelled one). *)
Theorem findAvailableSlots_sound (classes : list Session)
    (editingIndex : option nat) (d : Z) (day_ : string) :
  0 <= d ->
  (forall c, In c classes -> day c = day_ -> wfSession c) ->
  let slots := findAvailableSlots classes editingIndex d day_ in
  (length slots <= 4)%nat /\
  StronglySorted (fun a b => String.leb (slot_start a) (slot_start b) = true)
                 slots /\
  (forall s, In s slots ->
     getMinutesBetween (slot_start s) (slot_end s) = Some d /\
     forall i c,
       classes !! i = Some c -> day c = day_ -> editingIndex <> Some i ->
       timesOverlap s c = false).
Proof.
  intros Hd Hwf slots.
  destruct (relevantClasses_facts classes editingIndex day_ Hwf)
    as (HRwf & HRsort & HRin).
  subst slots. unfold findAvailableSlots.
  set (R := List.map snd _) in *.
  change (JS.padStart2 (JS.String_of WORKING_HOURS_start) +:+ ":00")
    with "08:00".
  change (JS.padStart2 (JS.String_of WORKING_HOURS_end) +:+ ":00")
    with "20:00".
  destruct (fold_left (sweep_step d) R ([], "08:00")) as [found cur] eqn:Hfold.
  fold (emit_slot d found cur "20:00").
  destruct (sweep_invariant d R Hd HRwf R [] [] "08:00" eq_refl HRsort eq_refl)
    with (slots' := found) (cur' := cur) as (Hcur & Hends & Hinv); auto.
  { intros c []. }
  { repeat split; constructor. }
  assert (Hfin : slots_inv d R cur (emit_slot d found cur "20:00")).
  { apply emit_slot_inv; auto; lia. }
  destruct Hfin as (Hok & _ & Hsorted).
  set (all := emit_slot d found cur "20:00") in *.
  assert (Htake : forall s, In s (firstn 4 all) -> In s all).
  { intros s Hs. rewrite <- (firstn_skipn 4 all). apply in_or_app. now left. }
  rewrite List.Forall_forall in Hok.
  split; [|split].
  - rewrite length_firstn. lia.
  - apply StronglySorted_weaken with (R := slot_le).
    + intros a b Ha Hb Hab.
      destruct (Hok a (Htake a Ha)) as (Hwa & _).
      destruct (Hok b (Htake b Hb)) as (Hwb & _).
      rewrite leb_wf by assumption. now apply Z.leb_le.
    + rewrite <- (firstn_skipn 4 all) in Hsorted.
      now apply StronglySorted_app_1_l in Hsorted.
  - intros s Hs. destruct (Hok s (Htake s Hs)) as (Hws & Hwe & Hlen & Hfree).
    split.
    + rewrite getMinutesBetween_wf by assumption. f_equal. lia.
    + intros i c Hl Hday Hne.
      assert (Hc : In c R) by (apply (HRin i c); auto).
      rewrite List.Forall_forall in HRwf.
      destruct (HRwf c Hc) as [Hcs Hce].
      unfold timesOverlap. simpl. rewrite !ltb_wf by assumption.
      apply andb_false_iff.
      destruct (Hfree c Hc); [left|right]; apply Z.ltb_ge; lia.
Qed.

Lemma findAvailableSlots_sound_witness :
  let classes :=
    [session "Asha" "Monday" (Some "2024-06-03") "09:00" "10:00";
     session "Riya" "Monday" (Some "2024-06-03") "08:30" "09:30";
     session "Kabir" "Monday" (Some "2024-06-03") "12:00" "13:00"] in
  let slots := findAvailableSlots classes None 60 "Monday" in
  (length slots <= 4)%nat /\
  StronglySorted (fun a b => String.leb (slot_start a) (slot_start b) = true)
                 slots /\
  (forall s, In s slots ->
     getMinutesBetween (slot_start s) (slot_end s) = Some 60 /\
     forall i c,
       classes !! i = Some c -> day c = "Monday" -> None <> Some i ->
       timesOverlap s c = false).
Proof.
  apply (findAvailableSlots_sound
           [session "Asha" "Monday" (Some "2024-06-03") "09:00" "10:00";
            session "Riya" "Monday" (Some "2024-06-03") "08:30" "09:30";
            session "Kabir" "Monday" (Some "2024-06-03") "12:00" "13:00"]
           None 60 "Monday").
  - lia.
  - intros c [<-|[<-|[<-|[]]]] _; split; reflexivity.
Defined.

(** C5, the case the wording misses: a session on the date of the
    requested day that is stored under another weekday name. The edit
    path of [handleCheckWithStudent] produces one: it changes [day] and
    keeps the old [date]. Here the Monday session of 2024-06-03 is edited
    to Tuesday; the finder, asked for Monday, suggests 08:00-09:00 over
    it, the session is not cancelled and is on that date, and the gate,
    which compares dates, refuses the suggested slot. *)
Lemma findAvailableSlots_other_day_name_counterexample :
  let monday := "2024-06-03" in
  let st0 :=
    mkState [session "Asha" "Monday" (Some monday) "08:00" "09:00"]
            (Some 0%nat) 0 60 false 500 ∅ ∅ in
  let stored :=
    mkSession "Asha" "Tuesday" (Some monday) "08:00" "09:00" false None None
              None true (Some "2024-06-01T08:00:00.000Z") false None in
  let st1 := mkState [stored] None 0 60 false 500 ∅ ∅ in
  let slot := mkSlot "08:00" "09:00" in
  handleCheckWithStudent "2024-06-01T08:00:00.000Z" st0
    (mkForm "Asha" "" "Tuesday" "08:00" "09:00") = (Saved, st1) /\
  cancelled stored = false /\ date stored = Some monday /\
  findAvailableSlots (classes st1) (editingIndex st1) (selectedDuration st1)
                     "Monday" = [slot] /\
  timesOverlap slot stored = true /\
  hasClash (classes st1)
           (session "Ravi" "Monday" (Some monday) "08:00" "09:00") None = true /\
  handleFormSubmit (fun _ i => if i =? 0 then monday else "2024-06-04") st1
    (mkForm "Ravi" "" "Monday" "08:00" "09:00") = (ClashWarning, st1).
Proof. repeat split; vm_compute; reflexivity. Qed.

Example findAvailableSlots_example :
  findAvailableSlots
    [session "Asha" "Monday" (Some "2024-06-03") "09:00" "10:00";
     session "Riya" "Monday" (Some "2024-06-03") "08:30" "09:30";
     session "Kabir" "Monday" (Some "2024-06-03") "12:00" "13:00"]
    None 60 "Monday"
  = [mkSlot "10:00" "11:00"; mkSlot "13:00" "14:00"].
Proof. reflexivity. Qed.

(** * Further properties *)

(** ** Time arithmetic *)

Lemma wfTime_minutes_inj (s t : string) :
  wfTime s = true -> wfTime t = true -> minutesOf s = minutesOf t -> s = t.
Proof.
  intros Hs Ht Heq. apply String.compare_eq_iff.
  rewrite compare_wf by assumption. rewrite Heq. apply Z.compare_refl.
Qed.

Lemma formatMinutes_mod (t : Z) :
  0 <= t -> formatMinutes t = formatMinutes (t mod 1440).
Proof.
  intros Ht. unfold formatMinutes, JS.rem, JS.floor_div.
  assert (Hr : 0 <= t mod 1440 < 1440) by (apply Z.mod_pos_bound; lia).
  assert (Hq : 0 <= t / 1440) by (apply Z.div_pos; lia).
  pose proof (Z.div_mod t 1440 ltac:(lia)) as Hdm.
  assert (H60 : t / 60 = 24 * (t / 1440) + (t mod 1440) / 60).
  { rewrite Hdm at 1.
    replace (1440 * (t / 1440) + t mod 1440)
      with ((24 * (t / 1440)) * 60 + t mod 1440) by lia.
    rewrite Z.div_add_l by lia. reflexivity. }
  assert (Hd : 0 <= (t mod 1440) / 60 < 24).
  { split; [apply Z.div_pos; lia|apply Z.div_lt_upper_bound; lia]. }
  rewrite !Z.rem_mod_nonneg by (try lia; apply Z.div_pos; lia).
  f_equal; [|f_equal].
  - f_equal. f_equal. rewrite H60.
    rewrite Z.add_comm, Z.mul_comm, Z.mod_add by lia. reflexivity.
  - f_equal. f_equal. rewrite Hdm at 1.
    replace (1440 * (t / 1440) + t mod 1440)
      with (t mod 1440 + (24 * (t / 1440)) * 60) by lia.
    now rewrite Z.mod_add by lia.
Qed.

(** X1. [addMinutesToTime] wraps at midnight: on a time of the form
    [HH:MM] and a number of minutes [d >= 0] it returns a time of that
    form, the one [d] minutes later on the 24-hour clock. *)
Theorem addMinutesToTime_wraps (s : string) (d : Z) :
  wfTime s = true -> 0 <= d ->
  wfTime (addMinutesToTime s d) = true /\
  minutesOf (addMinutesToTime s d) = (minutesOf s + d) mod 1440.
Proof.
  intros Hs Hd. pose proof (wfTime_minutes_range s Hs) as Hr.
  destruct (wfTime_parse s Hs) as (h & m & Hp & _).
  unfold addMinutesToTime. unfold minutesOf in Hr |- * at 2.
  rewrite Hp in *. fold (formatMinutes (h * 60 + m + d)).
  rewrite formatMinutes_mod by lia.
  apply formatMinutes_wf. apply Z.mod_pos_bound. lia.
Qed.

Lemma addMinutesToTime_wraps_witness :
  wfTime (addMinutesToTime "23:30" 45) = true /\
  minutesOf (addMinutesToTime "23:30" 45) = (minutesOf "23:30" + 45) mod 1440.
Proof. apply addMinutesToTime_wraps; [reflexivity|lia]. Defined.

(** X2. [getMinutesBetween] and [addMinutesToTime] are inverse to each
    other within a day: on [HH:MM] times, the minutes from [s] to the time
    [d] minutes after [s] are [d] when that time is before midnight, and
    adding to [s] the minutes from [s] to a later time [t] gives [t]
    back. *)
Theorem minutes_round_trip (s t : string) (d : Z) :
  wfTime s = true ->
  (0 <= d -> minutesOf s + d < 1440 ->
   getMinutesBetween s (addMinutesToTime s d) = Some d) /\
  (wfTime t = true -> getMinutesBetween s t = Some d -> 0 <= d ->
   addMinutesToTime s d = t).
Proof.
  intros Hs. split.
  - intros Hd Hlt. destruct (addMinutesToTime_wf s d Hs Hd Hlt) as [Hw Hm].
    rewrite getMinutesBetween_wf by assumption. f_equal. lia.
  - intros Ht Hg Hd. rewrite getMinutesBetween_wf in Hg by assumption.
    injection Hg as Hg. pose proof (wfTime_minutes_range t Ht).
    destruct (addMinutesToTime_wf s d Hs Hd) as [Hw Hm]; [lia|].
    apply wfTime_minutes_inj; auto. lia.
Qed.

Lemma minutes_round_trip_witness :
  getMinutesBetween "09:00" (addMinutesToTime "09:00" 90) = Some 90 /\
  addMinutesToTime "09:00" 90 = "10:30".
Proof.
  split.
  - apply (proj1 (minutes_round_trip "09:00" "10:30" 90 eq_refl));
      [lia|vm_compute; reflexivity].
  - apply (proj2 (minutes_round_trip "09:00" "10:30" 90 eq_refl));
      [reflexivity|reflexivity|lia].
Defined.

(** X3. On sessions with [HH:MM] times that end after they start,
    [timesOverlap] (a comparison of strings) holds exactly when the two
    sessions share a minute of the day; and it is symmetric. *)
Theorem timesOverlap_shared_minute (a b : Session) :
  wfSession a -> wfSession b ->
  minutesOf (start a) < minutesOf (end_ a) ->
  minutesOf (start b) < minutesOf (end_ b) ->
  timesOverlap a b = timesOverlap b a /\
  (timesOverlap a b = true <->
   exists t, minutesOf (start a) <= t < minutesOf (end_ a) /\
             minutesOf (start b) <= t < minutesOf (end_ b)).
Proof.
  intros [Has Hae] [Hbs Hbe] Ha Hb. split.
  - unfold timesOverlap. simpl. apply andb_comm.
  - unfold timesOverlap. simpl. rewrite !ltb_wf by assumption.
    rewrite andb_true_iff, !Z.ltb_lt. split.
    + intros [H1 H2].
      exists (Z.max (minutesOf (start a)) (minutesOf (start b))). lia.
    + intros (t & H1 & H2). lia.
Qed.

Lemma timesOverlap_shared_minute_witness :
  timesOverlap (session "Asha" "Monday" (Some "2024-06-03") "09:00" "10:00")
               (session "Riya" "Monday" (Some "2024-06-03") "09:30" "10:30")
  = timesOverlap (session "Riya" "Monday" (Some "2024-06-03") "09:30" "10:30")
                 (session "Asha" "Monday" (Some "2024-06-03") "09:00" "10:00").
Proof.
  refine (proj1 (timesOverlap_shared_minute
                   (session "Asha" "Monday" (Some "2024-06-03") "09:00" "10:00")
                   (session "Riya" "Monday" (Some "2024-06-03") "09:30" "10:30")
                   (conj eq_refl eq_refl) (conj eq_refl eq_refl) _ _));
    vm_compute; reflexivity.
Defined.

(** ** More on the clash detector *)

Lemma strict_eq_sym (a b : option string) : JS.strict_eq a b = JS.strict_eq b a.
Proof. destruct a, b; simpl; auto using String.eqb_sym. Qed.

Lemma timesOverlap_sym (a b : Session) : timesOverlap a b = timesOverlap b a.
Proof. unfold timesOverlap. apply andb_comm. Qed.

(** X4. The gate is symmetric between two sessions that both carry a date
    (or both lack one): with neither cancelled, offering the first against
    a store holding the second gives the answer of offering the second
    against a store holding the first. *)
Theorem hasClash_symmetric (a b : Session) :
  JS.truthy (date a) = JS.truthy (date b) ->
  cancelled a = false -> cancelled b = false ->
  hasClash [a] b None = hasClash [b] a None.
Proof.
  intros Ht Ha Hb. unfold hasClash, some_i. simpl. rewrite Ha, Hb.
  rewrite !orb_false_r, (timesOverlap_sym b a). f_equal.
  unfold sameDay. rewrite Ht.
  destruct (JS.truthy (date b)); [apply strict_eq_sym|apply String.eqb_sym].
Qed.

Lemma hasClash_symmetric_witness :
  hasClash [session "Asha" "Monday" (Some "2024-06-03") "09:00" "10:00"]
           (session "Riya" "Monday" (Some "2024-06-03") "09:30" "10:30") None
  = hasClash [session "Riya" "Monday" (Some "2024-06-03") "09:30" "10:30"]
             (session "Asha" "Monday" (Some "2024-06-03") "09:00" "10:00") None.
Proof.
  apply (hasClash_symmetric
           (session "Asha" "Monday" (Some "2024-06-03") "09:00" "10:00")
           (session "Riya" "Monday" (Some "2024-06-03") "09:30" "10:30"));
    reflexivity.
Defined.

Lemma some_from_app {A : Type} (f : A -> nat -> bool) (l l' : list A) (k : nat) :
  some_from f k (l ++ l') = some_from f k l || some_from f (k + length l) l'.
Proof.
  revert k. induction l as [|x l IH]; intros k; simpl.
  - now rewrite Nat.add_0_r.
  - rewrite IH, orb_assoc. do 2 f_equal. lia.
Qed.

Lemma some_from_shift {A : Type} (f : A -> nat -> bool) (l : list A) (k k' : nat) :
  (forall c i j, f c i = f c j) -> some_from f k l = some_from f k' l.
Proof.
  intros Hf. revert k k'. induction l as [|x l IH]; intros k k'; simpl; auto.
  now rewrite (Hf x k k'), (IH (S k) (S k')).
Qed.

(** X5. Without an excluded position the gate looks at the stored sessions
    one by one: on two stores put end to end it answers [true] exactly when
    it does on one of them. In particular it answers [false] on the empty
    store, and a clash is never lost by adding sessions. *)
Theorem hasClash_app (l l' : list Session) (newClass : Session) :
  hasClash (l ++ l') newClass None
  = hasClash l newClass None || hasClash l' newClass None.
Proof.
  unfold hasClash, some_i. rewrite some_from_app. f_equal.
  apply some_from_shift. reflexivity.
Qed.

(** ** Highlighting the clashing cards *)

Lemma push_new_In (k x : nat) (l : list nat) :
  In k (push_new x l) <-> k = x \/ In k l.
Proof.
  unfold push_new. destruct (existsb (Nat.eqb x) l) eqn:He.
  - apply existsb_exists in He as (y & Hy & Hxy).
    apply Nat.eqb_eq in Hxy. subst y. split; [auto|]. intros [->|H]; auto.
  - rewrite in_app_iff. simpl. intuition.
Qed.

Lemma push_new_NoDup (x : nat) (l : list nat) :
  NoDup l -> NoDup (push_new x l).
Proof.
  intros Hl. unfold push_new. destruct (existsb (Nat.eqb x) l) eqn:He; [exact Hl|].
  apply (proj2 (NoDup_app l [x])). split; [exact Hl|]. split.
  - intros y Hy Hy'. apply list_elem_of_In in Hy.
    apply list_elem_of_In in Hy'. destruct Hy' as [<-|[]].
    assert (existsb (Nat.eqb x) l = true); [|congruence].
    apply existsb_exists. exists x. split; [exact Hy|apply Nat.eqb_refl].
  - apply NoDup_singleton.
Qed.

Lemma clashing_inner_In (ci : Session) (i : nat) (rest : list Session) (j : nat)
    (acc : list nat) (k : nat) :
  In k (clashing_inner ci i rest j acc) <->
  In k acc \/
  exists m cm, rest !! m = Some cm /\ cancelled cm = false /\
               timesOverlap ci cm = true /\ (k = i \/ k = (j + m)%nat).
Proof.
  revert j acc. induction rest as [|cj r IH]; intros j acc; simpl.
  - split; [auto|]. intros [H|(m & cm & H & _)]; [exact H|discriminate].
  - rewrite IH. split.
    + intros [H|(m & cm & Hm & Hc & Ho & Hk)].
      * destruct (cancelled cj) eqn:Hcj; [auto|].
        destruct (timesOverlap ci cj) eqn:Ho; [|auto].
        apply push_new_In in H as [->|H].
        -- right. exists 0%nat, cj. rewrite Nat.add_0_r. auto.
        -- apply push_new_In in H as [->|H]; [|auto].
           right. exists 0%nat, cj. auto.
      * right. exists (S m), cm. repeat split; auto.
        destruct Hk; [auto|right; lia].
    + intros [H|(m & cm & Hm & Hc & Ho & Hk)].
      * left. destruct (cancelled cj); [exact H|].
        destruct (timesOverlap ci cj); [|exact H].
        apply push_new_In. right. apply push_new_In. now right.
      * destruct m as [|m]; simpl in Hm.
        -- injection Hm as ->. left. rewrite Hc, Ho.
           destruct Hk as [->| ->].
           ++ apply push_new_In. right. apply push_new_In. now left.
           ++ apply push_new_In. left. lia.
        -- right. exists m, cm. repeat split; auto.
           destruct Hk; [auto|right; lia].
Qed.

Lemma clashing_outer_In (l : list Session) (i : nat) (acc : list nat) (k : nat) :
  In k (clashing_outer l i acc) <->
  In k acc \/
  exists a b ca cb,
    (a < b)%nat /\ l !! a = Some ca /\ l !! b = Some cb /\
    cancelled ca = false /\ cancelled cb = false /\
    timesOverlap ca cb = true /\ (k = (i + a)%nat \/ k = (i + b)%nat).
Proof.
  revert i acc. induction l as [|ci r IH]; intros i acc; simpl.
  - split; [auto|]. intros [H|(a & b & ca & cb & _ & H & _)]; [exact H|discriminate].
  - rewrite IH. split.
    + intros [H|(a & b & ca & cb & Hab & Ha & Hb & Hca & Hcb & Ho & Hk)].
      * destruct (cancelled ci) eqn:Hci; [auto|].
        apply clashing_inner_In in H as [H|(m & cm & Hm & Hc & Ho & Hk)]; [auto|].
        right. exists 0%nat, (S m), ci, cm. repeat split; auto; lia.
      * right. exists (S a), (S b), ca, cb. repeat split; auto; lia.
    + intros [H|(a & b & ca & cb & Hab & Ha & Hb & Hca & Hcb & Ho & Hk)].
      * left. destruct (cancelled ci); [exact H|].
        apply clashing_inner_In. now left.
      * destruct a as [|a]; simpl in Ha.
        -- injection Ha as ->. left. rewrite Hca.
           destruct b as [|b]; [lia|]. simpl in Hb.
           apply clashing_inner_In. right. exists b, cb.
           split; [exact Hb|]. split; [exact Hcb|]. split; [exact Ho|]. lia.
        -- destruct b as [|b]; [lia|]. simpl in Hb.
           right. exists a, b, ca, cb. repeat split; auto; lia.
Qed.

Lemma clashing_inner_NoDup (ci : Session) (i : nat) (rest : list Session)
    (j : nat) (acc : list nat) :
  NoDup acc -> NoDup (clashing_inner ci i rest j acc).
Proof.
  revert j acc. induction rest as [|cj r IH]; intros j acc Hacc; simpl; [exact Hacc|].
  apply IH. destruct (cancelled cj); [exact Hacc|].
  destruct (timesOverlap ci cj); [|exact Hacc].
  now apply push_new_NoDup, push_new_NoDup.
Qed.

Lemma clashing_outer_NoDup (l : list Session) (i : nat) (acc : list nat) :
  NoDup acc -> NoDup (clashing_outer l i acc).
Proof.
  revert i acc. induction l as [|ci r IH]; intros i acc Hacc; simpl; [exact Hacc|].
  apply IH. destruct (cancelled ci); [exact Hacc|].
  now apply clashing_inner_NoDup.
Qed.

(** X6. [findClashingClasses] returns, each once, the positions of the
    sessions that are not cancelled and overlap another session of the
    list that is not cancelled either. *)
Theorem findClashingClasses_spec (dayClasses : list Session) (k : nat) :
  (In k (findClashingClasses dayClasses) <->
   exists ck,
     dayClasses !! k = Some ck /\ cancelled ck = false /\
     exists m cm, m <> k /\ dayClasses !! m = Some cm /\
                  cancelled cm = false /\ timesOverlap ck cm = true)
  /\ NoDup (findClashingClasses dayClasses).
Proof.
  split; [|apply clashing_outer_NoDup, NoDup_nil_2].
  unfold findClashingClasses. rewrite clashing_outer_In. simpl. split.
  - intros [[]|(a & b & ca & cb & Hab & Ha & Hb & Hca & Hcb & Ho & [->| ->])].
    + exists ca. repeat split; auto. exists b, cb. repeat split; auto. lia.
    + exists cb. repeat split; auto. exists a, ca. repeat split; auto; [lia|].
      now rewrite timesOverlap_sym.
  - intros (ck & Hk & Hck & m & cm & Hne & Hm & Hcm & Ho). right.
    destruct (Nat.lt_ge_cases k m) as [Hlt|Hge].
    + exists k, m, ck, cm. repeat split; auto.
    + exists m, k, cm, ck. repeat split; auto; [lia|].
      now rewrite timesOverlap_sym.
Qed.

(** ** The warning banner *)

Lemma unexpected_pair_filter (p : Session -> bool) (l : list Session) :
  unexpected_pair (List.filter p l) = true <->
  exists i j ci cj,
    (i < j)%nat /\ l !! i = Some ci /\ l !! j = Some cj /\
    p ci = true /\ p cj = true /\ timesOverlap ci cj = true /\
    allowedClash ci = false /\ allowedClash cj = false.
Proof.
  induction l as [|x r IH]; simpl.
  - split; [discriminate|]. intros (i & j & ci & cj & _ & H & _). discriminate.
  - destruct (p x) eqn:Hpx; simpl.
    + rewrite orb_true_iff, IH, existsb_exists. split.
      * intros [(cj & Hin & Hq)|(i & j & ci & cj & Hij & Hi & Hj & H)].
        -- apply filter_In in Hin as [Hin Hpj].
           apply list_elem_of_In, list_elem_of_lookup in Hin as [m Hm].
           apply andb_true_iff in Hq as [Ho Ha].
           apply andb_true_iff in Ha as [Ha1 Ha2].
           apply negb_true_iff in Ha1, Ha2.
           exists 0%nat, (S m), x, cj.
           split; [lia|]. split; [reflexivity|]. split; [exact Hm|]. tauto.
        -- exists (S i), (S j), ci, cj.
           split; [lia|]. split; [exact Hi|]. split; [exact Hj|]. exact H.
      * intros (i & j & ci & cj & Hij & Hi & Hj & Hpi & Hpj & Ho & Ha1 & Ha2).
        destruct i as [|i]; simpl in Hi.
        -- injection Hi as ->. left. destruct j as [|j]; [lia|]. simpl in Hj.
           exists cj. split.
           ++ apply filter_In. split; [|exact Hpj].
              apply list_elem_of_In, list_elem_of_lookup. eauto.
           ++ now rewrite Ho, Ha1, Ha2.
        -- right. destruct j as [|j]; [lia|]. simpl in Hj.
           exists i, j, ci, cj. split; [lia|]. tauto.
    + rewrite IH. split.
      * intros (i & j & ci & cj & Hij & Hi & Hj & H). exists (S i), (S j), ci, cj.
        split; [lia|]. split; [exact Hi|]. split; [exact Hj|]. exact H.
      * intros (i & j & ci & cj & Hij & Hi & Hj & Hpi & Hpj & H).
        destruct i as [|i]; simpl in Hi; [congruence|].
        destruct j as [|j]; [lia|]. simpl in Hj.
        exists i, j, ci, cj. split; [lia|]. tauto.
Qed.

(** X7. The warning banner of [checkForClashes] is shown exactly when two
    stored sessions that are not cancelled have the same weekday name (one
    of the seven), overlap, and neither carries [allowedClash]. The dates
    of the two sessions play no part. *)
Theorem checkForClashes_spec (classes : list Session) :
  checkForClashes classes = true <->
  exists i j ci cj,
    (i < j)%nat /\ classes !! i = Some ci /\ classes !! j = Some cj /\
    In (day ci) DAYS /\ day cj = day ci /\
    cancelled ci = false /\ cancelled cj = false /\
    timesOverlap ci cj = true /\
    allowedClash ci = false /\ allowedClash cj = false.
Proof.
  unfold checkForClashes. rewrite existsb_exists. split.
  - intros (d & Hd & H). apply unexpected_pair_filter in H
      as (i & j & ci & cj & Hij & Hi & Hj & Hpi & Hpj & Ho & Ha1 & Ha2).
    apply andb_true_iff in Hpi as [Hdi Hci], Hpj as [Hdj Hcj].
    apply String.eqb_eq in Hdi, Hdj. apply negb_true_iff in Hci, Hcj.
    exists i, j, ci, cj. subst d. repeat split; auto.
  - intros (i & j & ci & cj & Hij & Hi & Hj & Hd & Hdj & Hci & Hcj & Ho & Ha1 & Ha2).
    exists (day ci). split; [exact Hd|]. apply unexpected_pair_filter.
    exists i, j, ci, cj. repeat split; auto.
    + now rewrite String.eqb_refl, Hci.
    + rewrite Hdj, String.eqb_refl, Hcj. reflexivity.
Qed.

(** ** What a save changes *)

Lemma array_set_lookup (l l' : list Session) (i : nat) (x : Session) :
  array_set l i x = Some l' ->
  l' !! i = Some x /\ forall j, j <> i -> l' !! j = l !! j.
Proof.
  unfold array_set. destruct (i <? length l)%nat eqn:Hlt.
  - intros [= <-]. apply Nat.ltb_lt in Hlt. split.
    + now apply list_lookup_insert_eq.
    + intros j Hj. now apply list_lookup_insert_ne.
  - destruct (i =? length l)%nat eqn:Heq; [|discriminate].
    intros [= <-]. apply Nat.eqb_eq in Heq. subst i. split.
    + rewrite lookup_app_r by lia. now rewrite Nat.sub_diag.
    + intros j Hj. destruct (Nat.lt_ge_cases j (length l)) as [Hlt'|Hge].
      * now apply lookup_app_l.
      * rewrite lookup_ge_None_2 by (rewrite length_app; simpl; lia).
        symmetry. now apply lookup_ge_None_2.
Qed.

Lemma hasClash_candidate_ext (l : list Session) (c c' : Session)
    (ex : option nat) :
  date c = date c' -> day c = day c' -> start c = start c' ->
  end_ c = end_ c' -> hasClash l c ex = hasClash l c' ex.
Proof.
  intros Hd Hy Hs He. apply Bool.eq_true_iff_eq. rewrite !hasClash_true.
  now rewrite Hd, Hy, Hs, He.
Qed.

Lemma hasClash_changed_at (l l' : list Session) (c : Session) (k : nat)
    (ex : option nat) :
  (forall j, j <> k -> l' !! j = l !! j) ->
  (ex = None \/ ex = Some k) ->
  hasClash l c ex = false -> hasClash l' c (Some k) = false.
Proof.
  intros Hsame Hex Hno. apply not_true_is_false. intros H.
  apply hasClash_true in H as (j & cj & Hj & Hne & Hrest).
  assert (Hjk : j <> k) by congruence.
  rewrite (Hsame j Hjk) in Hj.
  assert (hasClash l c ex = true); [|congruence].
  apply hasClash_true. exists j, cj. split; [exact Hj|].
  split; [|exact Hrest]. destruct Hex as [-> | ->]; congruence.
Qed.

(** X8. A save by [handleFormSubmit] touches one position of the store, the
    edited one or the new last one: every other position keeps its
    session. The session stored there carries the fields of the form and
    none of the flags of the session it replaces ([cancelled] and
    [pendingConfirmation] are off, [allowedClash] is the override flag);
    unless the override was on, it clashes with no other stored session;
    and the edit position, the override flag and the duration are
    reset. *)
Theorem handleFormSubmit_saved (weekDayDate : Z -> Z -> string)
    (st st' : State) (f : Form) :
  handleFormSubmit weekDayDate st f = (Saved, st') ->
  let k := match editingIndex st with
           | Some i => i
           | None => length (classes st)
           end in
  exists c,
    classes st' !! k = Some c /\
    (forall j, j <> k -> classes st' !! j = classes st !! j) /\
    student c = studentNameOf f /\ day c = daySelect f /\
    start c = startTimeInput f /\ end_ c = endTimeInput f /\
    cancelled c = false /\ pendingConfirmation c = false /\
    allowedClash c = allowClashOverride st /\
    (allowClashOverride st = false ->
     hasClash (classes st') c (Some k) = false) /\
    editingIndex st' = None /\ allowClashOverride st' = false /\
    selectedDuration st' = 60.
Proof.
  intros H k. unfold handleFormSubmit in H.
  destruct (String.eqb (studentNameOf f) ""); [discriminate|].
  cbv zeta in H. destruct (String.leb _ _); [discriminate|].
  unfold gate_and_store in H.
  destruct (hasClash _ _ _) eqn:Hclash; simpl in H.
  - destruct (allowClashOverride st) eqn:Hov; [|discriminate]. simpl in H.
    destruct (editingIndex st) as [i|] eqn:Hed.
    + destruct (array_set _ _ _) as [l|] eqn:Hset; [|discriminate].
      injection H as <-. apply array_set_lookup in Hset as [Hk Hother].
      eexists. split; [exact Hk|]. simpl. repeat split; auto. discriminate.
    + injection H as <-. eexists. split.
      { simpl. subst k. rewrite lookup_app_r by lia.
        now rewrite Nat.sub_diag. }
      simpl. repeat split; auto; try discriminate.
      intros j Hj. subst k.
      destruct (Nat.lt_ge_cases j (length (classes st))).
      * now apply lookup_app_l.
      * rewrite lookup_ge_None_2 by (rewrite length_app; simpl; lia).
        symmetry. now apply lookup_ge_None_2.
  - assert (Hc' : forall c0, hasClash (classes st)
                    (if allowClashOverride st then with_allowedClash c0 else c0)
                    (editingIndex st) = hasClash (classes st) c0 (editingIndex st)).
    { intros c0. destruct (allowClashOverride st); [|reflexivity].
      now apply hasClash_candidate_ext. }
    destruct (editingIndex st) as [i|] eqn:Hed.
    + destruct (array_set _ _ _) as [l|] eqn:Hset; [|discriminate].
      injection H as <-. apply array_set_lookup in Hset as [Hk Hother].
      eexists. split; [exact Hk|]. simpl.
      split; [exact Hother|].
      destruct (allowClashOverride st) eqn:Hov; simpl;
        repeat split; auto; try discriminate.
      intros _. eapply hasClash_changed_at; [exact Hother|now right|exact Hclash].
    + injection H as <-.
      assert (Hother : forall j, j <> k ->
                (classes st ++
                 [if allowClashOverride st
                  then with_allowedClash
                         (mkSession (studentNameOf f) (daySelect f)
                            (Some (weekDayDate (currentWeekOffset st)
                                     (DAYS_indexOf (daySelect f))))
                            (startTimeInput f) (endTimeInput f) false None
                            None None false None false None)
                  else mkSession (studentNameOf f) (daySelect f)
                         (Some (weekDayDate (currentWeekOffset st)
                                  (DAYS_indexOf (daySelect f))))
                         (startTimeInput f) (endTimeInput f) false None
                         None None false None false None])%list !! j
                = classes st !! j).
      { intros j Hj. subst k.
        destruct (Nat.lt_ge_cases j (length (classes st))).
        * now apply lookup_app_l.
        * rewrite lookup_ge_None_2 by (rewrite length_app; simpl; lia).
          symmetry. now apply lookup_ge_None_2. }
      eexists. split.
      { simpl. subst k. rewrite lookup_app_r by lia.
        now rewrite Nat.sub_diag. }
      simpl. split; [exact Hother|].
      destruct (allowClashOverride st) eqn:Hov; simpl;
        repeat split; auto; try discriminate.
      intros _. eapply hasClash_changed_at; [exact Hother|now left|exact Hclash].
Qed.

Lemma handleFormSubmit_saved_witness :
  exists c,
    [session "Asha" "Monday" (Some "2024-06-03") "09:00" "10:00"] !! 0%nat
    = Some c /\ cancelled c = false.
Proof.
  destruct (handleFormSubmit_saved
              (fun _ _ => "2024-06-03") (mkState [] None 0 60 false 500 ∅ ∅)
              (mkState [session "Asha" "Monday" (Some "2024-06-03")
                          "09:00" "10:00"] None 0 60 false 500 ∅ ∅)
              (mkForm "" "Asha" "Monday" "09:00" "10:00") eq_refl)
    as (c & Hc & _ & _ & _ & _ & _ & Hcan & _).
  exists c. split; [exact Hc|exact Hcan].
Defined.

(** ** Cancelling, restoring and confirming *)

Lemma wouldClash_true (l : list Session) (e : nat) (t : Session) :
  wouldClash l e t = true <->
  exists i c, l !! i = Some c /\ i <> e /\ cancelled c = false /\
              day c = day t /\ timesOverlap t c = true.
Proof.
  unfold wouldClash. rewrite some_i_true. split.
  - intros (i & c & Hl & H). exists i, c.
    destruct (Nat.eqb i e) eqn:Hie; [discriminate|].
    destruct (cancelled c); [discriminate|].
    apply andb_true_iff in H as [Hd Ho]. apply String.eqb_eq in Hd.
    apply Nat.eqb_neq in Hie. auto.
  - intros (i & c & Hl & Hie & Hc & Hd & Ho). exists i, c.
    split; [exact Hl|]. apply Nat.eqb_neq in Hie. rewrite Hie, Hc, Ho, Hd.
    now rewrite String.eqb_refl.
Qed.

Lemma wouldClash_insert (l : list Session) (e : nat) (x t t' : Session) :
  day t' = day t -> start t' = start t -> end_ t' = end_ t ->
  wouldClash (<[e := x]> l) e t' = wouldClash l e t.
Proof.
  intros Hd Hs He. apply Bool.eq_true_iff_eq. rewrite !wouldClash_true.
  unfold timesOverlap. simpl. rewrite Hd, Hs, He.
  split; intros (i & c & Hl & Hie & H); exists i, c;
    (split; [|auto]).
  - now rewrite list_lookup_insert_ne in Hl by congruence.
  - now rewrite list_lookup_insert_ne by congruence.
Qed.

(** X9. Cancelling a session and restoring it gives the session back
    without its cancellation data. For the session [c] at the edited
    position, whatever it carries: [handleCancelClass] stores it as
    cancelled with the reason and the time stamp and changes no other
    position; and when the modal is opened on it again,
    [handleRestoreClass] succeeds, provided no other active session of the
    same weekday name overlaps it (otherwise the restore is refused with
    an alert and nothing changes). After the restore the store is the one
    before the cancellation with, at that position, [c] not cancelled and
    without [cancelReason], [cancelledAt] and [customCancelReason], every
    other property of [c] kept. So the store is exactly the one before
    the cancellation when [c] was active and carried none of the three; a
    session that [copyAllToNextWeek] copied from a cancelled one is active
    but keeps [cancelledAt], and loses it in the round trip. *)
Theorem cancel_then_restore (nowISO reason : string) (answer : option string)
    (st st1 st2 : State) (i : nat) (c : Session) :
  editingIndex st = Some i -> classes st !! i = Some c ->
  handleCancelClass nowISO reason answer st = (Saved, st1) ->
  classes st2 = classes st1 -> editingIndex st2 = Some i ->
  (exists c1, classes st1 = <[i := c1]> (classes st) /\
              cancelled c1 = true /\ cancelReason c1 = Some reason /\
              cancelledAt c1 = Some nowISO) /\
  (wouldClash (classes st) i c = false ->
   exists st3,
     handleRestoreClass st2 = (Saved, st3) /\
     classes st3
     = <[i := mkSession (student c) (day c) (date c) (start c) (end_ c)
                        false None None None (pendingConfirmation c)
                        (pendingSince c) (allowedClash c) (completedDate c)]>
         (classes st) /\
     (cancelled c = false -> cancelReason c = None ->
      cancelledAt c = None -> customCancelReason c = None ->
      classes st3 = classes st)) /\
  (wouldClash (classes st) i c = true ->
   exists msg, handleRestoreClass st2 = (Alert msg, st2)).
Proof.
  intros Hed Hc Hcancel H2 Hed2.
  unfold handleCancelClass in Hcancel. rewrite Hed, Hc in Hcancel.
  destruct (String.eqb reason "other" && negb (JS.truthy answer));
    [discriminate|].
  injection Hcancel as <-. simpl in H2.
  assert (Hlt : (i < length (classes st))%nat)
    by (apply lookup_lt_is_Some; eauto).
  split.
  { eexists. split; [reflexivity|]. simpl. auto. }
  unfold handleRestoreClass. rewrite Hed2, H2.
  rewrite list_lookup_insert_eq by exact Hlt.
  rewrite (wouldClash_insert _ _ _ c) by reflexivity.
  split; intros Hw; rewrite Hw.
  - eexists. split; [reflexivity|]. simpl.
    rewrite list_insert_insert_eq. split; [reflexivity|].
    intros Hcan Hr Hat Hcu. apply list_insert_id.
    rewrite Hc. f_equal. destruct c; simpl in *. now subst.
  - eexists. reflexivity.
Qed.

Lemma cancel_then_restore_witness :
  exists st3,
    handleRestoreClass
      (mkState [mkSession "Asha" "Monday" (Some "2024-06-10") "09:00" "10:00"
                  true (Some "holiday") (Some "2024-06-01T08:00:00.000Z")
                  None false None false None]
               (Some 0%nat) 0 60 false 500 ∅ ∅) = (Saved, st3) /\
    classes st3
    = [session "Asha" "Monday" (Some "2024-06-10") "09:00" "10:00"].
Proof.
  destruct (proj1 (proj2 (cancel_then_restore
              "2024-06-01T08:00:00.000Z" "holiday" None
              (mkState [mkSession "Asha" "Monday" (Some "2024-06-10")
                          "09:00" "10:00" false None
                          (Some "2024-05-27T08:00:00.000Z") None false None
                          false None]
                       (Some 0%nat) 0 60 false 500 ∅ ∅)
              (mkState [mkSession "Asha" "Monday" (Some "2024-06-10")
                          "09:00" "10:00" true (Some "holiday")
                          (Some "2024-06-01T08:00:00.000Z") None false None
                          false None]
                       None 0 60 false 500 ∅ ∅)
              (mkState [mkSession "Asha" "Monday" (Some "2024-06-10")
                          "09:00" "10:00" true (Some "holiday")
                          (Some "2024-06-01T08:00:00.000Z") None false None
                          false None]
                       (Some 0%nat) 0 60 false 500 ∅ ∅)
              0%nat _ eq_refl eq_refl eq_refl eq_refl eq_refl)) eq_refl)
    as (st3 & H1 & H2 & _).
  exists st3. split; [exact H1|exact H2].
Defined.

Lemma hasClash_cancelled_one (x n : Session) :
  cancelled x = true -> hasClash [x] n None = false.
Proof. intros H. unfold hasClash, some_i. simpl. now rewrite H. Qed.

Lemma hasClash_app_None (l l' : list Session) (n : Session) :
  hasClash (l ++ l') n None = hasClash l n None || hasClash l' n None.
Proof.
  unfold hasClash, some_i. rewrite some_from_app. f_equal.
  now apply some_from_shift.
Qed.

(** X10. For the clash gate a cancelled session is a deleted one: after
    [handleCancelClass] the gate (with no excluded position) answers on
    the store as it does on the store with the cancelled position
    removed. *)
Theorem cancelled_session_frees_its_slot (nowISO reason : string)
    (answer : option string) (st st1 : State) (i : nat) (n : Session) :
  editingIndex st = Some i ->
  handleCancelClass nowISO reason answer st = (Saved, st1) ->
  hasClash (classes st1) n None = hasClash (delete i (classes st)) n None.
Proof.
  intros Hed H. unfold handleCancelClass in H. rewrite Hed in H.
  destruct (String.eqb reason "other" && negb (JS.truthy answer));
    [discriminate|].
  destruct (classes st !! i) as [c|] eqn:Hc; [|discriminate].
  injection H as <-. simpl.
  assert (Hlt : (i < length (classes st))%nat)
    by (apply lookup_lt_is_Some; eauto).
  rewrite insert_take_drop by exact Hlt. rewrite delete_take_drop.
  rewrite !hasClash_app_None.
  change (?x :: drop (S i) (classes st))
    with ([x] ++ drop (S i) (classes st))%list.
  rewrite hasClash_app_None, hasClash_cancelled_one by reflexivity.
  reflexivity.
Qed.

Lemma cancelled_session_frees_its_slot_witness :
  hasClash
    [cancel "holiday"
       (session "Asha" "Monday" (Some "2024-06-03") "09:00" "10:00")]
    (session "Ravi" "Monday" (Some "2024-06-03") "09:30" "10:30") None
  = false.
Proof.
  exact (cancelled_session_frees_its_slot
           "2024-06-01T08:00:00.000Z" "holiday" None
           (mkState [session "Asha" "Monday" (Some "2024-06-03") "09:00" "10:00"]
                    (Some 0%nat) 0 60 false 500 ∅ ∅)
           _ 0%nat
           (session "Ravi" "Monday" (Some "2024-06-03") "09:30" "10:30")
           eq_refl eq_refl).
Defined.

Lemma getClassesInRange_app (l l' : list Session) (a b : string) :
  getClassesInRange (l ++ l') a b
  = (getClassesInRange l a b ++ getClassesInRange l' a b)%list.
Proof. unfold getClassesInRange. apply List.filter_app. Qed.

(** X11. A session created by [handleCheckWithStudent] and then confirmed
    by [handleConfirmClass] is an active session without a date: it is the
    last element of the store, it is neither cancelled nor pending, and no
    report range contains it, whatever the range. *)
Theorem confirmed_session_stays_undated (nowISO : string)
    (st st1 st2 : State) (f : Form) :
  editingIndex st = None ->
  handleCheckWithStudent nowISO st f = (Saved, st1) ->
  classes st2 = classes st1 ->
  editingIndex st2 = Some (length (classes st)) ->
  exists st3 c,
    handleConfirmClass st2 = (Saved, st3) /\
    classes st3 = (classes st ++ [c])%list /\
    student c = studentNameOf f /\ day c = daySelect f /\
    start c = startTimeInput f /\ end_ c = endTimeInput f /\
    confirmed c = true /\ date c = None /\
    forall a b, getClassesInRange (classes st3) a b
                = getClassesInRange (classes st) a b.
Proof.
  intros Hed H H2 Hed2. unfold handleCheckWithStudent in H.
  destruct (String.eqb (studentNameOf f) ""); [discriminate|].
  cbv zeta in H. destruct (_ || _); [discriminate|].
  destruct (String.leb _ _); [discriminate|].
  unfold gate_and_store in H. rewrite Hed in H.
  destruct (_ && _); [discriminate|]. injection H as <-. simpl in H2.
  unfold handleConfirmClass. rewrite Hed2, H2.
  rewrite lookup_app_r by lia. rewrite Nat.sub_diag. simpl.
  do 2 eexists. split; [reflexivity|]. simpl.
  replace (length (classes st)) with (length (classes st) + 0)%nat by lia.
  rewrite insert_app_r. simpl.
  split; [reflexivity|].
  destruct (allowClashOverride st); simpl; repeat split; auto;
    intros a b; rewrite getClassesInRange_app; simpl; apply app_nil_r.
Qed.

Lemma confirmed_session_stays_undated_witness :
  exists st3 c,
    handleConfirmClass
      (mkState [mkSession "Asha" "Monday" None "09:00" "10:00" false None
                  None None true (Some "2024-06-01T08:00:00.000Z") false None]
               (Some 0%nat) 0 60 false 500 ∅ ∅) = (Saved, st3) /\
    classes st3 = [c] /\ date c = None.
Proof.
  destruct (confirmed_session_stays_undated
              "2024-06-01T08:00:00.000Z" (mkState [] None 0 60 false 500 ∅ ∅)
              _ (mkState [mkSession "Asha" "Monday" None "09:00" "10:00" false
                            None None None true
                            (Some "2024-06-01T08:00:00.000Z") false None]
                         (Some 0%nat) 0 60 false 500 ∅ ∅)
              (mkForm "" "Asha" "Monday" "09:00" "10:00")
              eq_refl eq_refl eq_refl eq_refl)
    as (st3 & c & H1 & H2 & _ & _ & _ & _ & _ & H3 & _).
  exists st3, c. auto.
Defined.

(** ** Deleting several sessions *)

Lemma insert_desc_In (x a : nat) (l : list nat) :
  In x (insert_desc a l) <-> x = a \/ In x l.
Proof.
  induction l as [|y r IH]; simpl.
  - intuition.
  - destruct (y <=? a)%nat; simpl; [intuition|]. rewrite IH. intuition.
Qed.

Lemma sort_desc_In (x : nat) (l : list nat) : In x (sort_desc l) <-> In x l.
Proof.
  induction l as [|a r IH]; simpl; [tauto|].
  rewrite insert_desc_In, IH. intuition.
Qed.

Lemma insert_desc_sorted (a : nat) (l : list nat) :
  ~ In a l -> StronglySorted (fun x y => (y < x)%nat) l ->
  StronglySorted (fun x y => (y < x)%nat) (insert_desc a l).
Proof.
  intros Hn Hs. induction Hs as [|y r Hs IH Hall]; simpl.
  - repeat constructor.
  - destruct (y <=? a)%nat eqn:Hle.
    + apply Nat.leb_le in Hle.
      assert (y <> a) by (intros ->; apply Hn; now left).
      constructor; [now constructor|].
      constructor; [lia|].
      eapply Forall_impl; [exact Hall|]. simpl. intros; lia.
    + apply Nat.leb_gt in Hle. constructor.
      * apply IH. intros Hin. apply Hn. now right.
      * apply Forall_forall. intros z Hz. apply list_elem_of_In in Hz.
        apply insert_desc_In in Hz as [->|Hz]; [exact Hle|].
        rewrite Forall_forall in Hall. apply Hall.
        now apply list_elem_of_In.
Qed.

Lemma sort_desc_sorted (l : list nat) :
  NoDup l -> StronglySorted (fun x y => (y < x)%nat) (sort_desc l).
Proof.
  induction 1 as [|a r Hn Hnd IH]; simpl; [constructor|].
  apply insert_desc_sorted; [|exact IH].
  rewrite sort_desc_In. intros Hin. apply Hn. now apply list_elem_of_In.
Qed.

Lemma existsb_eqb_In (k : nat) (sel : list nat) :
  existsb (Nat.eqb k) sel = true <-> In k sel.
Proof.
  rewrite existsb_exists. split.
  - intros (x & Hx & He). apply Nat.eqb_eq in He. now subst.
  - intros H. exists k. split; [exact H|apply Nat.eqb_refl].
Qed.

Lemma survivors_from_ext (k : nat) (sel sel' : list nat) (l : list Session) :
  (forall x, In x sel <-> In x sel') ->
  survivors_from k sel l = survivors_from k sel' l.
Proof.
  intros H. revert k. induction l as [|x r IH]; intros k; simpl; [reflexivity|].
  assert (He : existsb (Nat.eqb k) sel = existsb (Nat.eqb k) sel').
  { apply Bool.eq_true_iff_eq. now rewrite !existsb_eqb_In. }
  now rewrite He, !IH.
Qed.

Lemma survivors_from_all (k : nat) (sel : list nat) (l : list Session) :
  (forall e, In e sel -> (e < k)%nat) -> survivors_from k sel l = l.
Proof.
  revert k. induction l as [|x r IH]; intros k H; simpl; [reflexivity|].
  destruct (existsb (Nat.eqb k) sel) eqn:He.
  - apply existsb_eqb_In in He. apply H in He. lia.
  - f_equal. apply IH. intros e Hin. apply H in Hin. lia.
Qed.

Lemma survivors_from_delete (k d : nat) (sel : list nat) (l : list Session) :
  (forall e, In e sel -> (e < k + d)%nat) ->
  survivors_from k sel (delete d l) = survivors_from k ((k + d)%nat :: sel) l.
Proof.
  revert k d. induction l as [|x r IH]; intros k d H; [reflexivity|].
  destruct d as [|d]; simpl.
  - rewrite Nat.add_0_r, Nat.eqb_refl. simpl.
    rewrite Nat.add_0_r in H.
    rewrite !survivors_from_all; auto.
    intros e [<-|Hin]; [lia|]. apply H in Hin. lia.
  - replace (k =? k + S d)%nat with false
      by (symmetry; apply Nat.eqb_neq; lia). simpl.
    replace (k + S d)%nat with (S k + d)%nat by lia.
    rewrite (IH (S k) d) by (intros e Hin; apply H in Hin; lia).
    reflexivity.
Qed.

Lemma fold_delete_desc (ds : list nat) (l : list Session) :
  StronglySorted (fun x y => (y < x)%nat) ds ->
  fold_left (fun l index => delete index l) ds l = survivors_from 0 ds l.
Proof.
  intros Hs. revert l. induction Hs as [|d ds Hs IH Hall]; intros l; simpl.
  - symmetry. apply survivors_from_all. intros e [].
  - rewrite IH. rewrite (survivors_from_delete 0 d); [reflexivity|].
    intros e Hin. rewrite Forall_forall in Hall. simpl.
    apply Hall. now apply list_elem_of_In.
Qed.

Lemma survivors_from_In (k : nat) (sel : list nat) (l : list Session)
    (c : Session) :
  In c (survivors_from k sel l) <->
  exists i, l !! i = Some c /\ ~ In (k + i)%nat sel.
Proof.
  revert k. induction l as [|x r IH]; intros k; simpl.
  - split; [tauto|]. intros (i & Hl & _). now destruct i.
  - destruct (existsb (Nat.eqb k) sel) eqn:He.
    + apply existsb_eqb_In in He. rewrite IH. split.
      * intros (i & Hl & Hn). exists (S i). split; [exact Hl|].
        now rewrite Nat.add_succ_r.
      * intros (i & Hl & Hn). destruct i as [|i]; simpl in Hl.
        -- rewrite Nat.add_0_r in Hn. contradiction.
        -- exists i. split; [exact Hl|]. now rewrite Nat.add_succ_r in Hn.
    + assert (Hk : ~ In k sel).
      { intros Hin. apply existsb_eqb_In in Hin. congruence. }
      simpl. rewrite IH. split.
      * intros [<-|(i & Hl & Hn)].
        -- exists 0%nat. rewrite Nat.add_0_r. auto.
        -- exists (S i). split; [exact Hl|]. now rewrite Nat.add_succ_r.
      * intros (i & Hl & Hn). destruct i as [|i]; simpl in Hl.
        -- left. congruence.
        -- right. exists i. split; [exact Hl|].
           now rewrite Nat.add_succ_r in Hn.
Qed.

(** X12. [deleteSelectedClasses] removes the selected positions and nothing
    else: with the positions of the selection pairwise different (they
    come from a [Set]), the store after a confirmed deletion is the old
    store without the sessions at the selected positions, the others in
    their order; a session is in the new store exactly when it stood at a
    position that was not selected. Deleting from the highest position
    down is what makes the positions stay valid. *)
Theorem deleteSelectedClasses_removes_selected (selected : list nat)
    (st st' : State) :
  NoDup selected ->
  deleteSelectedClasses selected true st = (Saved, st') ->
  classes st' = survivors_from 0 selected (classes st) /\
  (forall c, In c (classes st') <->
             exists i, classes st !! i = Some c /\ ~ In i selected).
Proof.
  intros Hnd H. unfold deleteSelectedClasses in H.
  destruct selected as [|s0 sel]; [discriminate|].
  injection H as <-. cbn [classes set_classes].
  assert (Heq : fold_left (fun l index => delete index l)
                  (sort_desc (s0 :: sel)) (classes st)
                = survivors_from 0 (s0 :: sel) (classes st)).
  { rewrite fold_delete_desc by now apply sort_desc_sorted.
    apply survivors_from_ext. intros x. apply sort_desc_In. }
  split; [exact Heq|].
  intros c. change (insert_desc s0 (sort_desc sel)) with (sort_desc (s0 :: sel)).
  rewrite Heq, survivors_from_In. reflexivity.
Qed.

Lemma deleteSelectedClasses_removes_selected_witness :
  classes
    (snd (deleteSelectedClasses [0%nat; 2%nat] true
            (mkState [session "Asha" "Monday" (Some "2024-06-03") "09:00" "10:00";
                      session "Ravi" "Monday" (Some "2024-06-03") "10:00" "11:00";
                      session "Kabir" "Monday" (Some "2024-06-03") "11:00" "12:00"]
                     None 0 60 false 500 ∅ ∅)))
  = [session "Ravi" "Monday" (Some "2024-06-03") "10:00" "11:00"].
Proof.
  refine (proj1 (deleteSelectedClasses_removes_selected
                   [0%nat; 2%nat] _ _ _ eq_refl)).
  apply NoDup_cons. split; [|apply NoDup_singleton].
  intros H. apply list_elem_of_In in H. simpl in H.
  destruct H as [H|[]]. discriminate.
Defined.

(** ** Dragging a session *)

(** X13. A successful [handleDrop] of the session at [idx]. The new
    session has the student and the times of the dragged one, the target
    day and the date of that day in the displayed week. A copy is appended
    to the store, active ([cancelled] and [pendingConfirmation] off) and
    clash-free against the whole store; a move replaces position [idx]
    alone, keeps the flags of the dragged session, and clashes with no
    other position. *)
Theorem handleDrop_saved (weekDayDate : Z -> Z -> string) (targetDay : string)
    (idx : nat) (isCopyDrag : bool) (st st' : State) :
  handleDrop weekDayDate targetDay (Some idx) isCopyDrag st = (Saved, st') ->
  exists dragged c,
    classes st !! idx = Some dragged /\
    student c = student dragged /\ start c = start dragged /\
    end_ c = end_ dragged /\ day c = targetDay /\
    date c = Some (weekDayDate (currentWeekOffset st) (DAYS_indexOf targetDay)) /\
    if isCopyDrag
    then classes st' = (classes st ++ [c])%list /\
         cancelled c = false /\ pendingConfirmation c = false /\
         hasClash (classes st) c None = false
    else classes st' = <[idx := c]> (classes st) /\
         cancelled c = cancelled dragged /\
         pendingConfirmation c = pendingConfirmation dragged /\
         hasClash (classes st') c (Some idx) = false.
Proof.
  intros H. unfold handleDrop in H.
  destruct (classes st !! idx) as [dragged|] eqn:Hd; [|discriminate].
  cbv zeta in H. destruct (hasClash _ _ _) eqn:Hclash; [discriminate|].
  exists dragged. destruct isCopyDrag; injection H as <-.
  - exists (mkSession (student dragged) targetDay
              (Some (weekDayDate (currentWeekOffset st) (DAYS_indexOf targetDay)))
              (start dragged) (end_ dragged) false None (cancelledAt dragged)
              (customCancelReason dragged) false (pendingSince dragged)
              (allowedClash dragged) (completedDate dragged)).
    simpl. repeat split; auto;
      try (rewrite <- Hclash; now apply hasClash_candidate_ext).
  - match type of Hclash with hasClash _ ?n _ = _ => exists n end.
    simpl. repeat split; auto.
    eapply hasClash_changed_at; [|now right|exact Hclash].
    intros j Hj. now apply list_lookup_insert_ne.
Qed.

Lemma handleDrop_saved_witness :
  exists dragged c,
    [session "Asha" "Monday" (Some "2024-06-03") "09:00" "10:00"] !! 0%nat
    = Some dragged /\ day c = "Tuesday".
Proof.
  destruct (handleDrop_saved
              (fun _ _ => "2024-06-04") "Tuesday" 0%nat true
              (mkState [session "Asha" "Monday" (Some "2024-06-03")
                          "09:00" "10:00"] None 0 60 false 500 ∅ ∅)
              _ eq_refl)
    as (dragged & c & H1 & _ & _ & _ & H2 & _).
  exists dragged, c. auto.
Defined.

(** ** The copy loops *)

Section CopyFold.

Context {X : Type}.
Variable step : list Session * nat * nat -> X -> list Session * nat * nat.
Variable mk : X -> Session.

Hypothesis step_cases : forall l a s x,
  (step (l, a, s) x = ((l ++ [mk x])%list, S a, s)
   /\ hasClash l (mk x) None = false)
  \/ step (l, a, s) x = (l, a, S s).

(** What a loop that pushes the clash-free candidates and counts the
    others leaves behind. *)
Lemma copy_fold_invariant (xs : list X) :
  forall l0 a0 s0 l a s,
    fold_left step xs (l0, a0, s0) = (l, a, s) ->
    exists added,
      l = (l0 ++ added)%list /\ a = (a0 + length added)%nat /\
      (a + s = a0 + s0 + length xs)%nat /\
      forall k c, added !! k = Some c ->
        (exists x, In x xs /\ c = mk x) /\
        hasClash (l0 ++ take k added) c None = false.
Proof.
  induction xs as [|x xs IH]; intros l0 a0 s0 l a s H; simpl in H.
  - injection H as <- <- <-. exists []. rewrite app_nil_r. simpl.
    split; [reflexivity|]. split; [lia|]. split; [lia|].
    intros k c Hk. now destruct k.
  - destruct (step_cases l0 a0 s0 x) as [[Hs Hno]|Hs]; rewrite Hs in H;
      apply IH in H as (added & -> & -> & Hcount & Hall).
    + exists (mk x :: added). rewrite <- app_assoc. simpl.
      split; [reflexivity|]. split; [lia|]. split; [lia|].
      intros k c Hk. destruct k as [|k]; simpl in Hk.
      * injection Hk as <-. simpl. rewrite app_nil_r.
        split; [|exact Hno]. exists x. auto.
      * destruct (Hall k c Hk) as [(y & Hy & ->) Hc]. split.
        -- exists y. auto.
        -- simpl. now rewrite <- app_assoc in Hc.
    + exists added. split; [reflexivity|]. split; [lia|]. split; [simpl; lia|].
      intros k c Hk. destruct (Hall k c Hk) as [(y & Hy & ->) Hc]. split.
      * exists y. split; [now right|reflexivity].
      * exact Hc.
Qed.

End CopyFold.

(** Dated, active sessions pushed one after the other, each clash-free
    against the store it was pushed on, clash with no other position of
    the final store. *)
Lemma appended_clash_free (l0 added : list Session) :
  (forall k c, added !! k = Some c ->
     JS.truthy (date c) = true /\ cancelled c = false /\
     hasClash (l0 ++ take k added) c None = false) ->
  forall k c, added !! k = Some c ->
    hasClash (l0 ++ added) c (Some (length l0 + k)%nat) = false.
Proof.
  intros Hall k c Hk. apply not_true_is_false. intros H.
  apply hasClash_true in H as (j & cj & Hj & Hne & Hcj & Hday & Ho1 & Ho2).
  destruct (Hall k c Hk) as (Ht & Hc & Hno). rewrite Ht in Hday.
  assert (Hjk : j <> (length l0 + k)%nat) by congruence.
  destruct (Nat.lt_ge_cases j (length l0 + k)) as [Hlt|Hge].
  - assert (hasClash (l0 ++ take k added) c None = true); [|congruence].
    apply hasClash_true. exists j, cj. rewrite Ht.
    split; [|repeat split; auto].
    destruct (Nat.lt_ge_cases j (length l0)) as [Hl|Hl].
    + rewrite lookup_app_l in Hj by exact Hl. now rewrite lookup_app_l.
    + rewrite lookup_app_r in Hj by exact Hl. rewrite lookup_app_r by exact Hl.
      rewrite lookup_take_lt by lia. exact Hj.
  - assert (Hj' : added !! (j - length l0)%nat = Some cj).
    { rewrite lookup_app_r in Hj by lia. exact Hj. }
    destruct (Hall _ _ Hj') as (Htj & _ & Hnoj).
    assert (hasClash (l0 ++ take (j - length l0) added) cj None = true);
      [|congruence].
    apply hasClash_true. exists (length l0 + k)%nat, c. rewrite Htj.
    split.
    { rewrite lookup_app_r by lia. rewrite lookup_take_lt by lia.
      replace (length l0 + k - length l0)%nat with k by lia. exact Hk. }
    repeat split; auto.
Qed.

Lemma truthy_Some (s : string) : s <> "" -> JS.truthy (Some s) = true.
Proof.
  intros H. simpl. apply negb_true_iff. now apply String.eqb_neq.
Qed.

Lemma copy_week_step_cases (weekDayDate : Z -> Z -> string) (st : State)
    (l : list Session) (a s : nat) (cls : Session) :
  (copy_week_step weekDayDate st (l, a, s) cls
   = ((l ++ [next_week_copy weekDayDate st cls])%list, S a, s)
   /\ hasClash l (next_week_copy weekDayDate st cls) None = false)
  \/ copy_week_step weekDayDate st (l, a, s) cls = (l, a, S s).
Proof.
  unfold copy_week_step.
  destruct (exists_same l _); simpl; [now right|].
  destruct (hasClash l _ None); simpl; [now right|now left].
Qed.

(** X14. [copyAllToNextWeek] only appends: the old store is a prefix of
    the new one, the two counters add up to the number of sessions of the
    displayed week, and every session it adds is the copy of a session of
    that week, active ([cancelled] and [pendingConfirmation] off, no
    [completedDate]), and clashes with no other session of the new store,
    old or added. The calendar is assumed to print no empty date. *)
Theorem copyAllToNextWeek_adds_clash_free (weekDayDate : Z -> Z -> string)
    (st st' : State) (a s : nat) :
  (forall o i, weekDayDate o i <> "") ->
  copyAllToNextWeek weekDayDate st = (Copied a s, st') ->
  exists added,
    classes st' = (classes st ++ added)%list /\ length added = a /\
    (a + s)%nat
    = length (getClassesInRange (classes st)
                (weekDayDate (currentWeekOffset st) 0)
                (weekDayDate (currentWeekOffset st) 6)) /\
    forall k c, added !! k = Some c ->
      (exists cls, In cls (classes st) /\ student c = student cls /\
                   day c = day cls /\ start c = start cls /\
                   end_ c = end_ cls) /\
      confirmed c = true /\ completedDate c = None /\
      hasClash (classes st') c (Some (length (classes st) + k)%nat) = false.
Proof.
  intros Hw H. unfold copyAllToNextWeek in H.
  set (xs := getClassesInRange _ _ _) in *.
  destruct (fold_left (copy_week_step weekDayDate st) xs (classes st, 0%nat, 0%nat))
    as [[l a'] s'] eqn:Hfold.
  assert (Hres : a' = a /\ s' = s /\ st' = set_classes st l).
  { destruct xs; [discriminate|]. injection H as <- <- <-. auto. }
  destruct Hres as (-> & -> & ->). clear H.
  apply (copy_fold_invariant _ _ (copy_week_step_cases weekDayDate st))
    in Hfold as (added & -> & Ha & Hcount & Hall).
  exists added. simpl. split; [reflexivity|]. split; [lia|]. split; [lia|].
  intros k c Hk. destruct (Hall k c Hk) as [(cls & Hin & ->) Hno].
  split.
  { exists cls. split; [|now simpl]. subst xs. unfold getClassesInRange in Hin.
    now apply filter_In in Hin as [Hin _]. }
  split; [reflexivity|]. split; [reflexivity|].
  apply appended_clash_free; [|exact Hk].
  intros k' c' Hk'. destruct (Hall k' c' Hk') as [(cls' & _ & ->) Hno'].
  split; [apply truthy_Some, Hw|]. split; [reflexivity|exact Hno'].
Qed.

Lemma copyAllToNextWeek_adds_clash_free_witness :
  exists added,
    [session "Asha" "Monday" (Some "2024-06-03") "09:00" "10:00";
     session "Asha" "Monday" (Some "2024-06-10") "09:00" "10:00"]
    = ([session "Asha" "Monday" (Some "2024-06-03") "09:00" "10:00"]
       ++ added)%list /\ length added = 1%nat.
Proof.
  destruct (copyAllToNextWeek_adds_clash_free
              (fun o i => if o =? 0 then "2024-06-03" else "2024-06-10")
              (mkState [session "Asha" "Monday" (Some "2024-06-03")
                          "09:00" "10:00"] None 0 60 false 500 ∅ ∅)
              _ 1 0
              (fun o i => match o =? 0 as b
                                return (if b then "2024-06-03" else "2024-06-10")
                                       <> "" with
                          | true => fun H => eq_ind "2024-06-03"
                                      (fun s => match s with
                                                | EmptyString => False
                                                | String _ _ => True
                                                end) I "" H
                          | false => fun H => eq_ind "2024-06-10"
                                      (fun s => match s with
                                                | EmptyString => False
                                                | String _ _ => True
                                                end) I "" H
                          end)
              eq_refl)
    as (added & H1 & H2 & _).
  exists added. auto.
Defined.

Lemma copy_step_cases (weekDayDate : Z -> Z -> string) (st : State)
    (studentName start_ end__ : string)
    (l : list Session) (a s : nat) (day_ : string) :
  let mk := fun d =>
    mkSession studentName d
              (Some (weekDayDate (currentWeekOffset st) (DAYS_indexOf d)))
              start_ end__ false None None None false None false None in
  (copy_step weekDayDate st studentName start_ end__ (l, a, s) day_
   = ((l ++ [mk day_])%list, S a, s)
   /\ hasClash l (mk day_) None = false)
  \/ copy_step weekDayDate st studentName start_ end__ (l, a, s) day_
     = (l, a, S s).
Proof.
  intros mk. unfold copy_step. fold (mk day_).
  destruct (hasClash l (mk day_) None); simpl; [now right|now left].
Qed.

(** X15. [handleCopyToDays] only appends: the old store is a prefix of the
    new one, the two counters add up to the number of ticked days, and
    every session it adds is for the student and the times of the form on
    one of the ticked days, active, and clashes with no other session of
    the new store, old or added. The calendar is assumed to print no
    empty date. *)
Theorem handleCopyToDays_adds_clash_free (weekDayDate : Z -> Z -> string)
    (st st' : State) (f : Form) (selectedDays : list string) (a s : nat) :
  (forall o i, weekDayDate o i <> "") ->
  handleCopyToDays weekDayDate st f selectedDays = (Copied a s, st') ->
  exists added,
    classes st' = (classes st ++ added)%list /\ length added = a /\
    (a + s)%nat = length selectedDays /\
    forall k c, added !! k = Some c ->
      student c = studentNameOf f /\ In (day c) selectedDays /\
      start c = startTimeInput f /\ end_ c = endTimeInput f /\
      confirmed c = true /\
      hasClash (classes st') c (Some (length (classes st) + k)%nat) = false.
Proof.
  intros Hw H. unfold handleCopyToDays in H.
  destruct (_ || _); [discriminate|].
  destruct (fold_left _ selectedDays (classes st, 0%nat, 0%nat))
    as [[l a'] s'] eqn:Hfold.
  assert (Hres : a' = a /\ s' = s /\ st' = set_classes st l).
  { destruct selectedDays; [discriminate|]. injection H as <- <- <-. auto. }
  destruct Hres as (-> & -> & ->). clear H.
  apply (copy_fold_invariant _ _
           (copy_step_cases weekDayDate st (studentNameOf f)
              (startTimeInput f) (endTimeInput f)))
    in Hfold as (added & -> & Ha & Hcount & Hall).
  exists added. simpl. split; [reflexivity|]. split; [lia|]. split; [lia|].
  intros k c Hk. destruct (Hall k c Hk) as [(d & Hin & ->) Hno].
  simpl. repeat split; auto.
  apply appended_clash_free; [|exact Hk].
  intros k' c' Hk'. destruct (Hall k' c' Hk') as [(d' & _ & ->) Hno'].
  split; [apply truthy_Some, Hw|]. split; [reflexivity|exact Hno'].
Qed.

Lemma handleCopyToDays_adds_clash_free_witness :
  exists added,
    [session "Asha" "Monday" (Some "2024-06-03") "09:00" "10:00";
     session "Asha" "Tuesday" (Some "2024-06-04") "09:00" "10:00"]
    = ([session "Asha" "Monday" (Some "2024-06-03") "09:00" "10:00"]
       ++ added)%list /\ length added = 1%nat.
Proof.
  assert (Hw : forall o i : Z, (fun _ _ : Z => "2024-06-04") o i <> "")
    by (intros; discriminate).
  destruct (handleCopyToDays_adds_clash_free
              (fun _ _ => "2024-06-04")
              (mkState [session "Asha" "Monday" (Some "2024-06-03")
                          "09:00" "10:00"] None 0 60 false 500 ∅ ∅)
              _ (mkForm "Asha" "" "Monday" "09:00" "10:00") ["Tuesday"]
              1 0 Hw eq_refl)
    as (added & H1 & H2 & _).
  exists added. auto.
Defined.

(** The test that makes [copyAllToNextWeek] skip a copy. *)
Lemma exists_same_app (l l' : list Session) (n : Session) :
  exists_same (l ++ l') n = exists_same l n || exists_same l' n.
Proof. unfold exists_same. apply existsb_app. Qed.

Lemma exists_same_self (n : Session) :
  date n <> None -> exists_same [n] n = true.
Proof.
  intros H. unfold exists_same. simpl.
  rewrite !String.eqb_refl. simpl.
  destruct (date n) as [d|]; [|congruence]. simpl.
  now rewrite String.eqb_refl.
Qed.

Lemma copy_week_step_eq (weekDayDate : Z -> Z -> string) (st : State)
    (l : list Session) (a s : nat) (cls : Session) :
  copy_week_step weekDayDate st (l, a, s) cls
  = if negb (exists_same l (next_week_copy weekDayDate st cls))
       && negb (hasClash l (next_week_copy weekDayDate st cls) None)
    then ((l ++ [next_week_copy weekDayDate st cls])%list, S a, s)
    else (l, a, S s).
Proof. reflexivity. Qed.

Lemma copy_week_blocked (weekDayDate : Z -> Z -> string) (st : State)
    (xs : list Session) :
  forall l a s l' a' s',
    fold_left (copy_week_step weekDayDate st) xs (l, a, s) = (l', a', s') ->
    (exists added, l' = (l ++ added)%list) /\
    forall cls, In cls xs ->
      exists_same l' (next_week_copy weekDayDate st cls)
      || hasClash l' (next_week_copy weekDayDate st cls) None = true.
Proof.
  induction xs as [|x xs IH]; intros l a s l' a' s' H; cbn [fold_left] in H.
  - injection H as <- <- <-. split; [exists []; now rewrite app_nil_r|].
    intros cls [].
  - rewrite copy_week_step_eq in H.
    destruct (negb (exists_same l _) && negb (hasClash l _ None)) eqn:Hc;
      apply IH in H as [(added & ->) Hall].
    + split; [exists (next_week_copy weekDayDate st x :: added);
              now rewrite <- app_assoc|].
      intros cls [<-|Hin]; [|now apply Hall].
      rewrite !exists_same_app, exists_same_self by discriminate.
      now rewrite orb_true_r.
    + split; [now exists added|].
      intros cls [<-|Hin]; [|now apply Hall].
      rewrite exists_same_app, hasClash_app_None.
      destruct (exists_same l _); [reflexivity|].
      destruct (hasClash l _ None); [|discriminate].
      simpl. now rewrite orb_true_r.
Qed.

Lemma copy_week_all_skipped (weekDayDate : Z -> Z -> string) (st : State)
    (l : list Session) (xs : list Session) :
  (forall cls, In cls xs ->
     exists_same l (next_week_copy weekDayDate st cls)
     || hasClash l (next_week_copy weekDayDate st cls) None = true) ->
  forall a s,
    fold_left (copy_week_step weekDayDate st) xs (l, a, s)
    = (l, a, (s + length xs)%nat).
Proof.
  induction xs as [|x xs IH]; intros Hall a s; cbn [fold_left length].
  - now rewrite Nat.add_0_r.
  - rewrite copy_week_step_eq.
    assert (Hx := Hall x (or_introl eq_refl)).
    destruct (exists_same l _); simpl.
    + rewrite IH by (intros; apply Hall; now right). f_equal. lia.
    + simpl in Hx. rewrite Hx. simpl.
      rewrite IH by (intros; apply Hall; now right). f_equal. lia.
Qed.

Lemma filter_none {A : Type} (f : A -> bool) (l : list A) :
  (forall x, In x l -> f x = false) -> List.filter f l = [].
Proof.
  induction l as [|x r IH]; intros H; simpl; [reflexivity|].
  rewrite (H x) by now left. apply IH. intros y Hy. apply H. now right.
Qed.

Lemma DAYS_indexOf_range (d : string) :
  In d DAYS -> 0 <= DAYS_indexOf d <= 6.
Proof.
  intros H. simpl in H.
  repeat (destruct H as [<-|H]; [vm_compute; split; discriminate|]).
  destruct H.
Qed.

(** X16. Running [copyAllToNextWeek] a second time adds nothing: when the
    days of the next week lie outside the displayed week and every stored
    session is on a day of [DAYS], a second run on the result of the first
    skips every session of the week (as many as the first run counted in
    all) and leaves the store as it is. *)
Theorem copyAllToNextWeek_twice (weekDayDate : Z -> Z -> string)
    (st st1 : State) (a s : nat) :
  (forall i, 0 <= i <= 6 ->
     String.leb (weekDayDate (currentWeekOffset st) 0)
                (weekDayDate (currentWeekOffset st + 1) i)
     && String.leb (weekDayDate (currentWeekOffset st + 1) i)
                   (weekDayDate (currentWeekOffset st) 6) = false) ->
  (forall c, In c (classes st) -> In (day c) DAYS) ->
  copyAllToNextWeek weekDayDate st = (Copied a s, st1) ->
  copyAllToNextWeek weekDayDate st1 = (Copied 0 (a + s), st1).
Proof.
  intros Hout Hdays H. unfold copyAllToNextWeek in H.
  set (xs := getClassesInRange (classes st) _ _) in *.
  destruct (fold_left (copy_week_step weekDayDate st) xs (classes st, 0%nat, 0%nat))
    as [[l a'] s'] eqn:Hfold.
  assert (Hres : a' = a /\ s' = s /\ st1 = set_classes st l /\ xs <> []).
  { destruct xs; [discriminate|]. injection H as <- <- <-.
    repeat split; auto; discriminate. }
  destruct Hres as (-> & -> & -> & Hne). clear H.
  pose proof (copy_fold_invariant _ _ (copy_week_step_cases weekDayDate st)
                _ _ _ _ _ _ _ Hfold) as (added & Hl & Ha & Hcount & Hadded).
  pose proof (copy_week_blocked _ _ _ _ _ _ _ _ _ Hfold) as [_ Hblocked].
  assert (Hweek : getClassesInRange l
                    (weekDayDate (currentWeekOffset st) 0)
                    (weekDayDate (currentWeekOffset st) 6) = xs).
  { rewrite Hl, getClassesInRange_app. fold xs.
    replace (getClassesInRange added _ _) with (@nil Session);
      [apply app_nil_r|].
    symmetry. unfold getClassesInRange. apply filter_none.
    intros c Hc. apply list_elem_of_In, list_elem_of_lookup in Hc as [k Hk'].
    destruct (Hadded k c Hk') as [(cls & Hin & ->) _]. simpl.
    assert (Hcls : In (day cls) DAYS).
    { apply Hdays. subst xs. unfold getClassesInRange in Hin.
      now apply filter_In in Hin as [Hin _]. }
    rewrite (Hout _ (DAYS_indexOf_range _ Hcls)).
    now destruct (negb _). }
  unfold copyAllToNextWeek. simpl. rewrite Hweek.
  change (copy_week_step weekDayDate (set_classes st l))
    with (copy_week_step weekDayDate st).
  rewrite copy_week_all_skipped by exact Hblocked.
  destruct xs as [|x0 xs0] eqn:Hxs; [congruence|].
  simpl in Hcount |- *. repeat f_equal. lia.
Qed.

Lemma copyAllToNextWeek_twice_witness :
  copyAllToNextWeek
    (fun o i => if o =? 0 then "2024-06-03" else "2024-06-10")
    (mkState [session "Asha" "Monday" (Some "2024-06-03") "09:00" "10:00";
              session "Asha" "Monday" (Some "2024-06-10") "09:00" "10:00"]
             None 0 60 false 500 ∅ ∅)
  = (Copied 0 1,
     mkState [session "Asha" "Monday" (Some "2024-06-03") "09:00" "10:00";
              session "Asha" "Monday" (Some "2024-06-10") "09:00" "10:00"]
             None 0 60 false 500 ∅ ∅).
Proof.
  refine (copyAllToNextWeek_twice
            (fun o i => if o =? 0 then "2024-06-03" else "2024-06-10")
            (mkState [session "Asha" "Monday" (Some "2024-06-03")
                        "09:00" "10:00"] None 0 60 false 500 ∅ ∅)
            _ 1 0 _ _ eq_refl).
  - intros i _. reflexivity.
  - intros c [<-|[]]. simpl. auto.
Defined.

(** ** Start-up: migration and clean-up *)

Lemma migrate_one_idem (weekDayDate : Z -> Z -> string) (c : Session) :
  migrate_one weekDayDate (migrate_one weekDayDate c) = migrate_one weekDayDate c.
Proof.
  unfold migrate_one.
  destruct (negb (JS.truthy (date c))) eqn:Ht.
  - destruct (negb (DAYS_indexOf (day c) =? -1)) eqn:Hi.
    + cbn [date day]. rewrite Hi. destruct (negb (JS.truthy (Some _))); reflexivity.
    + now rewrite Ht, Hi.
  - now rewrite Ht.
Qed.

(** X17. [migrateClassesToDateFormat], which runs on every load, is
    idempotent and changes nothing but missing dates: the store keeps its
    length; at every position the session keeps all its properties except
    [date]; a session that has a date is left as it is; and a session
    without one on a day of [DAYS] gets the date of that day in the
    current week (offset 0), whatever week it was created in. *)
Theorem migrateClassesToDateFormat_spec (weekDayDate : Z -> Z -> string)
    (st : State) :
  let st' := migrateClassesToDateFormat weekDayDate st in
  migrateClassesToDateFormat weekDayDate st' = st' /\
  length (classes st') = length (classes st) /\
  forall i c, classes st !! i = Some c ->
    exists c', classes st' !! i = Some c' /\ same_but_date c c' /\
      (JS.truthy (date c) = true -> c' = c) /\
      (JS.truthy (date c) = false -> In (day c) DAYS ->
       date c' = Some (weekDayDate 0 (DAYS_indexOf (day c)))).
Proof.
  cbv zeta. unfold migrateClassesToDateFormat, set_classes. simpl.
  split; [|split].
  - f_equal. rewrite List.map_map. apply List.map_ext.
    apply migrate_one_idem.
  - apply length_map.
  - intros i c Hc. exists (migrate_one weekDayDate c). split.
    { change (List.map (migrate_one weekDayDate) (classes st))
        with (migrate_one weekDayDate <$> classes st).
      now rewrite list_lookup_fmap, Hc. }
    unfold migrate_one, same_but_date.
    destruct (JS.truthy (date c)) eqn:Ht; simpl.
    + repeat split; auto. discriminate.
    + destruct (DAYS_indexOf (day c) =? -1) eqn:Hi; simpl.
      * repeat split; auto; try discriminate.
        intros _ Hin. apply DAYS_indexOf_range in Hin.
        apply Z.eqb_eq in Hi. lia.
      * repeat split; auto. discriminate.
Qed.

Lemma is_kept_not_old (cutoffDate : string) (c : Session) :
  is_kept cutoffDate c = negb (is_old cutoffDate c).
Proof.
  unfold is_kept, is_old. destruct (date c) as [d|]; [|reflexivity].
  rewrite negb_andb. f_equal.
  destruct (String.leb cutoffDate d) eqn:Hle.
  - destruct (String.ltb d cutoffDate) eqn:Hlt; [|reflexivity].
    apply ltb_leb_false in Hlt. congruence.
  - apply leb_false_ltb in Hle. now rewrite Hle.
Qed.

Lemma filter_length_split {A : Type} (f : A -> bool) (l : list A) :
  (length (List.filter f l) + length (List.filter (fun x => negb (f x)) l)
   = length l)%nat.
Proof.
  induction l as [|x r IH]; simpl; [reflexivity|].
  destruct (f x); simpl; lia.
Qed.

(** X18. [cleanupOldClasses] loses nothing and is idempotent. It keeps, in
    their order, exactly the sessions that are not old (no date, or a date
    not before the cut-off); when it removes something, the newest backup
    holds the whole old store and the removed sessions, so that every old
    session is either kept or in that backup and the two counts add up;
    at most six backups are kept; and a second run with the same cut-off
    changes neither the store nor the backups. *)
Theorem cleanupOldClasses_spec (cutoffDate timestamp : string) (st st' : State)
    (backups backups' : list CleanupBackup) :
  cleanupOldClasses cutoffDate timestamp st backups = (st', backups') ->
  classes st'
  = List.filter (fun c => negb (is_old cutoffDate c)) (classes st) /\
  (forall c, In c (classes st') -> is_old cutoffDate c = false) /\
  ((st' = st /\ backups' = backups) \/
   exists b rest,
     backups' = b :: rest /\ (length backups' <= 6)%nat /\
     cb_allClasses b = classes st /\
     (forall c, In c (classes st) <-> In c (classes st') \/ In c (cb_classes b)) /\
     (length (classes st') + cb_classesRemoved b = length (classes st))%nat) /\
  cleanupOldClasses cutoffDate timestamp st' backups' = (st', backups').
Proof.
  intros H. unfold cleanupOldClasses in H.
  assert (Hkept : List.filter (is_kept cutoffDate) (classes st)
                  = List.filter (fun c => negb (is_old cutoffDate c)) (classes st)).
  { apply List.filter_ext. apply is_kept_not_old. }
  assert (Hidem : forall l,
            List.filter (is_old cutoffDate)
              (List.filter (fun c => negb (is_old cutoffDate c)) l) = []).
  { intros l. apply filter_none. intros x Hx.
    apply filter_In in Hx as [_ Hx]. now apply negb_true_iff in Hx. }
  destruct (List.filter (is_old cutoffDate) (classes st)) as [|o olds] eqn:Hold.
  - injection H as <- <-.
    assert (Hall : forall c, In c (classes st) -> is_old cutoffDate c = false).
    { intros c Hc. destruct (is_old cutoffDate c) eqn:Ho; [|reflexivity].
      assert (In c (List.filter (is_old cutoffDate) (classes st)))
        by (apply filter_In; auto).
      rewrite Hold in H. destruct H. }
    split; [|split; [exact Hall|split; [now left|]]].
    + symmetry. apply forallb_filter_id. apply forallb_forall.
      intros c Hc. now rewrite (Hall c Hc).
    + unfold cleanupOldClasses. now rewrite Hold.
  - injection H as <- <-. cbn [classes set_classes]. rewrite Hkept.
    split; [reflexivity|]. split.
    { intros c Hc. apply filter_In in Hc as [_ Hc].
      now apply negb_true_iff in Hc. }
    split.
    + right. eexists _, _. cbn [firstn]. split; [reflexivity|].
      split; [simpl; rewrite length_take; lia|].
      split; [reflexivity|]. cbn [cb_classes cb_classesRemoved]. split.
      * intros c.
        pose proof (filter_In (is_old cutoffDate) c (classes st)) as Hin.
        rewrite Hold in Hin. rewrite filter_In. split.
        -- intros Hc. destruct (is_old cutoffDate c) eqn:Ho.
           ++ right. apply Hin. auto.
           ++ left. auto.
        -- intros [[Hc _]|Hc]; [exact Hc|]. now apply Hin in Hc.
      * pose proof (filter_length_split (is_old cutoffDate) (classes st)) as Hlen.
        rewrite Hold in Hlen. cbn [length] in Hlen |- *. lia.
    + unfold cleanupOldClasses. cbn [classes set_classes].
      now rewrite Hidem.
Qed.

Lemma cleanupOldClasses_spec_witness :
  [session "Ravi" "Monday" (Some "2024-06-03") "10:00" "11:00"]
  = List.filter (fun c => negb (is_old "2024-03-01" c))
      [session "Asha" "Monday" (Some "2024-01-01") "09:00" "10:00";
       session "Ravi" "Monday" (Some "2024-06-03") "10:00" "11:00"].
Proof.
  exact (proj1 (cleanupOldClasses_spec
                  "2024-03-01" "2024-06-01T08:00:00.000Z"
                  (mkState [session "Asha" "Monday" (Some "2024-01-01")
                              "09:00" "10:00";
                            session "Ravi" "Monday" (Some "2024-06-03")
                              "10:00" "11:00"] None 0 60 false 500 ∅ ∅)
                  _ [] _ eq_refl)).
Defined.

(** ** Rates *)

Lemma clampRate_range (input : option Z) : 0 <= clampRate input <= 100000.
Proof.
  unfold clampRate. destruct input as [n|]; simpl; [|lia].
  destruct (n <? 0) eqn:Hn; simpl; [lia|].
  apply Z.ltb_ge in Hn.
  destruct (n >? 100000) eqn:Hm; [lia|].
  rewrite Z.gtb_ltb in Hm. apply Z.ltb_ge in Hm. lia.
Qed.

(** X19. The rate fields keep every rate between 0 and 100000, and a
    student rate of 0 means the default rate. From a state whose rates are
    in that range, both change handlers lead to such a state, whatever was
    typed; after [onStudentRateChange] the student is billed at the
    default rate when the input is no number or is at most 0, at 100000
    when it is larger than that, and at the input otherwise; the rate of
    every other student is unchanged; and every rate the report uses is in
    the range. *)
Theorem rate_change_effect (s : string) (input : option Z) (st : State) :
  rates_ok st ->
  let st1 := onStudentRateChange s input st in
  rates_ok st1 /\ rates_ok (onDefaultRateChange input st) /\
  rateOf (studentRates st1) (defaultRate st1) s
  = match input with
    | Some n => if n <=? 0 then defaultRate st
                else if n >? 100000 then 100000 else n
    | None => defaultRate st
    end /\
  (forall s', s' <> s ->
     rateOf (studentRates st1) (defaultRate st1) s'
     = rateOf (studentRates st) (defaultRate st) s') /\
  (forall s', 0 <= rateOf (studentRates st1) (defaultRate st1) s' <= 100000).
Proof.
  intros [Hd Hm]. cbv zeta.
  assert (H1 : rates_ok (onStudentRateChange s input st)).
  { split; [exact Hd|]. simpl. apply map_Forall_insert_2; [|exact Hm].
    apply clampRate_range. }
  split; [exact H1|]. split.
  { split; [apply clampRate_range|exact Hm]. }
  split; [|split].
  - unfold rateOf. simpl. rewrite lookup_insert_eq. unfold clampRate.
    destruct input as [n|]; simpl; [|reflexivity].
    destruct (n <? 0) eqn:Hn; simpl.
    + apply Z.ltb_lt in Hn.
      replace (n <=? 0) with true by (symmetry; apply Z.leb_le; lia).
      reflexivity.
    + apply Z.ltb_ge in Hn. destruct (n >? 100000) eqn:Hc.
      * rewrite Z.gtb_ltb in Hc. apply Z.ltb_lt in Hc.
        replace (n <=? 0) with false by (symmetry; apply Z.leb_gt; lia).
        reflexivity.
      * destruct (n =? 0) eqn:H0.
        -- apply Z.eqb_eq in H0. subst n. reflexivity.
        -- apply Z.eqb_neq in H0.
           replace (n <=? 0) with false by (symmetry; apply Z.leb_gt; lia).
           reflexivity.
  - intros s' Hs. unfold rateOf. simpl.
    now rewrite lookup_insert_ne by congruence.
  - intros s'. destruct H1 as [Hd1 Hm1]. unfold rateOf.
    destruct (studentRates _ !! s') as [r|] eqn:Hr; [|exact Hd1].
    apply Hm1 in Hr. simpl in Hr. destruct (r =? 0); [exact Hd1|exact Hr].
Qed.

Lemma rate_change_effect_witness :
  rateOf (studentRates (onStudentRateChange "Asha" (Some (-5))
                          (mkState [] None 0 60 false 500 ∅ ∅)))
         500 "Asha" = 500.
Proof.
  refine (proj1 (proj2 (proj2 (rate_change_effect "Asha" (Some (-5))
                                 (mkState [] None 0 60 false 500 ∅ ∅) _)))).
  split; [simpl; lia|]. apply map_Forall_empty.
Defined.

(** ** Payments *)

Lemma savePayments_snoc (boxes : list (string * bool)) (box : string * bool)
    (ledger : gmap string bool) :
  savePayments (boxes ++ [box]) ledger
  = (<[fst box := snd box]> (fst (savePayments boxes ledger)),
     if snd box && negb (isPaid (fst (savePayments boxes ledger)) (fst box))
     then S (snd (savePayments boxes ledger))
     else snd (savePayments boxes ledger)).
Proof. unfold savePayments. now rewrite fold_left_app. Qed.

(** X20. The save button of the mark-paid dialog, for check boxes of
    pairwise different class identifiers: afterwards a listed class is
    marked paid exactly when its box is ticked, the entry of every class
    that is not listed is untouched, and [newPaymentsCount] is the number
    of ticked boxes whose class was not paid before. *)
Theorem savePayments_spec (boxes : list (string * bool))
    (ledger : gmap string bool) :
  NoDup (List.map fst boxes) ->
  let result := savePayments boxes ledger in
  (forall id b, In (id, b) boxes -> isPaid (fst result) id = b) /\
  (forall id, ~ In id (List.map fst boxes) -> fst result !! id = ledger !! id) /\
  snd result
  = length (List.filter (fun box => snd box && negb (isPaid ledger (fst box)))
                        boxes).
Proof.
  cbv zeta. induction boxes as [|[id0 b0] boxes IH] using rev_ind; intros Hnd.
  - repeat split; auto. intros id b [].
  - rewrite List.map_app in Hnd. apply NoDup_app in Hnd as (Hnd & Hdisj & _).
    destruct (IH Hnd) as (IH1 & IH2 & IH3).
    assert (Hfresh : ~ In id0 (List.map fst boxes)).
    { intros Hin. apply list_elem_of_In in Hin.
      apply (Hdisj id0 Hin). simpl. apply list_elem_of_here. }
    rewrite savePayments_snoc. cbn [fst snd]. split; [|split].
    + intros id b Hin. apply in_app_or in Hin as [Hin|[[= <- <-]|[]]].
      * assert (id <> id0).
        { intros ->. apply Hfresh. apply in_map_iff. now exists (id0, b). }
        unfold isPaid. rewrite lookup_insert_ne by congruence.
        now apply IH1.
      * unfold isPaid. now rewrite lookup_insert_eq.
    + intros id Hid. rewrite List.map_app, in_app_iff in Hid. simpl in Hid.
      rewrite lookup_insert_ne by (intros <-; tauto).
      apply IH2. tauto.
    + rewrite List.filter_app, length_app. cbn [List.filter fst snd].
      replace (isPaid (fst (savePayments boxes ledger)) id0)
        with (isPaid ledger id0)
        by (unfold isPaid; now rewrite (IH2 id0 Hfresh)).
      rewrite IH3. destruct (b0 && negb (isPaid ledger id0)); simpl; lia.
Qed.

Lemma savePayments_spec_witness :
  snd (savePayments [("Asha_2024-06-03_09:00_10:00", true);
                     ("Asha_2024-06-04_09:00_10:00", false)] ∅) = 1%nat.
Proof.
  refine (proj2 (proj2 (savePayments_spec
                          [("Asha_2024-06-03_09:00_10:00", true);
                           ("Asha_2024-06-04_09:00_10:00", false)] ∅ _))).
  apply NoDup_cons. split; [|apply NoDup_singleton].
  intros H. apply list_elem_of_In in H. simpl in H.
  destruct H as [H|[]]. discriminate.
Defined.

(** ** The student table *)

Lemma cnt_snoc {A : Type} (p : A -> bool) (l : list A) (x : A) :
  cnt p (l ++ [x]) = cnt p l + (if p x then 1 else 0).
Proof.
  unfold cnt. rewrite List.filter_app, length_app. simpl.
  destruct (p x); simpl; lia.
Qed.

Lemma cnt_nonneg {A : Type} (p : A -> bool) (l : list A) : 0 <= cnt p l.
Proof. unfold cnt. lia. Qed.

(** Every counter of a student's entry is the number of that student's
    sessions of one kind; [emptyStats] stands for a missing entry. *)
Lemma stats_fields (clk : Clock) (ledger : gmap string bool)
    (l : list Session) (s : string) :
  let S := match studentStatsOf clk ledger l !! s with
           | Some x => x
           | None => emptyStats
           end in
  st_total S = cnt (fun c => String.eqb (student c) s) l /\
  st_cancelled S = cnt (fun c => String.eqb (student c) s && cancelled c) l /\
  st_pending S
  = cnt (fun c => String.eqb (student c) s && negb (cancelled c)
                  && pendingConfirmation c) l /\
  st_completed S = cnt (billable clk s) l /\
  st_upcoming S
  = cnt (fun c => String.eqb (student c) s && confirmed c
                  && negb (isClassCompleted clk c)) l /\
  st_paidClasses S
  = cnt (fun c => billable clk s c && isPaid ledger (getClassPaymentId c)) l /\
  st_completedClassIds S
  = List.map getClassPaymentId (List.filter (billable clk s) l).
Proof.
  cbv zeta. induction l as [|c l IH] using rev_ind.
  - unfold studentStatsOf. simpl. rewrite lookup_empty. simpl.
    repeat split; reflexivity.
  - rewrite studentStatsOf_snoc. unfold stats_step.
    rewrite !cnt_snoc, List.filter_app, List.map_app.
    destruct IH as (I1 & I2 & I3 & I4 & I5 & I6 & I7).
    destruct (String.eqb_spec (student c) s) as [Heq|Hne].
    + subst s. rewrite lookup_insert_eq. cbn beta. cbn [List.filter].
      assert (Hb : billable clk (student c) c
                   = negb (cancelled c) && negb (pendingConfirmation c)
                     && isClassCompleted clk c).
      { unfold billable, confirmed. now rewrite String.eqb_refl. }
      rewrite ?Hb, ?String.eqb_refl. unfold confirmed.
      destruct (cancelled c), (pendingConfirmation c),
        (isClassCompleted clk c), (isPaid ledger (getClassPaymentId c));
        cbn -[Z.add cnt];
        rewrite ?I1, ?I2, ?I3, ?I4, ?I5, ?I6, ?I7, ?app_nil_r, ?Z.add_0_r;
        repeat split; reflexivity.
    + rewrite lookup_insert_ne by exact Hne. cbn beta. cbn [List.filter].
      assert (Hb : billable clk s c = false).
      { unfold billable. apply String.eqb_neq in Hne. now rewrite Hne. }
      apply String.eqb_neq in Hne. rewrite ?Hb, ?Hne.
      cbn [andb List.map]. rewrite app_nil_r, !Z.add_0_r.
      repeat split; assumption.
Qed.

Lemma cnt_le {A : Type} (p q : A -> bool) (l : list A) :
  (forall x, p x = true -> q x = true) -> cnt p l <= cnt q l.
Proof.
  intros H. induction l as [|x l IH] using rev_ind; [reflexivity|].
  rewrite !cnt_snoc. destruct (p x) eqn:Hp.
  - rewrite (H x Hp). lia.
  - destruct (q x); lia.
Qed.

Lemma cnt_partition (clk : Clock) (s : string) (l : list Session) :
  cnt (fun c => String.eqb (student c) s) l
  = cnt (fun c => String.eqb (student c) s && cancelled c) l
    + cnt (fun c => String.eqb (student c) s && negb (cancelled c)
                    && pendingConfirmation c) l
    + cnt (billable clk s) l
    + cnt (fun c => String.eqb (student c) s && confirmed c
                    && negb (isClassCompleted clk c)) l.
Proof.
  induction l as [|c l IH] using rev_ind; [reflexivity|].
  rewrite !cnt_snoc, IH. unfold billable, confirmed.
  destruct (String.eqb (student c) s), (cancelled c),
    (pendingConfirmation c), (isClassCompleted clk c); simpl; lia.
Qed.

(** X21. The counters of a row of the student table. For a student with
    an entry in [studentStats]: the student has at least one session in
    the range; [total] is the number of the student's sessions there and
    is the sum of [cancelled], [pending], [completed] and [upcoming], each
    session counting in exactly one of them; [completed] counts the
    confirmed sessions that [isClassCompleted] accepts, and
    [completedClassIds] lists their payment identifiers in order;
    [paidClasses] lies between 0 and [completed], so that the unpaid count
    of the row is never negative. *)
Theorem studentStats_counters (clk : Clock) (ledger : gmap string bool)
    (rates : gmap string Z) (rate0 : Z) (l : list Session) (s : string)
    (stats : Stats) :
  studentStatsOf clk ledger l !! s = Some stats ->
  0 < st_total stats /\
  st_total stats = cnt (fun c => String.eqb (student c) s) l /\
  st_total stats
  = st_cancelled stats + st_pending stats + st_completed stats
    + st_upcoming stats /\
  0 <= st_cancelled stats /\ 0 <= st_pending stats /\
  0 <= st_upcoming stats /\
  st_completed stats = cnt (billable clk s) l /\
  st_completedClassIds stats
  = List.map getClassPaymentId (List.filter (billable clk s) l) /\
  0 <= st_paidClasses stats <= st_completed stats /\
  0 <= row_unpaidClasses (rowOf rates rate0 s stats).
Proof.
  intros Hs. pose proof (stats_fields clk ledger l s) as H.
  cbv zeta in H. rewrite Hs in H.
  destruct H as (I1 & I2 & I3 & I4 & I5 & I6 & I7).
  pose proof (cnt_partition clk s l) as Hp.
  pose proof (cnt_nonneg (fun c => String.eqb (student c) s && cancelled c) l).
  pose proof (cnt_nonneg (fun c => String.eqb (student c) s && negb (cancelled c)
                                   && pendingConfirmation c) l).
  pose proof (cnt_nonneg (fun c => String.eqb (student c) s && confirmed c
                                   && negb (isClassCompleted clk c)) l).
  pose proof (cnt_nonneg (fun c => billable clk s c
                                   && isPaid ledger (getClassPaymentId c)) l).
  assert (Hle : cnt (fun c => billable clk s c
                              && isPaid ledger (getClassPaymentId c)) l
                <= cnt (billable clk s) l).
  { apply cnt_le. intros x Hx. now apply andb_true_iff in Hx as [Hx _]. }
  assert (Hpos : 0 < cnt (fun c => String.eqb (student c) s) l).
  { clear -Hs. revert stats Hs. induction l as [|c l IH] using rev_ind;
      intros stats Hs.
    - unfold studentStatsOf in Hs. simpl in Hs. now rewrite lookup_empty in Hs.
    - rewrite cnt_snoc. rewrite studentStatsOf_snoc in Hs.
      unfold stats_step at 1 in Hs.
      pose proof (cnt_nonneg (fun c => String.eqb (student c) s) l).
      destruct (String.eqb_spec (student c) s) as [Heq|Hne]; [lia|].
      rewrite lookup_insert_ne in Hs by exact Hne.
      apply IH in Hs. lia. }
  unfold rowOf. cbn [row_unpaidClasses].
  repeat split; try assumption; lia.
Qed.

Lemma studentStats_counters_witness :
  exists stats,
    studentStatsOf (mkClock 3 0 "2024-06-05") ∅
      [session "Asha" "Monday" (Some "2024-06-03") "09:00" "10:00"] !! "Asha"
    = Some stats /\ st_total stats = 1.
Proof.
  eexists. split; [vm_compute; reflexivity|].
  refine (proj1 (proj2 (studentStats_counters
                          (mkClock 3 0 "2024-06-05") ∅ ∅ 500
                          [session "Asha" "Monday" (Some "2024-06-03")
                             "09:00" "10:00"] "Asha" _ _))).
  vm_compute. reflexivity.
Defined.

Lemma studentStats_lookup_pos (clk : Clock) (ledger : gmap string bool)
    (l : list Session) (s : string) :
  is_Some (studentStatsOf clk ledger l !! s) <->
  0 < cnt (fun c => String.eqb (student c) s) l.
Proof.
  induction l as [|c l IH] using rev_ind.
  - unfold studentStatsOf. simpl. rewrite lookup_empty. split.
    + intros [x Hx]. discriminate.
    + unfold cnt. simpl. lia.
  - rewrite cnt_snoc, studentStatsOf_snoc. unfold stats_step.
    pose proof (cnt_nonneg (fun c => String.eqb (student c) s) l).
    destruct (String.eqb_spec (student c) s) as [Heq|Hne].
    + subst s. rewrite lookup_insert_eq. split; [lia|eauto].
    + rewrite lookup_insert_ne by exact Hne. rewrite IH. lia.
Qed.

Lemma savePayments_all_checked (boxes : list (string * bool))
    (ledger : gmap string bool) (id : string) :
  (forall box, In box boxes -> snd box = true) ->
  In id (List.map fst boxes) ->
  isPaid (fst (savePayments boxes ledger)) id = true.
Proof.
  induction boxes as [|[id0 b0] boxes IH] using rev_ind; intros Hall Hin.
  - destruct Hin.
  - rewrite savePayments_snoc. cbn [fst snd]. unfold isPaid.
    destruct (String.eqb_spec id0 id) as [->|Hne].
    + rewrite lookup_insert_eq.
      apply (Hall (id, b0)). apply in_or_app. right. now left.
    + rewrite lookup_insert_ne by exact Hne.
      rewrite List.map_app, in_app_iff in Hin. simpl in Hin.
      apply IH.
      * intros box Hb. apply Hall. apply in_or_app. now left.
      * destruct Hin as [Hin|[Hin|[]]]; [exact Hin|congruence].
Qed.

(** X22. "Mark All Paid" settles a student's row. When the boxes of the
    mark-paid dialog cover the student's [completedClassIds] (in any
    order), all are ticked, and the ledger is saved, the report computed
    again has a row for the student with as many paid classes as
    completed ones, no unpaid class, the same amount as before, a paid
    amount equal to the amount, and an unpaid amount of 0 (when the amount
    is a number). *)
Theorem mark_all_paid_settles_row (clk : Clock) (rates : gmap string Z)
    (rate0 : Z) (ledger : gmap string bool) (l : list Session) (s : string)
    (stats : Stats) (boxes : list (string * bool)) :
  studentStatsOf clk ledger l !! s = Some stats ->
  (forall id, In id (st_completedClassIds stats) -> In id (List.map fst boxes)) ->
  (forall box, In box boxes -> snd box = true) ->
  let ledger' := fst (savePayments boxes ledger) in
  exists stats',
    studentStatsOf clk ledger' l !! s = Some stats' /\
    st_completed stats' = st_completed stats /\
    st_paidClasses stats' = st_completed stats' /\
    row_unpaidClasses (rowOf rates rate0 s stats') = 0 /\
    row_amount (rowOf rates rate0 s stats')
    = row_amount (rowOf rates rate0 s stats) /\
    row_paidAmount (rowOf rates rate0 s stats')
    = row_amount (rowOf rates rate0 s stats') /\
    (row_amount (rowOf rates rate0 s stats') <> None ->
     row_unpaidAmount (rowOf rates rate0 s stats') = Some 0).
Proof.
  intros Hs Hcover Hticked ledger'.
  assert (Hsome : is_Some (studentStatsOf clk ledger' l !! s)).
  { apply studentStats_lookup_pos.
    apply (studentStats_lookup_pos clk ledger). eauto. }
  destruct Hsome as [stats' Hs']. exists stats'. split; [exact Hs'|].
  pose proof (stats_fields clk ledger l s) as F. cbv zeta in F.
  rewrite Hs in F. destruct F as (_ & _ & _ & F4 & _ & _ & F7).
  pose proof (stats_fields clk ledger' l s) as F'. cbv zeta in F'.
  rewrite Hs' in F'. destruct F' as (_ & _ & _ & F4' & _ & F6' & _).
  destruct (studentStats_minutes _ _ _ _ _ Hs) as [M1 _].
  destruct (studentStats_minutes _ _ _ _ _ Hs') as [M1' M2'].
  assert (Hfilter : List.filter
                      (fun c => billable clk s c
                                && isPaid ledger' (getClassPaymentId c)) l
                    = List.filter (billable clk s) l).
  { apply List.filter_ext_in. intros c Hc.
    destruct (billable clk s c) eqn:Hb; [|reflexivity]. simpl.
    apply savePayments_all_checked; [exact Hticked|].
    apply Hcover. rewrite F7. apply in_map. apply filter_In. auto. }
  assert (Hpaid : st_paidClasses stats' = st_completed stats').
  { rewrite F6', F4'. unfold cnt. now rewrite Hfilter. }
  assert (Hmin : st_paidMinutes stats' = st_completedMinutes stats').
  { rewrite M2', M1'. now rewrite Hfilter. }
  unfold rowOf. simpl.
  split; [congruence|]. split; [exact Hpaid|]. split; [lia|].
  split; [now rewrite M1', M1|]. split; [now rewrite Hmin|].
  rewrite Hmin. intros Hne.
  destruct (round_amount (st_completedMinutes stats') _) as [a|];
    [|congruence].
  simpl. f_equal. lia.
Qed.

Lemma mark_all_paid_settles_row_witness :
  exists stats',
    studentStatsOf (mkClock 3 0 "2024-06-05")
      (fst (savePayments [("Asha_2024-06-03_09:00_10:00", true)] ∅))
      [session "Asha" "Monday" (Some "2024-06-03") "09:00" "10:00"] !! "Asha"
    = Some stats' /\
    row_unpaidClasses (rowOf ∅ 500 "Asha" stats') = 0.
Proof.
  assert (H : studentStatsOf (mkClock 3 0 "2024-06-05") ∅
                [session "Asha" "Monday" (Some "2024-06-03") "09:00" "10:00"]
              !! "Asha"
              = Some (mkStats 1 0 0 1 0 (Some 60) (Some 0) 0 (Some 0)
                        ["Asha_2024-06-03_09:00_10:00"]))
    by (vm_compute; reflexivity).
  destruct (mark_all_paid_settles_row
              _ ∅ 500 _ _ _ _ [("Asha_2024-06-03_09:00_10:00", true)] H)
    as (stats' & H1 & _ & _ & H2 & _).
  - intros id Hid. exact Hid.
  - intros box [<-|[]]. reflexivity.
  - exists stats'. split; [exact H1|exact H2].
Defined.

(** ** Payment identifiers *)

Lemma append_cons (c : ascii) (s t : string) :
  String c s +:+ t = String c (s +:+ t).
Proof. reflexivity. Qed.

Lemma append_empty_r (s : string) : s +:+ "" = s.
Proof.
  induction s as [|c s IH]; [reflexivity|]. now rewrite append_cons, IH.
Qed.

Lemma append_snoc (cur : string) (c : ascii) (s : string) :
  (cur +:+ String c "") +:+ s = cur +:+ String c s.
Proof.
  induction cur as [|x cur IH]; [reflexivity|].
  now rewrite !append_cons, IH.
Qed.

Lemma split_on_aux_part (a rest cur : string) :
  no_underscore a = true ->
  split_on_aux "_" (a +:+ "_" +:+ rest) cur
  = (cur +:+ a) :: split_on_aux "_" rest "".
Proof.
  change ("_" +:+ rest) with (String "_" rest).
  revert cur. induction a as [|x a IH]; intros cur Ha.
  - change ("" +:+ String "_" rest) with (String "_" rest). simpl.
    now rewrite append_empty_r.
  - simpl in Ha. apply andb_true_iff in Ha as [Hx Ha].
    apply negb_true_iff in Hx.
    rewrite append_cons. cbn [split_on_aux]. rewrite Hx.
    rewrite IH by exact Ha. now rewrite append_snoc.
Qed.

Lemma split_on_aux_last (a cur : string) :
  no_underscore a = true -> split_on_aux "_" a cur = [cur +:+ a].
Proof.
  revert cur. induction a as [|x a IH]; intros cur Ha.
  - simpl. now rewrite append_empty_r.
  - simpl in Ha. apply andb_true_iff in Ha as [Hx Ha].
    apply negb_true_iff in Hx. cbn [split_on_aux]. rewrite Hx.
    rewrite IH by exact Ha. now rewrite append_snoc.
Qed.

(** X23. The mark-paid dialog reads a session back from its payment
    identifier. For a dated session whose student name, date and times
    hold no underscore, [classDetail] on [getClassPaymentId] of the
    session recovers its date, start and end, its ledger entry, and as
    amount the amount of that session, [Math.round(minutes / 60 * rate)]
    at the student's rate. *)
Theorem classDetail_round_trip (rates : gmap string Z) (rate0 : Z)
    (ledger : gmap string bool) (c : Session) (d : string) :
  date c = Some d ->
  no_underscore (student c) = true -> no_underscore d = true ->
  no_underscore (start c) = true -> no_underscore (end_ c) = true ->
  classDetail rates rate0 ledger (student c) (getClassPaymentId c)
  = Some (mkClassDetail (getClassPaymentId c) d (start c) (end_ c)
            (isPaid ledger (getClassPaymentId c))
            (classAmount rates rate0 c)).
Proof.
  intros Hd Hs Hdate Hst He.
  assert (Hsplit : split_on "_" (getClassPaymentId c)
                   = [student c; d; start c; end_ c]).
  { unfold split_on, getClassPaymentId. rewrite Hd. simpl show_date.
    rewrite (split_on_aux_part (student c)) by exact Hs.
    rewrite (split_on_aux_part d) by exact Hdate.
    rewrite (split_on_aux_part (start c)) by exact Hst.
    rewrite (split_on_aux_last (end_ c)) by exact He.
    reflexivity. }
  unfold classDetail. rewrite Hsplit. reflexivity.
Qed.

Lemma classDetail_round_trip_witness :
  classDetail ∅ 500 ∅ "Asha" "Asha_2024-06-03_09:00_10:30"
  = Some (mkClassDetail "Asha_2024-06-03_09:00_10:30" "2024-06-03" "09:00"
            "10:30" false (Some 750)).
Proof.
  assert (Ha : classAmount ∅ 500
                 (session "Asha" "Monday" (Some "2024-06-03") "09:00" "10:30")
               = Some 750) by (vm_compute; reflexivity).
  rewrite <- Ha.
  exact (classDetail_round_trip ∅ 500 ∅
           (session "Asha" "Monday" (Some "2024-06-03") "09:00" "10:30")
           "2024-06-03" eq_refl eq_refl eq_refl eq_refl eq_refl).
Defined.

(** ** Reminders *)

Lemma reminder_step_eq (d : string) (cur : Z)
    (acc : list Session * gset string) (c : Session) :
  reminder_step d cur acc c
  = if reminder_due cur c && negb (bool_decide (reminderId d c ∈ snd acc))
    then ((fst acc ++ [c])%list, {[reminderId d c]} ∪ snd acc)
    else acc.
Proof.
  unfold reminder_step, reminder_due.
  destruct (parseTime (start c)) as [[h m]|]; reflexivity.
Qed.

Lemma reminder_fold (d : string) (cur : Z) (xs : list Session) :
  forall (sent0 : list Session) (n0 : gset string),
  exists added,
    fold_left (reminder_step d cur) xs (sent0, n0)
    = ((sent0 ++ added)%list,
       list_to_set (List.map (reminderId d) added) ∪ n0) /\
    NoDup (List.map (reminderId d) added) /\
    (forall c, In c added ->
       In c xs /\ reminder_due cur c = true /\ reminderId d c ∉ n0) /\
    (forall c, In c xs -> reminder_due cur c = true ->
       reminderId d c ∈ (list_to_set (List.map (reminderId d) added) ∪ n0
                         : gset string)).
Proof.
  induction xs as [|x xs IH]; intros sent0 n0; cbn [fold_left].
  - exists []. simpl. rewrite app_nil_r.
    split; [now rewrite (left_id_L ∅ (∪))|].
    split; [apply NoDup_nil_2|]. split; intros c [].
  - rewrite reminder_step_eq. cbn [fst snd].
    destruct (reminder_due cur x) eqn:Hdue; cbn [andb].
    + destruct (bool_decide (reminderId d x ∈ n0)) eqn:Hin; cbn [negb].
      * apply bool_decide_eq_true in Hin.
        destruct (IH sent0 n0) as (added & Heq & Hnd & Hadd & Hall).
        exists added. split; [exact Heq|]. split; [exact Hnd|]. split.
        -- intros c Hc. destruct (Hadd c Hc) as (H1 & H2 & H3).
           split; [now right|auto].
        -- intros c [<-|Hc] Hd; [now apply elem_of_union_r|now apply Hall].
      * apply bool_decide_eq_false in Hin.
        destruct (IH (sent0 ++ [x])%list ({[reminderId d x]} ∪ n0))
          as (added & Heq & Hnd & Hadd & Hall).
        exists (x :: added). split.
        { rewrite Heq, <- app_assoc. simpl. f_equal.
          apply set_eq. intros y. rewrite !elem_of_union. tauto. }
        split.
        { simpl. apply NoDup_cons. split; [|exact Hnd].
          intros Hx. apply list_elem_of_In, in_map_iff in Hx as (c & Hid & Hc).
          destruct (Hadd c Hc) as (_ & _ & Hnot). apply Hnot.
          rewrite Hid. now apply elem_of_union_l, elem_of_singleton. }
        split.
        -- intros c [<-|Hc]; [split; [now left|auto]|].
           destruct (Hadd c Hc) as (H1 & H2 & H3).
           split; [now right|]. split; [exact H2|].
           intros Hn. apply H3. now apply elem_of_union_r.
        -- intros c [<-|Hc] Hd; simpl.
           ++ now apply elem_of_union_l, elem_of_union_l, elem_of_singleton.
           ++ specialize (Hall c Hc Hd). revert Hall.
              rewrite !elem_of_union. tauto.
    + destruct (IH sent0 n0) as (added & Heq & Hnd & Hadd & Hall).
      exists added. split; [exact Heq|]. split; [exact Hnd|]. split.
      * intros c Hc. destruct (Hadd c Hc) as (H1 & H2 & H3).
        split; [now right|auto].
      * intros c [<-|Hc] Hd; [congruence|now apply Hall].
Qed.

Lemma reminder_fold_quiet (d : string) (cur : Z) (xs : list Session)
    (sent0 : list Session) (n : gset string) :
  (forall c, In c xs -> reminder_due cur c = true -> reminderId d c ∈ n) ->
  fold_left (reminder_step d cur) xs (sent0, n) = (sent0, n).
Proof.
  induction xs as [|x xs IH]; intros Hall; cbn [fold_left]; [reflexivity|].
  rewrite reminder_step_eq. cbn [fst snd].
  destruct (reminder_due cur x) eqn:Hdue; cbn [andb].
  - rewrite bool_decide_eq_true_2 by (apply Hall; [now left|exact Hdue]).
    cbn [negb]. apply IH. intros c Hc. apply Hall. now right.
  - apply IH. intros c Hc. apply Hall. now right.
Qed.

Lemma todayClassesOf_In (classes : list Session) (d : string) (c : Session) :
  In c (todayClassesOf classes (Some d)) <->
  In c classes /\ day c = d /\ confirmed c = true.
Proof.
  unfold todayClassesOf, confirmed. rewrite filter_In. simpl.
  rewrite !andb_true_iff, String.eqb_eq. tauto.
Qed.

(** X24. One poll of [checkUpcomingClasses], with notifications on, on a
    valid weekday and not at midnight. A reminder is sent only for a
    session of today that is neither cancelled nor pending, starts 14 to
    16 minutes from now, and whose identifier was not yet in
    [notifiedClasses]; no two reminders of the poll have the same
    identifier; the new [notifiedClasses] is the old one with the
    identifiers of the reminders sent; every session of today that is due
    has its identifier in it; and a second poll in the same minute sends
    nothing. *)
Theorem checkUpcomingClasses_spec (now : WallClock) (classes : list Session)
    (notified notified' : gset string) (d : string) (sent : list Session) :
  currentDayOf (wc_getDay now) = Some d ->
  (wc_getHours now =? 0) && (wc_getMinutes now =? 0) = false ->
  checkUpcomingClasses true now classes notified = (sent, notified') ->
  let cur := wc_getHours now * 60 + wc_getMinutes now in
  notified' = list_to_set (List.map (reminderId d) sent) ∪ notified /\
  NoDup (List.map (reminderId d) sent) /\
  (forall c, In c sent ->
     In c classes /\ day c = d /\ confirmed c = true /\
     reminder_due cur c = true /\ reminderId d c ∉ notified) /\
  (forall c, In c classes -> day c = d -> confirmed c = true ->
     reminder_due cur c = true -> reminderId d c ∈ notified') /\
  checkUpcomingClasses true now classes notified' = ([], notified').
Proof.
  intros Hd Hmid H cur. unfold checkUpcomingClasses in *.
  cbn [negb] in *. rewrite Hd, Hmid in *. fold cur in H |- *.
  destruct (reminder_fold d cur (todayClassesOf classes (Some d)) [] notified)
    as (added & Heq & Hnd & Hadd & Hall).
  rewrite Heq in H. simpl in H. injection H as <- <-.
  split; [reflexivity|]. split; [exact Hnd|]. split; [|split].
  - intros c Hc. destruct (Hadd c Hc) as (H1 & H2 & H3).
    apply todayClassesOf_In in H1 as (H1 & H4 & H5). auto.
  - intros c Hc Hday Hconf Hdue. apply Hall; [|exact Hdue].
    apply todayClassesOf_In. auto.
  - rewrite reminder_fold_quiet; [reflexivity|]. exact Hall.
Qed.

Lemma checkUpcomingClasses_spec_witness :
  checkUpcomingClasses true (mkWallClock 1 8 45)
    [session "Asha" "Monday" (Some "2024-06-03") "09:00" "10:00"]
    {["Monday-09:00-Asha"]}
  = ([], {["Monday-09:00-Asha"]}).
Proof.
  assert (H : checkUpcomingClasses true (mkWallClock 1 8 45)
                [session "Asha" "Monday" (Some "2024-06-03") "09:00" "10:00"] ∅
              = ([session "Asha" "Monday" (Some "2024-06-03") "09:00" "10:00"],
                 {["Monday-09:00-Asha"]}))
    by (vm_compute; reflexivity).
  exact (proj2 (proj2 (proj2 (proj2
           (checkUpcomingClasses_spec (mkWallClock 1 8 45) _ ∅ _ "Monday" _
              eq_refl eq_refl H))))).
Defined.

(** ** The next class of today *)

Lemma find_first_sorted {A : Type} (R : A -> A -> Prop) (p : A -> bool)
    (l : list A) (c : A) :
  (forall x, R x x) -> StronglySorted R l -> List.find p l = Some c ->
  In c l /\ p c = true /\ forall c', In c' l -> p c' = true -> R c c'.
Proof.
  intros Hrefl Hs. induction Hs as [|x l Hs IH Hall]; simpl; [discriminate|].
  destruct (p x) eqn:Hp.
  - intros [= <-]. split; [now left|]. split; [exact Hp|].
    intros c' [<-|Hc'] _; [apply Hrefl|].
    rewrite List.Forall_forall in Hall. now apply Hall.
  - intros Hf. destruct (IH Hf) as (Hin & Hpc & Hmin).
    split; [now right|]. split; [exact Hpc|].
    intros c' [<-|Hc'] Hp'; [congruence|now apply Hmin].
Qed.

(** X25. [showNextClassInfo] announces the earliest class still to come.
    With [HH:MM] start and end times on today's sessions: when the search
    finds a session, it is a stored session of today, neither cancelled
    nor pending, that starts after the current minute, and no other such
    session starts earlier; when it finds none, no confirmed session of
    today starts after the current minute. *)
Theorem nextClassOf_spec (now : WallClock) (classes : list Session)
    (d : string) :
  currentDayOf (wc_getDay now) = Some d ->
  (forall c, In c classes -> day c = d -> wfSession c) ->
  let cur := wc_getHours now * 60 + wc_getMinutes now in
  match nextClassOf now classes with
  | Some c =>
      In c classes /\ day c = d /\ confirmed c = true /\
      cur < minutesOf (start c) /\
      forall c', In c' classes -> day c' = d -> confirmed c' = true ->
                 cur < minutesOf (start c') ->
                 minutesOf (start c) <= minutesOf (start c')
  | None =>
      forall c', In c' classes -> day c' = d -> confirmed c' = true ->
                 minutesOf (start c') <= cur
  end.
Proof.
  intros Hd Hwf cur. unfold nextClassOf. rewrite Hd. fold cur.
  set (T := todayClassesOf classes (Some d)).
  set (p := fun c : Session =>
              match parseTime (start c) with
              | Some (hours, minutes) => hours * 60 + minutes >? cur
              | None => false
              end).
  assert (HT : forall c, In c T -> wfSession c).
  { intros c Hc. apply todayClassesOf_In in Hc as (Hc & Hday & _). auto. }
  assert (Hp : forall c, In c T -> p c = (minutesOf (start c) >? cur)).
  { intros c Hc. destruct (HT c Hc) as [Hs _].
    destruct (wfTime_parse _ Hs) as (h & m & Hpar & _).
    unfold p, minutesOf. now rewrite Hpar. }
  assert (Hin : forall c, In c (List.map snd (sort_by_start (indexed T)))
                          <-> In c T).
  { intros c. rewrite in_map_iff. split.
    - intros ([i c0] & <- & Hic). apply sort_by_start_In, indexed_In in Hic.
      simpl. apply list_elem_of_In, list_elem_of_lookup. eauto.
    - intros Hc. apply list_elem_of_In, list_elem_of_lookup in Hc as [i Hi].
      exists (i, c). split; [reflexivity|].
      now apply sort_by_start_In, indexed_In. }
  assert (Hsorted : StronglySorted startsBefore
                      (List.map snd (sort_by_start (indexed T)))).
  { apply StronglySorted_map_snd, sort_by_start_sorted.
    apply List.Forall_forall. intros [i c] Hic. apply indexed_In in Hic.
    simpl. apply HT. apply list_elem_of_In, list_elem_of_lookup. eauto. }
  destruct (List.find p _) as [c|] eqn:Hfind.
  - apply (find_first_sorted startsBefore) in Hfind as (Hc & Hpc & Hmin);
      [|intros x; unfold startsBefore; lia|exact Hsorted].
    apply Hin in Hc. rewrite (Hp c Hc) in Hpc.
    rewrite Z.gtb_ltb in Hpc. apply Z.ltb_lt in Hpc.
    destruct (proj1 (todayClassesOf_In _ _ _) Hc) as (H1 & H2 & H3).
    repeat split; auto.
    intros c' Hc' Hday' Hconf' Hlate.
    assert (Hc'T : In c' T) by (apply todayClassesOf_In; auto).
    apply Hmin; [now apply Hin|].
    rewrite (Hp c' Hc'T), Z.gtb_ltb. now apply Z.ltb_lt.
  - intros c' Hc' Hday' Hconf'.
    assert (Hc'T : In c' T) by (apply todayClassesOf_In; auto).
    pose proof (find_none _ _ Hfind c' (proj2 (Hin c') Hc'T)) as Hnone.
    rewrite (Hp c' Hc'T), Z.gtb_ltb in Hnone. now apply Z.ltb_ge in Hnone.
Qed.

Lemma nextClassOf_spec_witness :
  nextClassOf (mkWallClock 1 8 45)
    [session "Ravi" "Monday" (Some "2024-06-03") "11:00" "12:00";
     session "Asha" "Monday" (Some "2024-06-03") "09:00" "10:00"]
  = Some (session "Asha" "Monday" (Some "2024-06-03") "09:00" "10:00")
  /\ 8 * 60 + 45 < minutesOf "09:00".
Proof.
  split; [vm_compute; reflexivity|].
  refine (proj1 (proj2 (proj2 (proj2
            (nextClassOf_spec (mkWallClock 1 8 45)
               [session "Ravi" "Monday" (Some "2024-06-03") "11:00" "12:00";
                session "Asha" "Monday" (Some "2024-06-03") "09:00" "10:00"]
               "Monday" eq_refl _))))).
  intros c [<-|[<-|[]]] _; split; reflexivity.
Defined.

(** ** Weekday conventions *)

(** X26. The three weekday numberings agree. For a value [g] of
    [getDay()] (0 = Sunday): the step [mondayDiff] of [getWeekStartDate]
    goes back at most six days and lands on a Monday; the name
    [currentDayOf] gives for today is a day of [DAYS], [dayIndexMap]
    (used by [isClassCompleted]) sends it back to [g], and its position in
    [DAYS] added to [mondayDiff] is 0, so that the date computed for
    today's name in the week of offset 0 is today; and [daysUntilNext]
    from any weekday [t] to [g] is between 1 and 7 days and lands on
    weekday [g]. *)
Theorem weekday_conventions (g : Z) :
  0 <= g <= 6 ->
  -6 <= mondayDiff g <= 0 /\ (g + mondayDiff g) mod 7 = 1 /\
  (exists d, currentDayOf g = Some d /\ In d DAYS /\
             dayIndexMap d = Some g /\ DAYS_indexOf d + mondayDiff g = 0) /\
  forall t, 0 <= t <= 6 ->
    1 <= daysUntilNext t g <= 7 /\ (t + daysUntilNext t g) mod 7 = g.
Proof.
  intros Hg.
  assert (Hcases : g = 0 \/ g = 1 \/ g = 2 \/ g = 3 \/ g = 4 \/ g = 5 \/ g = 6)
    by lia.
  split; [|split; [|split]].
  - unfold mondayDiff. destruct (g =? 0) eqn:H0; lia.
  - unfold mondayDiff. destruct (Z.eqb_spec g 0) as [->|Hn]; [reflexivity|].
    replace (g + (1 - g)) with 1 by lia. reflexivity.
  - repeat (destruct Hcases as [->|Hcases]; [eexists; vm_compute; tauto|]).
    subst g. eexists. vm_compute. tauto.
  - intros t Ht. unfold daysUntilNext.
    destruct (Z.leb_spec (g - t) 0) as [Hle|Hgt].
    + split; [lia|]. replace (t + (g - t + 7)) with (g + 1 * 7) by lia.
      rewrite Z.mod_add by lia. apply Z.mod_small. lia.
    + split; [lia|]. replace (t + (g - t)) with g by lia.
      apply Z.mod_small. lia.
Qed.

Lemma weekday_conventions_witness :
  1 <= daysUntilNext 3 3 <= 7 /\ (3 + daysUntilNext 3 3) mod 7 = 3.
Proof.
  apply (proj2 (proj2 (proj2 (weekday_conventions 3 ltac:(lia))))). lia.
Defined.

(** ** The suggested slots and the working hours *)

Lemma sweep_bounds (d ub : Z) :
  0 <= d ->
  forall R : list Session,
    Forall wfSession R ->
    Forall (fun c => minutesOf (start c) <= ub) R ->
    forall (slots : list Slot) (cur : string),
      wfTime cur = true -> 480 <= minutesOf cur ->
      Forall (fun s => 480 <= minutesOf (slot_start s)
                       /\ minutesOf (slot_end s) <= ub) slots ->
      forall slots' cur',
        fold_left (sweep_step d) R (slots, cur) = (slots', cur') ->
        wfTime cur' = true /\ 480 <= minutesOf cur' /\
        Forall (fun s => 480 <= minutesOf (slot_start s)
                         /\ minutesOf (slot_end s) <= ub) slots'.
Proof.
  intros Hd R. induction R as [|c R IH];
    intros Hwf Hub slots cur Hcur Hlo Hall slots' cur' Hfold.
  - simpl in Hfold. injection Hfold as <- <-. auto.
  - cbn [fold_left] in Hfold. rewrite sweep_step_eq in Hfold.
    apply Forall_cons in Hwf as [[Hcs Hce] Hwf].
    apply Forall_cons in Hub as [Hc Hub].
    eapply (IH Hwf Hub); [| |
      |exact Hfold].
    + destruct (String.ltb cur (end_ c)); assumption.
    + destruct (String.ltb cur (end_ c)) eqn:Hlt; [|exact Hlo].
      rewrite ltb_wf in Hlt by assumption. apply Z.ltb_lt in Hlt. lia.
    + destruct (emit_slot_cases d slots cur (start c) Hd Hcur Hcs)
        as [->|(-> & Hgap & Hw & Hm)]; [exact Hall|].
      apply Forall_app. split; [exact Hall|].
      constructor; [|constructor]. simpl. lia.
Qed.

(** X27. The suggestions and the working hours. With [HH:MM] times on
    the sessions of the requested day and a duration [d >= 0], no
    suggested slot starts before 08:00; and when every session of that
    day starts at 20:00 or earlier, every suggested slot ends by 20:00. *)
Theorem findAvailableSlots_within_hours (classes : list Session)
    (editingIndex : option nat) (d : Z) (day_ : string) :
  0 <= d ->
  (forall c, In c classes -> day c = day_ -> wfSession c) ->
  let slots := findAvailableSlots classes editingIndex d day_ in
  (forall s, In s slots -> minutesOf "08:00" <= minutesOf (slot_start s)) /\
  ((forall c, In c classes -> day c = day_ ->
      minutesOf (start c) <= minutesOf "20:00") ->
   forall s, In s slots -> minutesOf (slot_end s) <= minutesOf "20:00").
Proof.
  intros Hd Hwf slots.
  destruct (relevantClasses_facts classes editingIndex day_ Hwf)
    as (HRwf & _ & _).
  assert (HRin : forall c,
            In c (List.map snd
                    match editingIndex with
                    | Some e =>
                        List.filter (fun ic => negb (Nat.eqb (fst ic) e))
                          (sort_by_start
                             (List.filter
                                (fun ic => String.eqb (day (snd ic)) day_)
                                (indexed classes)))
                    | None =>
                        sort_by_start
                          (List.filter
                             (fun ic => String.eqb (day (snd ic)) day_)
                             (indexed classes))
                    end) ->
            In c classes /\ day c = day_).
  { intros c Hc. apply in_map_iff in Hc as ([i c0] & <- & Hic).
    assert (Hic' : In (i, c0)
                     (sort_by_start
                        (List.filter (fun ic => String.eqb (day (snd ic)) day_)
                                     (indexed classes)))).
    { destruct editingIndex; [|exact Hic]. now apply filter_In in Hic as [Hic _]. }
    apply sort_by_start_In, filter_In in Hic' as [Hin Hday].
    apply indexed_In in Hin. simpl in *. apply String.eqb_eq in Hday.
    split; [|exact Hday]. apply list_elem_of_In, list_elem_of_lookup. eauto. }
  subst slots. unfold findAvailableSlots.
  set (R := List.map snd _) in *.
  change (JS.padStart2 (JS.String_of WORKING_HOURS_start) +:+ ":00")
    with "08:00".
  change (JS.padStart2 (JS.String_of WORKING_HOURS_end) +:+ ":00")
    with "20:00".
  change (minutesOf "08:00") with 480. change (minutesOf "20:00") with 1200.
  destruct (fold_left (sweep_step d) R ([], "08:00")) as [found cur] eqn:Hfold.
  fold (emit_slot d found cur "20:00").
  assert (Htake : forall s, In s (firstn 4 (emit_slot d found cur "20:00")) ->
                            In s (emit_slot d found cur "20:00")).
  { intros s Hs. rewrite <- (firstn_skipn 4 (emit_slot _ _ _ _)).
    apply in_or_app. now left. }
  assert (Hgen : forall ub, 1200 <= ub ->
            Forall (fun c => minutesOf (start c) <= ub) R ->
            Forall (fun s => 480 <= minutesOf (slot_start s)
                             /\ minutesOf (slot_end s) <= ub)
                   (emit_slot d found cur "20:00")).
  { intros ub Hub HR.
    destruct (sweep_bounds d ub Hd R HRwf HR [] "08:00" eq_refl) 
      with (slots' := found) (cur' := cur) as (Hcur & Hlo & Hall);
      [vm_compute; discriminate|constructor|exact Hfold|].
    destruct (emit_slot_cases d found cur "20:00" Hd Hcur eq_refl)
      as [->|(-> & Hgap & Hw & Hm)]; [exact Hall|].
    apply Forall_app. split; [exact Hall|].
    constructor; [|constructor]. simpl.
    change (minutesOf "20:00") with 1200 in Hgap. lia. }
  split.
  - intros s Hs. apply Htake in Hs.
    assert (HR : Forall (fun c => minutesOf (start c) <= 1440) R).
    { apply List.Forall_forall. intros c Hc.
      rewrite List.Forall_forall in HRwf. destruct (HRwf c Hc) as [Hcs _].
      pose proof (wfTime_minutes_range _ Hcs). lia. }
    pose proof (Hgen 1440 ltac:(lia) HR) as Hall.
    rewrite List.Forall_forall in Hall. now apply Hall.
  - intros Hearly s Hs. apply Htake in Hs.
    assert (HR : Forall (fun c => minutesOf (start c) <= 1200) R).
    { apply List.Forall_forall. intros c Hc.
      destruct (HRin c Hc) as [Hin Hday]. now apply Hearly. }
    pose proof (Hgen 1200 ltac:(lia) HR) as Hall.
    rewrite List.Forall_forall in Hall. now apply Hall.
Qed.

Lemma findAvailableSlots_within_hours_witness :
  findAvailableSlots
    [session "Asha" "Monday" (Some "2024-06-03") "08:00" "19:30"]
    None 30 "Monday" = [mkSlot "19:30" "20:00"]
  /\ minutesOf "08:00" <= minutesOf (slot_start (mkSlot "19:30" "20:00")).
Proof.
  split; [vm_compute; reflexivity|].
  refine (proj1 (findAvailableSlots_within_hours
                   [session "Asha" "Monday" (Some "2024-06-03") "08:00" "19:30"]
                   None 30 "Monday" _ _) (mkSlot "19:30" "20:00") _).
  - lia.
  - intros c [<-|[]] _. split; reflexivity.
  - vm_compute. left. reflexivity.
Defined.

(** ** The warning banner after a week copy *)

(** X28. The warning banner does not look at dates. [checkForClashes]
    compares the sessions of one weekday name whatever their week, so a
    session and its copy in the next week count as a clash: when the
    stored sessions are active, untagged, on days of [DAYS] and end after
    they start, the flag is raised after every run of [copyAllToNextWeek]
    that adds a session, although the gate found each copy free of
    clashes. *)
Theorem week_copy_raises_banner (weekDayDate : Z -> Z -> string)
    (st st' : State) (a s : nat) :
  copyAllToNextWeek weekDayDate st = (Copied a s, st') ->
  (0 < a)%nat ->
  (forall c, In c (classes st) ->
     cancelled c = false /\ allowedClash c = false /\ In (day c) DAYS /\
     String.ltb (start c) (end_ c) = true) ->
  checkForClashes (classes st') = true.
Proof.
  intros H Ha Hst. unfold copyAllToNextWeek in H.
  set (xs := getClassesInRange _ _ _) in *.
  destruct (fold_left (copy_week_step weekDayDate st) xs (classes st, 0%nat, 0%nat))
    as [[l a'] s'] eqn:Hfold.
  assert (Hres : a' = a /\ st' = set_classes st l).
  { destruct xs; [discriminate|]. injection H as <- <- <-. auto. }
  destruct Hres as (-> & ->). clear H.
  apply (copy_fold_invariant _ _ (copy_week_step_cases weekDayDate st))
    in Hfold as (added & -> & Hlen & _ & Hall).
  destruct added as [|c0 rest]; [simpl in Hlen; lia|].
  destruct (Hall 0%nat c0 eq_refl) as [(cls & Hin & ->) _].
  assert (Hcls : In cls (classes st)).
  { subst xs. unfold getClassesInRange in Hin.
    now apply filter_In in Hin as [Hin _]. }
  destruct (Hst cls Hcls) as (Hcan & Htag & Hday & Hlt).
  apply list_elem_of_In, list_elem_of_lookup in Hcls as [i Hi].
  assert (Hlti : (i < length (classes st))%nat)
    by (apply lookup_lt_is_Some; eauto).
  unfold checkForClashes. apply existsb_exists.
  exists (day cls). split; [exact Hday|].
  apply unexpected_pair_filter.
  exists i, (length (classes st)), cls, (next_week_copy weekDayDate st cls).
  cbn [classes set_classes].
  split; [exact Hlti|]. split; [now rewrite lookup_app_l|].
  split.
  { rewrite lookup_app_r by lia. now rewrite Nat.sub_diag. }
  simpl. rewrite String.eqb_refl, Hcan.
  unfold timesOverlap. simpl. rewrite Hlt. auto.
Qed.

Lemma week_copy_raises_banner_witness :
  checkForClashes
    [session "Asha" "Monday" (Some "2024-06-03") "09:00" "10:00";
     session "Asha" "Monday" (Some "2024-06-10") "09:00" "10:00"] = true.
Proof.
  refine (week_copy_raises_banner
            (fun o i => if o =? 0 then "2024-06-03" else "2024-06-10")
            (mkState [session "Asha" "Monday" (Some "2024-06-03")
                        "09:00" "10:00"] None 0 60 false 500 ∅ ∅)
            (mkState [session "Asha" "Monday" (Some "2024-06-03")
                        "09:00" "10:00";
                      session "Asha" "Monday" (Some "2024-06-10")
                        "09:00" "10:00"] None 0 60 false 500 ∅ ∅)
            1 0 eq_refl _ _).
  - lia.
  - intros c [<-|[]]. simpl. auto.
Defined.
